(** * hfd.py: download-plan derivation and retry orchestration

    A shallow embedding of [src/hfd.py] and the properties of its
    pattern matcher, fingerprint, plan invalidator, plan generator,
    gated-access check, verifier and retry loop.

    Conventions.
    - A Python [str] is a [string]; a character is an [ascii] code point
      (0..255).  The argument of [validate_number] is a list of code
      points of any size, since [str.isdigit] and [int] take the digits
      of every script.
    - Library functions the program calls ([re], [str] methods,
      [os.path], [pathlib]) are modelled next to the code that uses
      them, each in its own module; [json.loads], with the exceptions it
      can raise, the built-in [str()] and the Unicode database are taken
      as parameters of the sections that need them.
    - A function that can end the process returns an [outcome]. *)

From Stdlib Require Import Bool List ZArith Lia Ascii String.
From Stdlib Require Import DecimalString DecimalN DecimalPos.
From Equations Require Import Equations.
Import ListNotations.
Open Scope bool_scope.
Open Scope list_scope.
Open Scope string_scope.

(* ================================================================== *)
(** * Python strings *)
(* ================================================================== *)

Module Py.

(** Characters that are written by code in this file. *)
Definition LF : ascii := "010"%char.
Definition CR : ascii := "013"%char.
Definition DQUOTE : ascii := "034"%char.

Definition chr (c : ascii) : string := String c EmptyString.

(** [sep.join(l)]. *)
Definition join (sep : string) (l : list string) : string := String.concat sep l.

(** Truthiness of a [str]: [bool(s)]. *)
Definition str_truthy (s : string) : bool := negb (s =? "").

(** Truthiness of an optional [str] ([None] or a string), as in
    [if args.hf_token:]. *)
Definition opt_truthy (o : option string) : bool :=
  match o with
  | None => false
  | Some s => str_truthy s
  end.

(** [o or ''] for an optional [str]. *)
Definition or_empty (o : option string) : string :=
  match o with
  | None => ""
  | Some s => if str_truthy s then s else ""
  end.

(** [c * n] for a character [c]. *)
Fixpoint times (c : ascii) (n : nat) : string :=
  match n with
  | O => EmptyString
  | S k => String c (times c k)
  end.

(** [s.startswith(p)]. *)
Fixpoint startswith (p s : string) : bool :=
  match p with
  | EmptyString => true
  | String a p' =>
      match s with
      | EmptyString => false
      | String b s' => (a =? b)%char && startswith p' s'
      end
  end.

(** [sub in s]. *)
Fixpoint contains (sub s : string) : bool :=
  startswith sub s ||
  match s with
  | EmptyString => false
  | String _ t => contains sub t
  end.

(** [s[n:]]. *)
Fixpoint drop (n : nat) (s : string) : string :=
  match n, s with
  | S k, String _ t => drop k t
  | _, _ => s
  end.

(** [s.replace(old, new)] for a non-empty [old]: occurrences are replaced
    from left to right and do not overlap.  [skip] counts the characters
    of an occurrence that are still to be dropped. *)
Fixpoint replace_go (old new : string) (skip : nat) (s : string) : string :=
  match s with
  | EmptyString => EmptyString
  | String c t =>
      match skip with
      | S k => replace_go old new k t
      | O =>
          if startswith old s
          then new ++ replace_go old new (String.length old - 1) t
          else String c (replace_go old new 0 t)
      end
  end.

Definition replace (old new s : string) : string := replace_go old new 0 s.

(** [str.isspace] on one code point below 256: TAB, LF, VT, FF, CR, the
    separators FS, GS, RS, US, the space, NEL (0x85) and NBSP (0xA0). *)
Definition isspace (c : ascii) : bool :=
  let n := nat_of_ascii c in
  ((9 <=? n) && (n <=? 13) || (28 <=? n) && (n <=? 32) ||
   (n =? 133) || (n =? 160))%nat.

Fixpoint lstrip (s : string) : string :=
  match s with
  | EmptyString => EmptyString
  | String c t => if isspace c then lstrip t else s
  end.

Fixpoint rstrip (s : string) : string :=
  match s with
  | EmptyString => EmptyString
  | String c t =>
      match rstrip t with
      | EmptyString => if isspace c then EmptyString else chr c
      | r => String c r
      end
  end.

(** [s.strip()]. *)
Definition strip (s : string) : string := rstrip (lstrip s).

End Py.

(* ================================================================== *)
(** * The [re] module, as far as the program uses it *)
(* ================================================================== *)

Module Re.

(** The characters [re.escape] puts a backslash before (Python 3.7 and
    later): [()[]{}?*+-|^$\.&~#], the space, TAB, LF, CR, VT and FF. *)
Definition special_chars : list ascii :=
  list_ascii_of_string "()[]{}?*+-|^$\.&~# " ++
  ["009"; "010"; "013"; "011"; "012"]%char.

Definition is_special (c : ascii) : bool := existsb (Ascii.eqb c) special_chars.

(** [re.escape(p)]. *)
Fixpoint escape (p : string) : string :=
  match p with
  | EmptyString => EmptyString
  | String c t =>
      if is_special c then String "\" (String c (escape t))
      else String c (escape t)
  end.

(** ** Regular expressions

    The patterns the program builds use literals, escaped literals, the
    dot, the star and alternation at top level.  A pattern text outside
    this fragment is not parsed ([None]). *)

Inductive atom : Type :=
  | ALit (c : ascii)   (* this character *)
  | AAny.              (* [.]: any character except the line feed *)

Inductive token : Type :=
  | TAtom (a : atom)
  | TStar
  | TBar.

Inductive piece : Type :=
  | POne (a : atom)
  | PStar (a : atom).

(** A branch is a sequence of pieces; a regex is an alternation of
    branches. *)
Definition branch : Type := list piece.
Definition regex : Type := list branch.

Definition is_alnum (c : ascii) : bool :=
  let n := nat_of_ascii c in
  ((48 <=? n) && (n <=? 57) || (65 <=? n) && (n <=? 90) ||
   (97 <=? n) && (n <=? 122))%nat.

(** Characters with a meaning of their own in a pattern. *)
Definition is_meta (c : ascii) : bool :=
  existsb (Ascii.eqb c) (list_ascii_of_string ".^$*+?{}[]\|()").

Fixpoint tokens (r : string) : option (list token) :=
  match r with
  | EmptyString => Some []
  | String c t =>
      if (c =? "\")%char then
        match t with
        | EmptyString => None
        | String e u =>
            if is_alnum e then None
            else option_map (cons (TAtom (ALit e))) (tokens u)
        end
      else if (c =? ".")%char then option_map (cons (TAtom AAny)) (tokens t)
      else if (c =? "*")%char then option_map (cons TStar) (tokens t)
      else if (c =? "|")%char then option_map (cons TBar) (tokens t)
      else if is_meta c then None
      else option_map (cons (TAtom (ALit c))) (tokens t)
  end.

(** Puts a piece in front of the first branch. *)
Definition push (p : piece) (re : regex) : regex :=
  match re with
  | [] => [[p]]
  | b :: bs => (p :: b) :: bs
  end.

Fixpoint build (ts : list token) : option regex :=
  match ts with
  | [] => Some [[]]
  | TBar :: r => option_map (cons []) (build r)
  | TStar :: _ => None
  | TAtom a :: r =>
      match r with
      | TStar :: r' => option_map (push (PStar a)) (build r')
      | _ => option_map (push (POne a)) (build r)
      end
  end.

Definition parse (r : string) : option regex :=
  match tokens r with
  | None => None
  | Some ts => build ts
  end.

Definition atom_ok (a : atom) (c : ascii) : bool :=
  match a with
  | ALit x => (x =? c)%char
  | AAny => negb (c =? Py.LF)%char
  end.

(** Does the branch match a prefix of [s]? *)
Fixpoint match_here (b : branch) (s : string) {struct b} : bool :=
  match b with
  | [] => true
  | POne a :: r =>
      match s with
      | EmptyString => false
      | String c t => atom_ok a c && match_here r t
      end
  | PStar a :: r =>
      (fix star (s : string) : bool :=
         match_here r s ||
         match s with
         | EmptyString => false
         | String c t => atom_ok a c && star t
         end) s
  end.

(** Does some branch match at some position of [s]? *)
Fixpoint search_from (re : regex) (s : string) : bool :=
  existsb (fun b => match_here b s) re ||
  match s with
  | EmptyString => false
  | String _ t => search_from re t
  end.

(** [bool(re.search(pattern, s))]: a match object is truthy, [None] is
    not. *)
Definition search (pattern s : string) : option bool :=
  option_map (fun re => search_from re s) (parse pattern).

End Re.

(* ================================================================== *)
(** * [os.path] (POSIX) and [pathlib] joins *)
(* ================================================================== *)

Module PosixPath.

Definition SLASH : ascii := "/"%char.

(** Splits at the last slash: [(p[:i], p[i:])] with [i = p.rfind('/') + 1]. *)
Fixpoint split_last_slash (p : string) : string * string :=
  match p with
  | EmptyString => (EmptyString, EmptyString)
  | String c t =>
      if Py.contains "/" t
      then let (h, b) := split_last_slash t in (String c h, b)
      else if (c =? SLASH)%char then (Py.chr c, t)
      else (EmptyString, p)
  end.

Fixpoint all_slashes (s : string) : bool :=
  match s with
  | EmptyString => true
  | String c t => (c =? SLASH)%char && all_slashes t
  end.

(** [s.rstrip('/')]. *)
Fixpoint rstrip_slashes (s : string) : string :=
  match s with
  | EmptyString => EmptyString
  | String c t =>
      match rstrip_slashes t with
      | EmptyString => if (c =? SLASH)%char then EmptyString else Py.chr c
      | r => String c r
      end
  end.

(** [os.path.dirname(p)]: the head up to the last slash, without its
    trailing slashes unless it consists of slashes only. *)
Definition dirname (p : string) : string :=
  let head := fst (split_last_slash p) in
  if negb (head =? "") && negb (all_slashes head)
  then rstrip_slashes head
  else head.

(** [os.path.basename(p)]: what follows the last slash. *)
Definition basename (p : string) : string := snd (split_last_slash p).

(** ** [pathlib.PurePosixPath]

    A path is a root and its parts.  The parts of a text are what stands
    between its slashes, without the empty parts and the parts ["."]; a
    part [".."] stays.  The root is empty for a relative text, two
    slashes for a text that begins with exactly two, and one slash for
    every other text that begins with a slash. *)

(** [s.split('/')]. *)
Fixpoint split_slash (s : string) : list string :=
  match s with
  | EmptyString => [EmptyString]
  | String c t =>
      if (c =? SLASH)%char then EmptyString :: split_slash t
      else
        match split_slash t with
        | x :: rest => String c x :: rest
        | [] => [Py.chr c]
        end
  end.

Definition is_part (x : string) : bool := negb (x =? "") && negb (x =? ".").

Definition path_parts (s : string) : list string :=
  filter is_part (split_slash s).

Definition path_root (s : string) : string :=
  if Py.startswith "///" s then "/"
  else if Py.startswith "//" s then "//"
  else if Py.startswith "/" s then "/"
  else "".

Record path : Type := { root : string; parts : list string }.

(** [PurePosixPath(s)]. *)
Definition Path (s : string) : path :=
  {| root := path_root s; parts := path_parts s |}.

(** [p / s] for a text [s]: a text with a root stands for itself. *)
Definition joinpath (p : path) (s : string) : path :=
  if path_root s =? "" then
    {| root := root p; parts := (parts p ++ path_parts s)%list |}
  else Path s.

(** [str(p)]. *)
Definition str (p : path) : string :=
  let text := root p ++ Py.join "/" (parts p) in
  if text =? "" then "." else text.

End PosixPath.

(* ================================================================== *)
(** * Decoded JSON values *)
(* ================================================================== *)

Module Json.

#[local] Set Warnings "-register-all".

(** What [json.loads] returns: [None], [bool], [int], [str], [list] and
    [dict] (with [str] keys, in document order).  Numbers are integers:
    the one number of a manifest is a byte size. *)
Inductive json : Type :=
  | JNull
  | JBool (b : bool)
  | JNum (n : Z)
  | JStr (s : string)
  | JArr (items : list json)
  | JObj (members : list (string * json)).

(** [bool(v)]. *)
Definition truthy (v : json) : bool :=
  match v with
  | JNull => false
  | JBool b => b
  | JNum n => negb (n =? 0)%Z
  | JStr s => Py.str_truthy s
  | JArr items => match items with [] => false | _ => true end
  | JObj members => match members with [] => false | _ => true end
  end.

Fixpoint lookup (key : string) (members : list (string * json)) : option json :=
  match members with
  | [] => None
  | (k, v) :: rest => if k =? key then Some v else lookup key rest
  end.

(** [d.get(key, default)] on the members of a [dict]. *)
Definition dict_get (members : list (string * json)) (key : string)
    (default : json) : json :=
  match lookup key members with
  | Some v => v
  | None => default
  end.

Fixpoint chars (s : string) : list json :=
  match s with
  | EmptyString => []
  | String c t => JStr (Py.chr c) :: chars t
  end.

(** What [for x in v] goes through: the items of a list, the characters
    of a string, the keys of a dict; other values are not iterable
    ([None] here, a [TypeError] there). *)
Definition iter (v : json) : option (list json) :=
  match v with
  | JArr items => Some items
  | JStr s => Some (chars s)
  | JObj members => Some (map (fun kv => JStr (fst kv)) members)
  | _ => None
  end.

(** [size != v] for an [int] size: [True] equals 1 and [False] equals 0,
    and an [int] differs from every value that is not a number. *)
Definition int_ne (size : Z) (v : json) : bool :=
  match v with
  | JNum n => negb (size =? n)%Z
  | JBool b => negb (size =? (if b then 1 else 0))%Z
  | _ => true
  end.

(** ** A reference decoder

    The program is studied for every [json.loads]; the examples need its
    outcome on a few concrete texts.  [document] reads the part of JSON
    they use: objects, arrays, strings without escapes, integers,
    [true], [false], [null] and blanks.  On other texts (escapes,
    fractions, exponents, [NaN] and the infinities) it answers as on a
    malformed text, and no example uses it there.

    Two errors of [json.loads] are not a [JSONDecodeError].  The scanner
    enters a recursive call for every object and array, and a
    [RecursionError] ends it where the interpreter has no room for one
    more; and [int] refuses, with a [ValueError], a literal of more
    digits than [sys.get_int_max_str_digits()].  [room] is the number of
    objects and arrays inside one another that the interpreter has room
    for, and [limit] the digit limit, zero when there is none. *)

Inductive failure : Type :=
  | Malformed        (* [JSONDecodeError] *)
  | TooDeep          (* [RecursionError] *)
  | TooManyDigits.   (* [ValueError] *)

Definition is_blank (c : ascii) : bool :=
  (c =? " ")%char || (c =? "009")%char || (c =? "010")%char || (c =? "013")%char.

Fixpoint skip_blanks (s : string) : string :=
  match s with
  | EmptyString => EmptyString
  | String c t => if is_blank c then skip_blanks t else s
  end.

(** After an opening quote: the text up to the closing quote, and what
    follows it.  A control character ends the decoding, and so does,
    here, an escape. *)
Fixpoint string_body (s : string) : option (string * string) :=
  match s with
  | EmptyString => None
  | String c t =>
      if (c =? Py.DQUOTE)%char then Some (EmptyString, t)
      else if (c =? "\")%char then None
      else if (nat_of_ascii c <? 32)%nat then None
      else
        match string_body t with
        | Some (body, rest) => Some (String c body, rest)
        | None => None
        end
  end.

Definition digit_value (c : ascii) : option Z :=
  let n := nat_of_ascii c in
  if ((48 <=? n) && (n <=? 57))%nat then Some (Z.of_nat n - 48)%Z else None.

(** The digits at the start of [s], read after the value [acc] of
    [count] digits. *)
Fixpoint digits (acc : Z) (count : nat) (s : string) : Z * nat * string :=
  match s with
  | EmptyString => (acc, count, s)
  | String c t =>
      match digit_value c with
      | Some d => digits (10 * acc + d)%Z (S count) t
      | None => (acc, count, s)
      end
  end.

(** An integer literal without its sign: its value, the number of its
    digits, and what follows it. *)
Definition number (s : string) : option (Z * nat * string) :=
  match s with
  | String c t =>
      match digit_value c with
      | Some d =>
          if (d =? 0)%Z then
            match t with
            | String c' _ =>
                match digit_value c' with
                | Some _ => None
                | None => Some (0%Z, 1, t)
                end
            | EmptyString => Some (0%Z, 1, t)
            end
          else Some (digits d 1 t)
      | None => None
      end
  | EmptyString => None
  end.

Definition after_number_ok (s : string) : bool :=
  match s with
  | String c _ => negb ((c =? ".")%char || (c =? "e")%char || (c =? "E")%char)
  | EmptyString => true
  end.

(** The literal is matched first and converted by [int] then. *)
Definition integer (limit : nat) (negative : bool) (s : string)
    : failure + (json * string) :=
  match number s with
  | Some (z, count, rest) =>
      if after_number_ok rest then
        if (negb (limit =? 0) && (limit <? count))%nat then inl TooManyDigits
        else inr (JNum (if negative then - z else z), rest)
      else inl Malformed
  | None => inl Malformed
  end.

Fixpoint value (limit fuel room : nat) (s : string) {struct fuel}
    : failure + (json * string) :=
  match fuel with
  | O => inl Malformed
  | S n =>
      match skip_blanks s with
      | EmptyString => inl Malformed
      | String c t as s' =>
          if (c =? "{")%char then
            match room with
            | O => inl TooDeep
            | S room' =>
                match skip_blanks t with
                | String c' r =>
                    if (c' =? "}")%char then inr (JObj [], r)
                    else
                      match members limit n room' t with
                      | inr (kvs, rest) => inr (JObj kvs, rest)
                      | inl e => inl e
                      end
                | EmptyString => inl Malformed
                end
            end
          else if (c =? "[")%char then
            match room with
            | O => inl TooDeep
            | S room' =>
                match skip_blanks t with
                | String c' r =>
                    if (c' =? "]")%char then inr (JArr [], r)
                    else
                      match items limit n room' t with
                      | inr (vs, rest) => inr (JArr vs, rest)
                      | inl e => inl e
                      end
                | EmptyString => inl Malformed
                end
            end
          else if (c =? Py.DQUOTE)%char then
            match string_body t with
            | Some (body, rest) => inr (JStr body, rest)
            | None => inl Malformed
            end
          else if Py.startswith "true" s' then inr (JBool true, Py.drop 4 s')
          else if Py.startswith "false" s' then inr (JBool false, Py.drop 5 s')
          else if Py.startswith "null" s' then inr (JNull, Py.drop 4 s')
          else if (c =? "-")%char then integer limit true t
          else integer limit false s'
      end
  end

with members (limit fuel room : nat) (s : string) {struct fuel}
    : failure + (list (string * json) * string) :=
  match fuel with
  | O => inl Malformed
  | S n =>
      match skip_blanks s with
      | String q t =>
          if (q =? Py.DQUOTE)%char then
            match string_body t with
            | Some (key, rest) =>
                match skip_blanks rest with
                | String colon rest' =>
                    if (colon =? ":")%char then
                      match value limit n room rest' with
                      | inr (v, rest'') =>
                          match skip_blanks rest'' with
                          | String d r =>
                              if (d =? ",")%char then
                                match members limit n room r with
                                | inr (kvs, r') => inr ((key, v) :: kvs, r')
                                | inl e => inl e
                                end
                              else if (d =? "}")%char then inr ([(key, v)], r)
                              else inl Malformed
                          | EmptyString => inl Malformed
                          end
                      | inl e => inl e
                      end
                    else inl Malformed
                | EmptyString => inl Malformed
                end
            | None => inl Malformed
            end
          else inl Malformed
      | EmptyString => inl Malformed
      end
  end

with items (limit fuel room : nat) (s : string) {struct fuel}
    : failure + (list json * string) :=
  match fuel with
  | O => inl Malformed
  | S n =>
      match value limit n room s with
      | inr (v, rest) =>
          match skip_blanks rest with
          | String d r =>
              if (d =? ",")%char then
                match items limit n room r with
                | inr (vs, r') => inr (v :: vs, r')
                | inl e => inl e
                end
              else if (d =? "]")%char then inr ([v], r)
              else inl Malformed
          | EmptyString => inl Malformed
          end
      | inl e => inl e
      end
  end.

(** Nothing but blanks may follow the value.  A character opens at most
    two of the nested calls, so the fuel is enough. *)
Definition document (limit room : nat) (s : string) : failure + json :=
  match value limit (S (2 * String.length s)) room s with
  | inr (v, rest) =>
      match skip_blanks rest with
      | EmptyString => inr v
      | _ => inl Malformed
      end
  | inl e => inl e
  end.

End Json.

(* ================================================================== *)
(** * The program *)
(* ================================================================== *)

Module Hfd.

Import Json.

Definition NL : string := Py.chr Py.LF.

(** ** Outcomes, reports and the working directory *)

(** Exceptions that no handler of the program catches end the process
    with a traceback.  [ReOutsideFragment] stands for a pattern text that
    [Re.parse] does not cover; the program never builds one. *)
Inductive exn : Type :=
  | AttributeError
  | TypeError
  | KeyError
  | JSONDecodeError
  | RecursionError
  | ValueError
  | FileNotFoundError
  | ReOutsideFragment.

Inductive outcome (A : Type) : Type :=
  | Returns (v : A)        (* the function returns [v] *)
  | Exits (code : Z)       (* [sys.exit(code)] *)
  | Raises (e : exn).      (* an exception leaves the function *)

Arguments Returns {A} v.
Arguments Exits {A} code.
Arguments Raises {A} e.

(** The exit status of the process when [main] ends this way. *)
Definition exit_status {A : Type} (o : outcome A) : Z :=
  match o with
  | Returns _ => 0
  | Exits code => code
  | Raises _ => 1
  end.

(** The reports the program prints (the text and its colours are left
    out), and the launches of the external downloader. *)
Inductive message : Type :=
  | FetchingMetadata
  | FetchFailed
  | UsingCachedMetadata
  | AuthRequired
  | GeneratingFileList
  | ResumeFromFileList
  | JsonWarning
  | StartingDownload
  | AttemptOf (attempt max_retries : Z)
  | DownloadCompleted
  | DownloadFailed (returncode : Z)
  | MaxRetriesReached (max_retries : Z)
  | Incomplete (file_path : string).

Inductive event : Type :=
  | Print (m : message)
  | Launch (k : nat).   (* [subprocess.Popen(cmd, ...)], for the k-th time *)

(** Regular files by path, each with the text written to it. *)
Definition store : Type := string -> option string.

Definition exists_ (f : store) (p : string) : bool :=
  match f p with Some _ => true | None => false end.

Definition write (f : store) (p text : string) : store :=
  fun q => if q =? p then Some text else f q.

Definition unlink (f : store) (p : string) : store :=
  fun q => if q =? p then None else f q.

(** Reading in text mode turns CR LF and a lone CR into LF. *)
Fixpoint universal_newlines (s : string) : string :=
  match s with
  | EmptyString => EmptyString
  | String c t =>
      if (c =? Py.CR)%char then
        String Py.LF
          match t with
          | EmptyString => EmptyString
          | String d u =>
              if (d =? Py.LF)%char then universal_newlines u
              else universal_newlines t
          end
      else String c (universal_newlines t)
  end.

(** [open(p, 'r').read()]. *)
Definition read (f : store) (p : string) : option string :=
  option_map universal_newlines (f p).

(** [str(Path(dir) / rel)] where [dir] is the text of a path and [rel]
    one of the fixed relative paths of the program ([.hfd] and the file
    names in it), which are in normal form: an absolute [rel] wins, and
    the directory ["."] leaves no trace.  [local_path] below is the join
    for any text. *)
Definition pjoin (dir rel : string) : string :=
  if Py.startswith "/" rel then rel
  else if dir =? "." then rel
  else dir ++ "/" ++ rel.

(** [str(Path(dir) / name)] for any text [name]: the path is normalised,
    so ["m"] and ["./a.bin"] give ["m/a.bin"]. *)
Definition local_path (dir name : string) : string :=
  PosixPath.str (PosixPath.joinpath (PosixPath.Path dir) name).

(** A computation in a working directory: the store it leaves, what it
    printed and launched, and how it ended. *)
Definition M (A : Type) : Type := store -> store * list event * outcome A.

Definition ret {A : Type} (v : A) : M A := fun f => (f, [], Returns v).

Definition bind {A B : Type} (m : M A) (k : A -> M B) : M B :=
  fun f =>
    match m f with
    | (f1, tr1, Returns v) =>
        match k v f1 with
        | (f2, tr2, o) => (f2, (tr1 ++ tr2)%list, o)
        end
    | (f1, tr1, Exits code) => (f1, tr1, Exits code)
    | (f1, tr1, Raises e) => (f1, tr1, Raises e)
    end.

Definition print (m : message) : M unit := fun f => (f, [Print m], Returns tt).
Definition sys_exit {A : Type} (code : Z) : M A := fun f => (f, [], Exits code).
Definition raise {A : Type} (e : exn) : M A := fun f => (f, [], Raises e).
Definition get_store : M store := fun f => (f, [], Returns f).
Definition put_store (f : store) : M unit := fun _ => (f, [], Returns tt).

Declare Scope hfd_scope.
Delimit Scope hfd_scope with hfd.
Notation "x <- m ;; k" := (bind m (fun x => k))
  (at level 61, m at next level, right associativity) : hfd_scope.
Notation "m ;;; k" := (bind m (fun _ => k))
  (at level 61, right associativity) : hfd_scope.

(** ** Arguments *)

Inductive tool_kind : Type := aria2c | wget.

Definition tool_name (t : tool_kind) : string :=
  match t with
  | aria2c => "aria2c"
  | wget => "wget"
  end.

(** The namespace [parser.parse_args()] returns, once [main] has checked
    that [repo_id] is there and turned [local_dir] into a path.  The
    thread and job counts only reach the downloader's command line and
    are left out. *)
Record args : Type := {
  repo_id : string;
  include : list string;
  exclude : list string;
  hf_username : option string;
  hf_token : option string;
  tool : tool_kind;
  dataset : bool;
  local_dir : string;
  revision : string;
  enable_mirror : bool;
  max_retries : Z
}.

(** The attributes [main] adds to the namespace. *)
Definition hf_endpoint (a : args) : string :=
  if enable_mirror a then "https://hf-mirror.com" else "https://huggingface.co".

Definition download_api_path (a : args) : string :=
  if dataset a then "datasets/" ++ repo_id a else repo_id a.

Definition metadata_api_path (a : args) : string :=
  let base :=
    if dataset a then "datasets/" ++ repo_id a else "models/" ++ repo_id a in
  if revision a =? "main" then base
  else base ++ "/revision/" ++ revision a.

Definition api_url (a : args) : string :=
  hf_endpoint a ++ "/api/" ++ metadata_api_path a.

Definition metadata_file (a : args) : string :=
  pjoin (pjoin (local_dir a) ".hfd") "repo_metadata.json".

Definition fileslist_file (a : args) : string :=
  ".hfd/" ++ tool_name (tool a) ++ "_urls.txt".

(** ** [generate_command_string] *)

Definition generate_command_string (a : args) : string :=
  Py.join " " [
    "REPO_ID=" ++ repo_id a;
    "TOOL=" ++ tool_name (tool a);
    "INCLUDE_PATTERNS=" ++ Py.join " " (include a);
    "EXCLUDE_PATTERNS=" ++ Py.join " " (exclude a);
    "DATASET=" ++ (if dataset a then "1" else "0");
    "HF_USERNAME=" ++ Py.or_empty (hf_username a);
    "HF_TOKEN=" ++ Py.or_empty (hf_token a);
    "HF_ENDPOINT=" ++ hf_endpoint a;
    "REVISION=" ++ revision a
  ].

(** ** The pattern matcher of [generate_file_list] *)

(** ['|'.join(re.escape(p).replace(r'\*', '.*') for p in patterns)
     if patterns else ""]. *)
Definition pattern_regex (patterns : list string) : string :=
  match patterns with
  | [] => ""
  | _ => Py.join "|" (map (fun p => Py.replace "\*" ".*" (Re.escape p)) patterns)
  end.

(** [(not include_regex or re.search(include_regex, file)) and
     (not exclude_regex or not re.search(exclude_regex, file))]. *)
Definition passes (include_regex exclude_regex file : string) : option bool :=
  match
    if Py.str_truthy include_regex then Re.search include_regex file
    else Some true
  with
  | None => None
  | Some false => Some false
  | Some true =>
      if Py.str_truthy exclude_regex
      then option_map negb (Re.search exclude_regex file)
      else Some true
  end.

(** The selection of a file path under the [--include] and [--exclude]
    patterns. *)
Definition selected (incl excl : list string) (file : string) : option bool :=
  passes (pattern_regex incl) (pattern_regex excl) file.

(** ** The retry loop of [main]

    [dl k] is the exit status of the k-th launch of the downloader (the
    launch before the loop is number 0).  The loop ends because
    [max_retries - attempt] decreases. *)
Equations retry_loop (dl : nat -> Z) (maxr attempt : Z) (launched : nat)
  : list event * outcome unit
  by wf (Z.to_nat (maxr - attempt)) lt :=
retry_loop dl maxr attempt launched with Z_lt_dec attempt maxr := {
  | right _ => ([], Returns tt)
  | left _ =>
      let attempt1 := (attempt + 1)%Z in
      let returncode := dl launched in
      if (returncode =? 0)%Z then
        ([Print (AttemptOf attempt1 maxr); Launch launched;
          Print DownloadCompleted], Returns tt)
      else if (attempt1 =? maxr)%Z then
        ([Print (AttemptOf attempt1 maxr); Launch launched;
          Print (DownloadFailed returncode);
          Print (MaxRetriesReached maxr)], Exits 1%Z)
      else
        let (tr, o) := retry_loop dl maxr attempt1 (S launched) in
        (Print (AttemptOf attempt1 maxr) :: Launch launched ::
         Print (DownloadFailed returncode) :: tr, o) }.
Next Obligation. lia. Qed.

(** What surrounds the program: [curl] (for a URL and an optional bearer
    token: its exit status and, when it wrote its output file, the text
    it wrote), the downloader and the sizes of the files on disk. *)
Record environment : Type := {
  curl : string -> option string -> Z * option string;
  downloader : nat -> Z;
  stat_size : string -> option Z
}.

Section Program.

(** [json.loads]: the decoded value, or the exception it raises.  That
    is a [JSONDecodeError] for a text that is not JSON; the scanner can
    also end with a [RecursionError] (objects and arrays too deep inside
    one another) and with the [ValueError] of [int] (an integer of more
    digits than its limit), which are no [JSONDecodeError]. *)
Variable json_loads : string -> exn + json.

(** The built-in [str()] on a decoded value that is not a [str]. *)
Variable py_str : json -> string.

(** ** [fetch_and_save_metadata] *)

Definition fetch_and_save_metadata (env : environment) (a : args)
    (metadata_file : string) : M string :=
  (f <- get_store ;;
   let auth := if Py.opt_truthy (hf_token a) then hf_token a else None in
   let (returncode, written) := curl env (api_url a) auth in
   let f1 :=
     match written with
     | Some body => write f metadata_file body
     | None => f
     end in
   put_store f1 ;;;
   if negb (returncode =? 0)%Z then
     print FetchFailed ;;;
     (if exists_ f1 metadata_file then put_store (unlink f1 metadata_file)
      else ret tt) ;;;
     sys_exit 1%Z
   else
     match read f1 metadata_file with
     | Some text => ret text
     | None => raise FileNotFoundError
     end)%hfd.

(** ** [check_authentication] *)

(** [not args.hf_token or not args.hf_username]. *)
Definition credentials_missing (a : args) : bool :=
  negb (Py.opt_truthy (hf_token a)) || negb (Py.opt_truthy (hf_username a)).

(** The text ["gated":true], quotes included. *)
Definition GATED_TRUE : string :=
  String Py.DQUOTE ("gated" ++ String Py.DQUOTE ":true").

Definition check_authentication (response : string) (a : args) : M unit :=
  match json_loads response with
  | inr data =>
      match data with
      | JObj members =>
          let gated := dict_get members "gated" (JBool false) in
          if truthy gated && credentials_missing a
          then (print AuthRequired ;;; sys_exit 1%Z)%hfd
          else ret tt
      | _ => raise AttributeError
      end
  | inl JSONDecodeError =>
      if Py.contains GATED_TRUE response && credentials_missing a
      then (print AuthRequired ;;; sys_exit 1%Z)%hfd
      else ret tt
  | inl e => raise e
  end.

(** ** [should_regenerate_filelist] *)

Definition command_file (dir : string) : string :=
  pjoin (pjoin dir ".hfd") "last_download_command".

Definition should_regenerate_filelist (a : args) (dir : string) : M bool :=
  let command_file := command_file dir in
  let current_command := generate_command_string a in
  let fileslist_file := pjoin dir (fileslist_file a) in
  (f <- get_store ;;
   if negb (exists_ f fileslist_file) || negb (exists_ f command_file) then
     put_store (write f command_file current_command) ;;;
     ret true
   else
     match read f command_file with
     | None => raise FileNotFoundError
     | Some text =>
         let saved_command := Py.strip text in
         if negb (current_command =? saved_command) then
           put_store (write f command_file current_command) ;;;
           ret true
         else ret false
     end)%hfd.

(** ** [generate_file_list] *)

Definition url_of (a : args) (file : string) : string :=
  hf_endpoint a ++ "/" ++ download_api_path a ++ "/resolve/" ++
  revision a ++ "/" ++ file.

(** A file name inside an f-string. *)
Definition fmt (file : json) : string :=
  match file with
  | JStr s => s
  | _ => py_str file
  end.

Definition header_line (a : args) : string :=
  if Py.opt_truthy (hf_token a)
  then "  header=Authorization: Bearer " ++ Py.or_empty (hf_token a) ++ NL
  else "".

(** What the body of the writing loop writes for one file, and the
    exception that ends it: [os.path.dirname] wants a [str]. *)
Definition write_entry (a : args) (file : json) : string * option exn :=
  let url := url_of a (fmt file) in
  match tool a with
  | aria2c =>
      match file with
      | JStr s =>
          (url ++ NL ++
           "  dir=" ++ PosixPath.dirname s ++ NL ++
           "  out=" ++ PosixPath.basename s ++ NL ++
           header_line a ++
           NL, None)
      | _ => (url ++ NL, Some TypeError)
      end
  | wget => (url ++ NL, None)
  end.

Fixpoint write_entries (a : args) (files : list json) : string * option exn :=
  match files with
  | [] => ("", None)
  | file :: rest =>
      match write_entry a file with
      | (text, Some e) => (text, Some e)
      | (text, None) =>
          let (more, e) := write_entries a rest in (text ++ more, e)
      end
  end.

(** [[sib['rfilename'] for sib in siblings if sib.get('rfilename')]]. *)
Fixpoint rfilenames (siblings : list json) : exn + list json :=
  match siblings with
  | [] => inr []
  | sib :: rest =>
      match sib with
      | JObj members =>
          let v := dict_get members "rfilename" JNull in
          match rfilenames rest with
          | inl e => inl e
          | inr files => inr (if truthy v then v :: files else files)
          end
      | _ => inl AttributeError
      end
  end.

(** The test of the filtering loop on a decoded value: [re.search] wants
    a [str]. *)
Definition passes_json (include_regex exclude_regex : string) (file : json)
    : exn + bool :=
  match file with
  | JStr s =>
      match passes include_regex exclude_regex s with
      | Some b => inr b
      | None => inl ReOutsideFragment
      end
  | _ =>
      if Py.str_truthy include_regex || Py.str_truthy exclude_regex
      then inl TypeError
      else inr true
  end.

Fixpoint filter_files (include_regex exclude_regex : string)
    (files : list json) : exn + list json :=
  match files with
  | [] => inr []
  | file :: rest =>
      match passes_json include_regex exclude_regex file with
      | inl e => inl e
      | inr keep =>
          match filter_files include_regex exclude_regex rest with
          | inl e => inl e
          | inr filtered => inr (if keep then file :: filtered else filtered)
          end
      end
  end.

(** [re.findall] with the pattern of the fallback branch: the key
    [rfilename] in double quotes, a colon, and a group of characters
    other than the double quote between two double quotes.  The result
    is the list of the groups. *)
Definition RFILENAME_KEY : string :=
  String Py.DQUOTE ("rfilename" ++ String Py.DQUOTE (":" ++ Py.chr Py.DQUOTE)).

(** The longest run without a double quote, and what follows the quote
    that ends it. *)
Fixpoint until_quote (s : string) : option (string * string) :=
  match s with
  | EmptyString => None
  | String c t =>
      if (c =? Py.DQUOTE)%char then Some (EmptyString, t)
      else
        match until_quote t with
        | Some (g, rest) => Some (String c g, rest)
        | None => None
        end
  end.

Fixpoint findall_go (fuel : nat) (s : string) : list string :=
  match fuel with
  | O => []
  | S fuel' =>
      match s with
      | EmptyString => []
      | String _ t =>
          if Py.startswith RFILENAME_KEY s then
            match until_quote (Py.drop (String.length RFILENAME_KEY) s) with
            | Some (g, rest) => g :: findall_go fuel' rest
            | None => findall_go fuel' t
            end
          else findall_go fuel' t
      end
  end.

Definition findall_rfilename (response : string) : list string :=
  findall_go (String.length response) response.

(** The loop of the fallback branch: test and write, file by file. *)
Fixpoint fallback_entries (a : args) (include_regex exclude_regex : string)
    (files : list string) : string * option exn :=
  match files with
  | [] => ("", None)
  | file :: rest =>
      match passes include_regex exclude_regex file with
      | None => ("", Some ReOutsideFragment)
      | Some keep =>
          let (text, e) :=
            if keep then write_entry a (JStr file) else ("", None) in
          match e with
          | Some _ => (text, e)
          | None =>
              let (more, e') :=
                fallback_entries a include_regex exclude_regex rest in
              (text ++ more, e')
          end
      end
  end.

(** Leaves the [with open(fileslist_file, 'w')] block: the text written
    so far is in the file, whether an exception ended the block or not. *)
Definition write_plan (fileslist_file : string) (written : string * option exn)
    : M unit :=
  (f <- get_store ;;
   put_store (write f fileslist_file (fst written)) ;;;
   match snd written with
   | Some e => raise e
   | None => ret tt
   end)%hfd.

Definition generate_file_list (a : args) (response : string) (dir : string)
    : M unit :=
  let fileslist_file := pjoin dir (fileslist_file a) in
  let include_regex := pattern_regex (include a) in
  let exclude_regex := pattern_regex (exclude a) in
  match json_loads response with
  | inr data =>
      match data with
      | JObj members =>
          match iter (dict_get members "siblings" (JArr [])) with
          | None => raise TypeError
          | Some siblings =>
              match rfilenames siblings with
              | inl e => raise e
              | inr files =>
                  match filter_files include_regex exclude_regex files with
                  | inl e => raise e
                  | inr filtered_files =>
                      write_plan fileslist_file (write_entries a filtered_files)
                  end
              end
          end
      | _ => raise AttributeError
      end
  | inl JSONDecodeError =>
      (print JsonWarning ;;;
       let files := findall_rfilename response in
       write_plan fileslist_file
         (fallback_entries a include_regex exclude_regex files))%hfd
  | inl e => raise e
  end.

(** ** [verify_files] *)

Fixpoint verify_loop (stat : string -> option Z) (dir : string)
    (siblings : list json) : M bool :=
  match siblings with
  | [] => ret true
  | sib :: rest =>
      match sib with
      | JObj members =>
          match lookup "rfilename" members with
          | None => raise KeyError
          | Some (JStr name) =>
              let file_path := local_path dir name in
              let expected_size := dict_get members "size" JNull in
              if truthy expected_size &&
                 match stat file_path with
                 | Some st_size => int_ne st_size expected_size
                 | None => false
                 end
              then (print (Incomplete file_path) ;;; ret false)%hfd
              else verify_loop stat dir rest
          | Some _ => raise TypeError
          end
      | _ => raise TypeError
      end
  end.

Definition verify_files (stat : string -> option Z) (dir metadata : string)
    : M bool :=
  match json_loads metadata with
  | inl e => raise e
  | inr data =>
      match data with
      | JObj members =>
          match iter (dict_get members "siblings" (JArr [])) with
          | None => raise TypeError
          | Some siblings => verify_loop stat dir siblings
          end
      | _ => raise AttributeError
      end
  end.

(** ** [main], from the metadata on

    The arguments are parsed and the two commands are on the path. *)

(** The launch before the loop, whose exit status is not looked at, and
    the loop. *)
Definition download_phase (env : environment) (a : args)
    : list event * outcome unit :=
  let (tr, o) := retry_loop (downloader env) (max_retries a) 0 1 in
  (Launch 0 :: tr, o).

(** What [main] does before it starts the downloader. *)
Definition plan_phase (env : environment) (a : args) : M unit :=
  (f <- get_store ;;
   response <-
     (if negb (exists_ f (metadata_file a)) then
        print FetchingMetadata ;;;
        fetch_and_save_metadata env a (metadata_file a)
      else
        print UsingCachedMetadata ;;;
        match read f (metadata_file a) with
        | Some text => ret text
        | None => raise FileNotFoundError
        end) ;;
   check_authentication response a ;;;
   regenerate <- should_regenerate_filelist a (local_dir a) ;;
   (if regenerate : bool then
      f1 <- get_store ;;
      (if exists_ f1 (fileslist_file a)
       then put_store (unlink f1 (fileslist_file a))
       else ret tt) ;;;
      print GeneratingFileList ;;;
      generate_file_list a response (local_dir a)
    else print ResumeFromFileList) ;;;
   print StartingDownload)%hfd.

(** [main] ends when the loop ends: nothing follows it. *)
Definition main (env : environment) (a : args) : M unit :=
  (plan_phase env a ;;;
   (fun f => let (tr, o) := download_phase env a in (f, tr, o)))%hfd.

End Program.

End Hfd.

(* ================================================================== *)
(** * The specification's own notions *)
(* ================================================================== *)

Module Spec.

Import Json Hfd.

(** ** Glob patterns

    [glob_match star_ok pat u]: the text [u] is the pattern [pat] with
    every [*] replaced by some text of characters that satisfy
    [star_ok], every other character standing for itself. *)

Fixpoint all_chars (ok : ascii -> bool) (s : string) : bool :=
  match s with
  | EmptyString => true
  | String c t => ok c && all_chars ok t
  end.

Inductive glob_match (star_ok : ascii -> bool) : string -> string -> Prop :=
  | glob_end : glob_match star_ok "" ""
  | glob_char (c : ascii) (pat u : string) :
      c <> "*"%char ->
      glob_match star_ok pat u ->
      glob_match star_ok (String c pat) (String c u)
  | glob_star (pat w u : string) :
      all_chars star_ok w = true ->
      glob_match star_ok pat u ->
      glob_match star_ok (String "*" pat) (w ++ u).

(** A pattern matches a path when it matches some part of it (a search,
    not a match of the whole path). *)
Definition pattern_matches (star_ok : ascii -> bool) (pat p : string) : Prop :=
  exists pre u post, p = pre ++ u ++ post /\ glob_match star_ok pat u.

(** The star stands for any text. *)
Definition any_char (c : ascii) : bool := true.

(** The star stands for any text without a line feed. *)
Definition not_LF (c : ascii) : bool := negb (c =? Py.LF)%char.

(** The selection rule: the include rule holds and the exclude rule does
    not. *)
Definition selection_rule (star_ok : ascii -> bool) (I E : list string)
    (p : string) : Prop :=
  (I = [] \/ Exists (fun pat => pattern_matches star_ok pat p) I) /\
  ~ (E <> [] /\ Exists (fun pat => pattern_matches star_ok pat p) E).

(** ** Paths *)

(** The last character of a text, used to tell two paths apart. *)
Fixpoint last_char (s : string) : option ascii :=
  match s with
  | EmptyString => None
  | String c t =>
      match last_char t with
      | None => Some c
      | Some d => Some d
      end
  end.

(** ** The plan invalidator, in the words of the specification

    The answer is [True] exactly when there is no record, or no plan, or
    the record differs from the current fingerprint; and on return the
    record is the current fingerprint. *)
Definition regenerate_rule (a : args) (dir : string) (f : store) : Prop :=
  let current := generate_command_string a in
  let record := command_file dir in
  let plan := pjoin dir (fileslist_file a) in
  exists (b : bool) (f' : store),
    should_regenerate_filelist a dir f = (f', [], Returns b) /\
    (b = true <->
     f record = None \/ f plan = None \/ f record <> Some current) /\
    f' record = Some current.

(** ** Gated repositories *)

(** A decoded manifest with a truthy [gated] field. *)
Definition gated_field (v : json) : Prop :=
  exists members g,
    v = JObj members /\ lookup "gated" members = Some g /\ truthy g = true.

(** A manifest text says that the repository is gated: it decodes to a
    manifest with a truthy [gated] field, or it does not decode and
    contains the text [GATED_TRUE]. *)
Definition gated_response (json_loads : string -> exn + json)
    (response : string) : Prop :=
  (exists v, json_loads response = inr v /\ gated_field v) \/
  (json_loads response = inl JSONDecodeError /\
   Py.contains GATED_TRUE response = true).

(** The gated-access check, in the words of the specification: the
    process ends with the authentication error exactly when credentials
    are missing and the text says gated, and the check returns in all
    other cases. *)
Definition authentication_rule (json_loads : string -> exn + json)
    (response : string) (a : args) (f : store) : Prop :=
  (check_authentication json_loads response a f =
     (f, [Print AuthRequired], Exits 1%Z) <->
   credentials_missing a = true /\ gated_response json_loads response) /\
  (~ (credentials_missing a = true /\ gated_response json_loads response) ->
   check_authentication json_loads response a f = (f, [], Returns tt)).

(** ** The download plan, in the words of the specification *)

(** A sibling entry of a decoded manifest with the relative path [name]. *)
Definition sibling_with_path (sib : json) (name : string) : Prop :=
  exists members,
    sib = JObj members /\ lookup "rfilename" members = Some (JStr name).

(** [{endpoint}/{downloadPathPrefix}/resolve/{revision}/{relativePath}]. *)
Definition entry_url (a : args) (p : string) : string :=
  hf_endpoint a ++ "/" ++ download_api_path a ++ "/resolve/" ++
  revision a ++ "/" ++ p.

(** The token, when one is configured. *)
Definition configured_token (a : args) : option string :=
  match hf_token a with
  | Some t => if t =? "" then None else Some t
  | None => None
  end.

(** One entry of the plan: for aria2c the URL line, the directory
    directive (the parent directory, empty at the root), the file name
    directive (the base name), the bearer header when a token is
    configured, and a blank line; for wget the URL line. *)
Definition entry_text (a : args) (p : string) : string :=
  match tool a with
  | aria2c =>
      entry_url a p ++ NL ++
      "  dir=" ++ PosixPath.dirname p ++ NL ++
      "  out=" ++ PosixPath.basename p ++ NL ++
      match configured_token a with
      | Some t => "  header=Authorization: Bearer " ++ t ++ NL
      | None => ""
      end ++
      NL
  | wget => entry_url a p ++ NL
  end.

Definition is_selected (a : args) (p : string) : bool :=
  match selected (include a) (exclude a) p with
  | Some true => true
  | _ => false
  end.

Fixpoint concat_texts (l : list string) : string :=
  match l with
  | [] => ""
  | t :: rest => t ++ concat_texts rest
  end.

(** The plan for the relative paths [names], in their order. *)
Definition plan_text (a : args) (names : list string) : string :=
  concat_texts (map (entry_text a) (filter (is_selected a) names)).

Definition nonempty (s : string) : bool := negb (s =? "").

(** The plan generator as the specification has it: one entry for each
    sibling whose path is selected. *)
Definition plan_rule (json_loads : string -> exn + json)
    (py_str : json -> string) (a : args) (response dir : string)
    (f : store) : Prop :=
  forall members siblings names,
    json_loads response = inr (JObj members) ->
    dict_get members "siblings" (JArr []) = JArr siblings ->
    Forall2 sibling_with_path siblings names ->
    generate_file_list json_loads py_str a response dir f =
      (write f (pjoin dir (fileslist_file a)) (plan_text a names), [],
       Returns tt).

(** ** The verifier, in the words of the specification *)

(** A sibling entry with its relative path and its declared size, if it
    declares one. *)
Definition sibling_entry (sib : json) (e : string * option Z) : Prop :=
  exists members,
    sib = JObj members /\
    lookup "rfilename" members = Some (JStr (fst e)) /\
    lookup "size" members = option_map JNum (snd e).

(** A declared size, a local file, and another length. *)
Definition discrepancy (stat : string -> option Z) (dir : string)
    (e : string * option Z) : bool :=
  match snd e, stat (local_path dir (fst e)) with
  | Some n, Some st_size => negb (st_size =? n)%Z
  | _, _ => false
  end.

(** The same for a declared size other than zero. *)
Definition incomplete (stat : string -> option Z) (dir : string)
    (e : string * option Z) : bool :=
  match snd e with
  | Some n => negb (n =? 0)%Z && discrepancy stat dir e
  | None => false
  end.

(** ** The retry orchestrator *)

(** The launches of a trace, in their order. *)
Fixpoint launches (tr : list event) : list nat :=
  match tr with
  | [] => []
  | Launch k :: rest => k :: launches rest
  | Print _ :: rest => launches rest
  end.

Definition is_print (e : event) : bool :=
  match e with
  | Print _ => true
  | Launch _ => false
  end.

(** Every event of the computation satisfies [P], whatever the
    directory. *)
Definition emits_only {A : Type} (P : event -> bool) (m : M A) : Prop :=
  forall f, forallb P (snd (fst (m f))) = true.

Definition is_not_generating (e : event) : bool :=
  match e with
  | Print GeneratingFileList => false
  | _ => true
  end.

(** The reports of the verifier in a trace. *)
Definition is_incomplete_report (e : event) : bool :=
  match e with
  | Print (Incomplete _) => true
  | _ => false
  end.

(** The launch [k] ended the run with success: the run returns, the
    success is the last report, and no launch follows. *)
Definition success_stops (tr : list event) (o : outcome unit) (k : nat) : Prop :=
  o = Returns tt /\
  (exists tr0, tr = (tr0 ++ [Launch k; Print DownloadCompleted])%list) /\
  (forall k', In (Launch k') tr -> k' <= k).

(** ** The parameters of the fingerprint *)

Inductive parameter : Type :=
  | PRepoId | PTool | PInclude | PExclude | PDataset
  | PUsername | PToken | PEndpoint | PRevision.

(** Two invocations have the same value of a parameter. *)
Definition agree (q : parameter) (a b : args) : Prop :=
  match q with
  | PRepoId => repo_id a = repo_id b
  | PTool => tool a = tool b
  | PInclude => include a = include b
  | PExclude => exclude a = exclude b
  | PDataset => dataset a = dataset b
  | PUsername => hf_username a = hf_username b
  | PToken => hf_token a = hf_token b
  | PEndpoint => hf_endpoint a = hf_endpoint b
  | PRevision => revision a = revision b
  end.

(** Two invocations have the same values of all parameters but [q]. *)
Definition differ_only_in (q : parameter) (a b : args) : Prop :=
  forall q', q' <> q -> agree q' a b.

(** The text that stands for a parameter in the fingerprint. *)
Definition rendered (q : parameter) (a : args) : string :=
  match q with
  | PRepoId => repo_id a
  | PTool => tool_name (tool a)
  | PInclude => Py.join " " (include a)
  | PExclude => Py.join " " (exclude a)
  | PDataset => if dataset a then "1" else "0"
  | PUsername => Py.or_empty (hf_username a)
  | PToken => Py.or_empty (hf_token a)
  | PEndpoint => hf_endpoint a
  | PRevision => revision a
  end.

(** The parameters whose text determines their value.  A pattern list
    is joined with spaces, and an absent username or token is written
    like an empty one. *)
Definition faithful (q : parameter) : bool :=
  match q with
  | PInclude | PExclude | PUsername | PToken => false
  | _ => true
  end.

End Spec.

(* ================================================================== *)
(** * Glob patterns as pattern texts *)
(* ================================================================== *)

Module Glob.

Import Re.

(** What one character of a glob pattern becomes in the pattern text. *)
Definition unit_of (c : ascii) : string :=
  if (c =? "*")%char then ".*"
  else if is_special c then String "\" (Py.chr c)
  else Py.chr c.

Fixpoint units (p : string) : string :=
  match p with
  | EmptyString => EmptyString
  | String c t => unit_of c ++ units t
  end.

Definition unit_piece (c : ascii) : piece :=
  if (c =? "*")%char then PStar AAny else POne (ALit c).

Fixpoint pieces (p : string) : branch :=
  match p with
  | EmptyString => []
  | String c t => unit_piece c :: pieces t
  end.

Definition unit_tokens (c : ascii) : list token :=
  if (c =? "*")%char then [TAtom AAny; TStar] else [TAtom (ALit c)].

Fixpoint pattern_tokens (p : string) : list token :=
  match p with
  | EmptyString => []
  | String c t => (unit_tokens c ++ pattern_tokens t)%list
  end.

(** The tokens of the patterns [p :: ps], a bar between two patterns. *)
Fixpoint list_tokens (p : string) (ps : list string) : list token :=
  match ps with
  | [] => pattern_tokens p
  | q :: ps' => (pattern_tokens p ++ TBar :: list_tokens q ps')%list
  end.

(** Puts pieces in front of the first branch. *)
Definition prepend (ps : branch) (re : regex) : regex :=
  match re with
  | [] => [ps]
  | b :: bs => (ps ++ b)%list :: bs
  end.

Definition no_star_head (ts : list token) : Prop :=
  match ts with
  | TStar :: _ => False
  | _ => True
  end.

End Glob.

(* ================================================================== *)
(** * Concrete invocations, texts and directories for the examples *)
(* ================================================================== *)

Module Examples.

Import Json Hfd.

Definition Q : string := Py.chr Py.DQUOTE.

(** [hfd org/m --exclude '*.md' --max_retries 3]. *)
Definition args0 : args := {|
  repo_id := "org/m";
  include := [];
  exclude := ["*.md"];
  hf_username := None;
  hf_token := None;
  tool := aria2c;
  dataset := false;
  local_dir := "m";
  revision := "main";
  enable_mirror := false;
  max_retries := 3
|}.

Definition with_include (a : args) (l : list string) : args := {|
  repo_id := repo_id a; include := l; exclude := exclude a;
  hf_username := hf_username a; hf_token := hf_token a; tool := tool a;
  dataset := dataset a; local_dir := local_dir a; revision := revision a;
  enable_mirror := enable_mirror a; max_retries := max_retries a
|}.

Definition with_exclude (a : args) (l : list string) : args := {|
  repo_id := repo_id a; include := include a; exclude := l;
  hf_username := hf_username a; hf_token := hf_token a; tool := tool a;
  dataset := dataset a; local_dir := local_dir a; revision := revision a;
  enable_mirror := enable_mirror a; max_retries := max_retries a
|}.

Definition with_username (a : args) (u : option string) : args := {|
  repo_id := repo_id a; include := include a; exclude := exclude a;
  hf_username := u; hf_token := hf_token a; tool := tool a;
  dataset := dataset a; local_dir := local_dir a; revision := revision a;
  enable_mirror := enable_mirror a; max_retries := max_retries a
|}.

Definition with_token (a : args) (t : option string) : args := {|
  repo_id := repo_id a; include := include a; exclude := exclude a;
  hf_username := hf_username a; hf_token := t; tool := tool a;
  dataset := dataset a; local_dir := local_dir a; revision := revision a;
  enable_mirror := enable_mirror a; max_retries := max_retries a
|}.

Definition with_tool (a : args) (t : tool_kind) : args := {|
  repo_id := repo_id a; include := include a; exclude := exclude a;
  hf_username := hf_username a; hf_token := hf_token a; tool := t;
  dataset := dataset a; local_dir := local_dir a; revision := revision a;
  enable_mirror := enable_mirror a; max_retries := max_retries a
|}.

Definition with_revision (a : args) (r : string) : args := {|
  repo_id := repo_id a; include := include a; exclude := exclude a;
  hf_username := hf_username a; hf_token := hf_token a; tool := tool a;
  dataset := dataset a; local_dir := local_dir a; revision := r;
  enable_mirror := enable_mirror a; max_retries := max_retries a
|}.

Definition with_max_retries (a : args) (n : Z) : args := {|
  repo_id := repo_id a; include := include a; exclude := exclude a;
  hf_username := hf_username a; hf_token := hf_token a; tool := tool a;
  dataset := dataset a; local_dir := local_dir a; revision := revision a;
  enable_mirror := enable_mirror a; max_retries := n
|}.

(** [--revision] with a space after the name. *)
Definition args_trailing : args := with_revision args0 "main ".

(** A working directory of [a] that holds a plan and, as its record,
    the fingerprint of [a]. *)
Definition recorded_store (a : args) : store :=
  write
    (write (fun _ => None) (pjoin (local_dir a) (fileslist_file a)) "")
    (command_file (local_dir a)) (generate_command_string a).

(** A manifest that says gated, and a text that does not decode but
    contains the gated mark. *)
Definition gated_manifest : string :=
  "{" ++ Q ++ "gated" ++ Q ++ ": " ++ Q ++ "auto" ++ Q ++ ", " ++
  Q ++ "siblings" ++ Q ++ ": []}".

Definition truncated_manifest : string :=
  "{" ++ Q ++ "gated" ++ Q ++ ":true," ++ Q ++ "sibl".

(** The manifest of the end-to-end scenario. *)
Definition scenario_manifest : string :=
  "{" ++ Q ++ "gated" ++ Q ++ ": false, " ++ Q ++ "siblings" ++ Q ++ ": [{" ++
  Q ++ "rfilename" ++ Q ++ ": " ++ Q ++ "a.bin" ++ Q ++ ", " ++
  Q ++ "size" ++ Q ++ ": 10}, {" ++
  Q ++ "rfilename" ++ Q ++ ": " ++ Q ++ "README.md" ++ Q ++ "}]}".

(** A manifest with one sibling, whose path is empty. *)
Definition nameless_manifest : string :=
  "{" ++ Q ++ "siblings" ++ Q ++ ": [{" ++
  Q ++ "rfilename" ++ Q ++ ": " ++ Q ++ Q ++ "}]}".

(** A manifest with two files of 100 bytes. *)
Definition two_files_manifest : string :=
  "{" ++ Q ++ "siblings" ++ Q ++ ": [{" ++
  Q ++ "rfilename" ++ Q ++ ": " ++ Q ++ "a.bin" ++ Q ++ ", " ++
  Q ++ "size" ++ Q ++ ": 100}, {" ++
  Q ++ "rfilename" ++ Q ++ ": " ++ Q ++ "b.bin" ++ Q ++ ", " ++
  Q ++ "size" ++ Q ++ ": 100}]}".

(** A text cut in the middle, with two file names before the cut. *)
Definition cut_manifest : string :=
  "{" ++ Q ++ "siblings" ++ Q ++ ":[{" ++
  Q ++ "rfilename" ++ Q ++ ":" ++ Q ++ "vae/weights.bin" ++ Q ++ "},{" ++
  Q ++ "rfilename" ++ Q ++ ":" ++ Q ++ "README.md" ++ Q ++ "},{" ++
  Q ++ "rfilename" ++ Q ++ ":" ++ Q ++ "text/conf".

(** Every local file is there and has 50 bytes. *)
Definition half_files : string -> option Z := fun _ => Some 50%Z.

(** [hfd org/m --tool wget], without patterns. *)
Definition args_wget : args := with_exclude (with_tool args0 wget) [].

(** A working directory with the cached manifest [text]. *)
Definition cached_store (a : args) (text : string) : store :=
  write (fun _ => None) (metadata_file a) text.

(** A downloader that succeeds each time, and one that fails each time;
    [curl] is not needed with a cached manifest. *)
Definition env_success : environment := {|
  curl := fun _ _ => (0%Z, None);
  downloader := fun _ => 0%Z;
  stat_size := half_files
|}.

Definition env_failure : environment := {|
  curl := fun _ _ => (0%Z, None);
  downloader := fun _ => 1%Z;
  stat_size := half_files
|}.

(** A downloader that fails until its launch number 2 succeeds. *)
Definition env_second : environment := {|
  curl := fun _ _ => (0%Z, None);
  downloader := fun k => if (k =? 2)%nat then 0%Z else 1%Z;
  stat_size := half_files
|}.

(** Every local file is there and has 100 bytes. *)
Definition whole_files : string -> option Z := fun _ => Some 100%Z.

(** An empty working directory. *)
Definition empty_store : store := fun _ => None.

(** Two texts that [json.loads] leaves with another exception than
    [JSONDecodeError]: an integer of 5000 digits, and 100000 opening
    brackets. *)
Definition long_integer : string := Py.times "1" 5000.

Definition deep_array : string := Py.times "[" (N.to_nat 100000).

(** [json.loads] with the limits of an interpreter as it is installed:
    at most 4300 digits in an integer and a recursion limit of 1000,
    which leaves room for a little less than 1000 objects and arrays
    inside one another, depending on the calls that are open when the
    decoder runs; 993 here.  The texts of the examples are far from
    that limit, on either side. *)
Definition decode (s : string) : exn + json :=
  match document 4300 993 s with
  | inr v => inr v
  | inl Malformed => inl JSONDecodeError
  | inl TooDeep => inl RecursionError
  | inl TooManyDigits => inl ValueError
  end.

(** [str()] is only needed for file names that are not strings; the
    examples have none. *)
Definition no_str (v : json) : string := "".

End Examples.

(* ================================================================== *)
(** * [validate_number] *)
(* ================================================================== *)

Module Cli.

(** A command-line argument is a [str] of any code points: here the
    list of their numbers. *)
Definition text : Type := list N.

Definition of_string (s : string) : text :=
  map N_of_ascii (list_ascii_of_string s).

(** The value of one of the ten ASCII digits. *)
Definition ascii_digit (c : N) : option N :=
  if ((48 <=? c) && (c <=? 57))%N then Some (c - 48)%N else None.

Section Unicode.

(** The Unicode database of the interpreter beyond ASCII, which differs
    from version to version: [digit c] is
    [unicodedata.digit(chr(c), None)] (the characters [str.isdigit]
    takes) and [decimal c] is [unicodedata.decimal(chr(c), None)] (the
    characters [int] reads as digits). *)
Variable digit : N -> option N.
Variable decimal : N -> option N.

Definition is_some {A : Type} (o : option A) : bool :=
  match o with Some _ => true | None => false end.

(** [chr(c).isdigit()]. *)
Definition isdigit_char (c : N) : bool :=
  if (c <? 128)%N then is_some (ascii_digit c) else is_some (digit c).

(** The digit that [int] reads for [chr(c)], if it reads one. *)
Definition decimal_value (c : N) : option N :=
  if (c <? 128)%N then ascii_digit c else decimal c.

(** [s.isdigit()]: at least one character, and digits only. *)
Definition isdigit (s : text) : bool :=
  match s with
  | [] => false
  | _ => forallb isdigit_char s
  end.

(** The number written by the digits of [s], read after [acc]. *)
Fixpoint read_digits (acc : N) (s : text) : option N :=
  match s with
  | [] => Some acc
  | c :: t =>
      match decimal_value c with
      | Some d => read_digits (10 * acc + d)%N t
      | None => None
      end
  end.

(** [int(s)] for a text with [s.isdigit()].  It is a [ValueError]
    ([None]) when a character is not a decimal digit, and when the text
    has more digits than [sys.get_int_max_str_digits()] allows; [limit]
    is that number, zero when there is no limit (as in the versions that
    do not have it). *)
Definition int_of_digits (limit : nat) (s : text) : option Z :=
  if (negb (limit =? 0) && (limit <? List.length s))%nat then None
  else option_map Z.of_N (read_digits 0 s).

(** How a call ends: with a number, with the error report and
    [sys.exit(1)], or with the [ValueError] of [int]. *)
Inductive validation : Type :=
  | Valid (n : Z)
  | Refused
  | InvalidLiteral.

Definition validate_number (limit : nat) (value : text) (max_value : Z)
    : validation :=
  if isdigit value then
    match int_of_digits limit value with
    | None => InvalidLiteral
    | Some n =>
        if (1 <=? n)%Z && (n <=? max_value)%Z then Valid n else Refused
    end
  else Refused.

End Unicode.

(** The number that a list of digits writes. *)
Definition number_of (ds : list N) : N :=
  fold_left (fun acc d => (10 * acc + d)%N) ds 0%N.

(** The decimal numeral of [n], after [zeros] zeros. *)
Fixpoint zeros (k : nat) : string :=
  match k with
  | O => ""
  | S k' => String "0" (zeros k')
  end.

Definition numeral (n : Z) : string :=
  NilEmpty.string_of_uint (N.to_uint (Z.to_N n)).

(** ** A reference database

    Unicode 14.0, the version of CPython 3.11.  The decimal digits
    beyond ASCII come in runs of ten, from zero to nine; [decimal_runs]
    has the first code point of each run.  The other digits
    (superscripts, circled digits and the like) are listed as ranges:
    the first and the last code point, and the value of the first, the
    values going up by one. *)
Definition decimal_runs : list N :=
  [
   1632; 1776; 1984; 2406; 2534; 2662; 2790; 2918; 3046; 3174; 3302; 3430;
   3558; 3664; 3792; 3872; 4160; 4240; 6112; 6160; 6470; 6608; 6784; 6800;
   6992; 7088; 7232; 7248; 42528; 43216; 43264; 43472; 43504; 43600; 44016;
   65296; 66720; 68912; 69734; 69872; 69942; 70096; 70384; 70736; 70864;
   71248; 71360; 71472; 71904; 72016; 72784; 73040; 73120; 92768; 92864;
   93008; 120782; 120792; 120802; 120812; 120822; 123200; 123632; 125264;
   130032
  ]%N.

Definition digit_ranges : list (N * N * N) :=
  [
   (178, 179, 2); (185, 185, 1); (4969, 4977, 1); (6618, 6618, 1);
   (8304, 8304, 0); (8308, 8313, 4); (8320, 8329, 0); (9312, 9320, 1);
   (9332, 9340, 1); (9352, 9360, 1); (9450, 9450, 0); (9461, 9469, 1);
   (9471, 9471, 0); (10102, 10110, 1); (10112, 10120, 1);
   (10122, 10130, 1); (68160, 68163, 1); (69216, 69224, 1);
   (69714, 69722, 1); (127232, 127232, 0); (127233, 127242, 0)
  ]%N.

Definition unicode_decimal (c : N) : option N :=
  match find (fun b => (b <=? c) && (c <? b + 10))%N decimal_runs with
  | Some b => Some (c - b)%N
  | None => None
  end.

Definition unicode_digit (c : N) : option N :=
  match unicode_decimal c with
  | Some d => Some d
  | None =>
      match
        find (fun r => (fst (fst r) <=? c) && (c <=? snd (fst r)))%N
          digit_ranges
      with
      | Some r => Some (snd r + (c - fst (fst r)))%N
      | None => None
      end
  end.

End Cli.

(* ================================================================== *)
(** * Notions for the properties of the other code *)
(* ================================================================== *)

Module Notions.

Import Json Hfd Spec Examples.

(** ** Reports *)

(** Any event but a report of the verifier. *)
Definition no_incomplete_report (e : event) : bool :=
  negb (is_incomplete_report e).

(** ** Patterns *)

Definition not_star (c : ascii) : bool := negb (c =? "*")%char.

(** ** Texts for the scan of the fallback branch *)

Definition QUOTE : string := Py.chr Py.DQUOTE.

Definition quote_free (s : string) : bool :=
  all_chars (fun c => negb (c =? Py.DQUOTE)%char) s.

(** A text in which the key of the scan cannot begin: no double quote
    before an [r], and no double quote at the end. *)
Definition quiet (s : string) : bool :=
  negb (Py.contains (String Py.DQUOTE "r") s) &&
  match last_char s with
  | Some c => negb (c =? Py.DQUOTE)%char
  | None => true
  end.

(** Names, each after the key and in quotes, each followed by some
    text. *)
Fixpoint entries_text (entries : list (string * string)) : string :=
  match entries with
  | [] => ""
  | (name, filler) :: rest =>
      RFILENAME_KEY ++ name ++ QUOTE ++ filler ++ entries_text rest
  end.

Fixpoint count_quotes (s : string) : nat :=
  match s with
  | EmptyString => 0
  | String c t =>
      if (c =? Py.DQUOTE)%char then S (count_quotes t) else count_quotes t
  end.

(** ** Siblings with or without a path *)

(** A sibling entry whose [rfilename] is the text [name], or is [null],
    or is not there. *)
Definition sibling_maybe_path (sib : json) (o : option string) : Prop :=
  exists members,
    sib = JObj members /\
    match o with
    | Some name => lookup "rfilename" members = Some (JStr name)
    | None =>
        lookup "rfilename" members = None \/
        lookup "rfilename" members = Some JNull
    end.

Fixpoint somes (l : list (option string)) : list string :=
  match l with
  | [] => []
  | Some x :: rest => x :: somes rest
  | None :: rest => somes rest
  end.

(** ** Attempts *)

(** No launch among the [n] launches from [first] on exits with status
    zero. *)
Definition all_fail (dl : nat -> Z) (first n : nat) : Prop :=
  forall j, j < n -> dl (first + j) <> 0%Z.

(** The number of counted attempts that [max_retries] allows. *)
Definition budget (maxr : Z) : nat := Z.to_nat maxr.

(** ** Texts and environments for the examples *)

(** Three siblings: one with a path, one without [rfilename], one with
    [null] for it. *)
Definition partial_manifest : string :=
  "{" ++ QUOTE ++ "siblings" ++ QUOTE ++ ": [{" ++
  QUOTE ++ "rfilename" ++ QUOTE ++ ": " ++ QUOTE ++ "a.bin" ++ QUOTE ++ "}, {" ++
  QUOTE ++ "size" ++ QUOTE ++ ": 5}, {" ++
  QUOTE ++ "rfilename" ++ QUOTE ++ ": null}]}".

(** [curl] cannot resolve the host: status 6, and a partial file. *)
Definition env_offline : environment := {|
  curl := fun _ _ => (6%Z, Some "<html");
  downloader := fun _ => 1%Z;
  stat_size := fun _ => None
|}.

(** [curl] answers with the manifest of the end-to-end scenario. *)
Definition env_online : environment := {|
  curl := fun _ _ => (0%Z, Some scenario_manifest);
  downloader := fun _ => 1%Z;
  stat_size := fun _ => None
|}.

End Notions.

(* ================================================================== *)
(** * Facts about strings *)
(* ================================================================== *)

Module StrFacts.

Lemma app_nil_r (s : string) : s ++ "" = s.
Proof. induction s as [|c s IH]; simpl; [reflexivity | now rewrite IH]. Qed.

Lemma app_assoc (a b c : string) : (a ++ b) ++ c = a ++ b ++ c.
Proof. induction a as [|x a IH]; simpl; [reflexivity | now rewrite IH]. Qed.

Lemma app_eq_nil (a b : string) : a ++ b = "" -> a = "" /\ b = "".
Proof. destruct a; simpl; [auto | discriminate]. Qed.

Lemma app_inv_head (a b c : string) : a ++ b = a ++ c -> b = c.
Proof.
  induction a as [|x a IH]; simpl; intros H; [exact H|].
  injection H as H. auto.
Qed.

Lemma length_app (a b : string) :
  String.length (a ++ b) = String.length a + String.length b.
Proof. induction a as [|x a IH]; simpl; [reflexivity | now rewrite IH]. Qed.

Lemma app_inv_tail (a b c : string) : a ++ c = b ++ c -> a = b.
Proof.
  revert b. induction a as [|x a IH]; intros [|y b] H; simpl in H.
  - reflexivity.
  - apply (f_equal String.length) in H. simpl in H.
    rewrite length_app in H. lia.
  - apply (f_equal String.length) in H. simpl in H.
    rewrite length_app in H. lia.
  - injection H as -> H. f_equal. auto.
Qed.

Lemma eqb_false_iff (a b : string) : (a =? b) = false <-> a <> b.
Proof. apply String.eqb_neq. Qed.

End StrFacts.

(* ================================================================== *)
(** * The pattern matcher against the glob rule *)
(* ================================================================== *)

Module ReFacts.

Import Re Spec Glob.

#[local] Arguments Ascii.eqb : simpl never.

Lemma star_special : is_special "*" = true.
Proof. reflexivity. Qed.

Lemma special_cases (c : ascii) :
  is_special c = true -> In c special_chars.
Proof.
  unfold is_special. rewrite existsb_exists. intros [x [Hin Hx]].
  apply Ascii.eqb_eq in Hx. now subst.
Qed.

Lemma not_special (c : ascii) :
  is_special c = false -> forall x, In x special_chars -> c <> x.
Proof.
  intros H x Hin ->. unfold is_special in H.
  assert (existsb (Ascii.eqb x) special_chars = true) as E.
  { apply existsb_exists. exists x. split; [exact Hin | apply Ascii.eqb_refl]. }
  congruence.
Qed.

Lemma special_not_alnum (c : ascii) : is_special c = true -> is_alnum c = false.
Proof.
  intros H. apply special_cases in H. simpl in H.
  repeat (destruct H as [<- | H]; [reflexivity|]). contradiction.
Qed.

Lemma meta_special (c : ascii) : is_meta c = true -> is_special c = true.
Proof.
  unfold is_meta. rewrite existsb_exists. intros [x [Hin Hx]].
  apply Ascii.eqb_eq in Hx. subst x. simpl in Hin.
  repeat (destruct Hin as [<- | Hin]; [reflexivity|]). contradiction.
Qed.

Lemma escape_head (p : string) : Py.startswith "*" (escape p) = false.
Proof.
  destruct p as [|c t]; simpl; [reflexivity|].
  destruct (is_special c) eqn:E; simpl; [reflexivity|].
  destruct (Ascii.eqb_spec "*"%char c) as [<-|]; [|reflexivity].
  rewrite star_special in E. discriminate.
Qed.

Lemma replace_go_cons (old new : string) (c : ascii) (t : string) :
  Py.replace_go old new 0 (String c t) =
  if Py.startswith old (String c t)
  then new ++ Py.replace_go old new (String.length old - 1) t
  else String c (Py.replace_go old new 0 t).
Proof. reflexivity. Qed.

Lemma startswith_cons (a b : ascii) (p s : string) :
  Py.startswith (String a p) (String b s) = (a =? b)%char && Py.startswith p s.
Proof. reflexivity. Qed.

(** [re.escape(p).replace(r'\*', '.*')], character by character. *)
Lemma compile_units (p : string) :
  Py.replace "\*" ".*" (escape p) = units p.
Proof.
  unfold Py.replace. induction p as [|c t IH]; [reflexivity|].
  cbn [escape units]. unfold unit_of.
  destruct (Ascii.eqb_spec c "*"%char) as [->|Hstar].
  - rewrite star_special. cbn. now rewrite IH.
  - destruct (is_special c) eqn:E.
    + rewrite replace_go_cons, !startswith_cons.
      replace (("*" =? c)%char) with false
        by (symmetry; apply Ascii.eqb_neq; congruence).
      rewrite andb_false_l, andb_false_r.
      rewrite replace_go_cons, startswith_cons, escape_head, andb_false_r.
      now rewrite IH.
    + rewrite replace_go_cons, startswith_cons.
      replace (("\" =? c)%char) with false.
      * cbn. now rewrite IH.
      * symmetry. apply Ascii.eqb_neq. intros <-. discriminate E.
Qed.

Lemma tokens_unit (c : ascii) (r : string) :
  tokens (unit_of c ++ r) = option_map (app (unit_tokens c)) (tokens r).
Proof.
  unfold unit_of, unit_tokens.
  destruct (Ascii.eqb_spec c "*"%char) as [->|Hstar].
  - cbn. destruct (tokens r); reflexivity.
  - destruct (is_special c) eqn:E.
    + cbn. rewrite (special_not_alnum c E). destruct (tokens r); reflexivity.
    + cbn [append Py.chr tokens].
      assert (is_meta c = false) as Hm.
      { destruct (is_meta c) eqn:M; [|reflexivity].
        apply meta_special in M. congruence. }
      rewrite Hm.
      replace ((c =? "\")%char) with false
        by (symmetry; apply Ascii.eqb_neq; intros ->; discriminate E).
      replace ((c =? ".")%char) with false
        by (symmetry; apply Ascii.eqb_neq; intros ->; discriminate E).
      replace ((c =? "*")%char) with false
        by (symmetry; apply Ascii.eqb_neq; exact Hstar).
      replace ((c =? "|")%char) with false
        by (symmetry; apply Ascii.eqb_neq; intros ->; discriminate E).
      destruct (tokens r); reflexivity.
Qed.

Lemma tokens_units (p r : string) :
  tokens (units p ++ r) = option_map (app (pattern_tokens p)) (tokens r).
Proof.
  induction p as [|c t IH]; cbn [units pattern_tokens].
  - cbn. destruct (tokens r); reflexivity.
  - rewrite StrFacts.app_assoc, tokens_unit, IH.
    destruct (tokens r); cbn; [|reflexivity].
    now rewrite List.app_assoc.
Qed.


Lemma pattern_tokens_head (p : string) (rest : list token) :
  no_star_head rest -> no_star_head (pattern_tokens p ++ rest)%list.
Proof.
  destruct p as [|c t]; cbn [pattern_tokens]; [auto|].
  intros _. unfold unit_tokens. destruct (c =? "*")%char; exact I.
Qed.

Lemma build_atom (a : atom) (r : list token) :
  no_star_head r -> build (TAtom a :: r) = option_map (push (POne a)) (build r).
Proof. destruct r as [|[| |] r]; simpl; intros H; [reflexivity.. | contradiction | reflexivity]. Qed.

Lemma push_nonempty (q : piece) (re : regex) : push q re <> [].
Proof. destruct re; discriminate. Qed.

Lemma build_nonempty_bounded (n : nat) (ts : list token) :
  List.length ts <= n -> build ts <> Some [].
Proof.
  revert ts. induction n as [|n IH]; intros ts Hn.
  - destruct ts; [discriminate | simpl in Hn; lia].
  - destruct ts as [|[a| |] r]; simpl in *; try discriminate.
    + destruct r as [|[b| |] r'].
      * discriminate.
      * specialize (IH (TAtom b :: r') ltac:(simpl in *; lia)).
        destruct (build (TAtom b :: r')); [|discriminate].
        cbn. intros [= E]. now apply push_nonempty in E.
      * specialize (IH r' ltac:(simpl in *; lia)).
        destruct (build r'); [|discriminate].
        cbn. intros [= E]. now apply push_nonempty in E.
      * specialize (IH (TBar :: r') ltac:(simpl in *; lia)).
        destruct (build (TBar :: r')); [|discriminate].
        cbn. intros [= E]. now apply push_nonempty in E.
    + destruct (build r); discriminate.
Qed.

Lemma build_nonempty (ts : list token) : build ts <> Some [].
Proof. now apply (build_nonempty_bounded (List.length ts)). Qed.

Lemma build_pattern (p : string) (rest : list token) :
  no_star_head rest ->
  build (pattern_tokens p ++ rest)%list =
  option_map (prepend (pieces p)) (build rest).
Proof.
  intros Hrest. pose proof (build_nonempty rest) as Hne.
  induction p as [|c t IH]; cbn [pattern_tokens pieces].
  - cbn [app]. destruct (build rest) as [[|b bs]|];
      [now elim Hne | reflexivity..].
  - unfold unit_tokens, unit_piece. destruct (c =? "*")%char.
    + cbn [app build]. rewrite IH.
      destruct (build rest) as [[|b bs]|]; reflexivity.
    + cbn [app]. rewrite build_atom by (now apply pattern_tokens_head).
      rewrite IH. destruct (build rest) as [[|b bs]|]; reflexivity.
Qed.

Lemma tokens_bar (r : string) :
  tokens (String "|" r) = option_map (cons TBar) (tokens r).
Proof. reflexivity. Qed.

Lemma concat_cons2 (sep x y : string) (l : list string) :
  String.concat sep (x :: y :: l) = x ++ sep ++ String.concat sep (y :: l).
Proof. reflexivity. Qed.

Lemma tokens_join (p : string) (ps : list string) :
  tokens (String.concat "|" (map units (p :: ps))) = Some (list_tokens p ps).
Proof.
  revert p. induction ps as [|q ps IH]; intros p.
  - cbn [map String.concat list_tokens].
    rewrite <- (StrFacts.app_nil_r (units p)), tokens_units.
    cbn. now rewrite List.app_nil_r.
  - change (map units (p :: q :: ps)) with (units p :: units q :: map units ps).
    rewrite concat_cons2, tokens_units.
    change ("|" ++ String.concat "|" (units q :: map units ps))
      with (String "|" (String.concat "|" (map units (q :: ps)))).
    rewrite tokens_bar, IH. reflexivity.
Qed.

Lemma build_list (p : string) (ps : list string) :
  build (list_tokens p ps) = Some (map pieces (p :: ps)).
Proof.
  revert p. induction ps as [|q ps IH]; intros p; cbn [list_tokens].
  - rewrite <- (List.app_nil_r (pattern_tokens p)).
    rewrite build_pattern by exact I. cbn. now rewrite List.app_nil_r.
  - rewrite build_pattern by exact I. cbn [build]. rewrite IH.
    cbn. now rewrite List.app_nil_r.
Qed.

(** The pattern text of a non-empty list of glob patterns parses to one
    branch per pattern. *)
Lemma parse_join (p : string) (ps : list string) :
  parse (Py.join "|" (map units (p :: ps))) = Some (map pieces (p :: ps)).
Proof.
  unfold parse, Py.join. rewrite tokens_join. apply build_list.
Qed.

Lemma map_compile (ps : list string) :
  map (fun p => Py.replace "\*" ".*" (escape p)) ps = map units ps.
Proof. apply map_ext. intros p. apply compile_units. Qed.

Lemma parse_pattern_regex (p : string) (ps : list string) :
  parse (Hfd.pattern_regex (p :: ps)) = Some (map pieces (p :: ps)).
Proof. unfold Hfd.pattern_regex. rewrite map_compile. apply parse_join. Qed.

(** ** The matcher on the pieces of a glob pattern *)

Lemma match_here_star (a : atom) (r : branch) (s : string) :
  match_here (PStar a :: r) s =
  match_here r s ||
  match s with
  | EmptyString => false
  | String c t => atom_ok a c && match_here (PStar a :: r) t
  end.
Proof. destruct s; reflexivity. Qed.

Lemma glob_star_cons (ok : ascii -> bool) (pat u : string) (c : ascii) :
  ok c = true ->
  glob_match ok (String "*" pat) u ->
  glob_match ok (String "*" pat) (String c u).
Proof.
  intros Hc H. inversion H as [| ? ? ? Hne |? w u' Hw Hu]; subst.
  - congruence.
  - change (String c (w ++ u')) with (String c w ++ u').
    constructor; [|exact Hu]. simpl. now rewrite Hc, Hw.
Qed.

Lemma match_here_sound (pat s : string) :
  match_here (pieces pat) s = true ->
  exists u rest, s = u ++ rest /\ glob_match not_LF pat u.
Proof.
  revert s. induction pat as [|c pat IH]; intros s H.
  - exists "", s. split; [reflexivity | constructor].
  - cbn [pieces] in H. unfold unit_piece in H.
    destruct (Ascii.eqb_spec c "*"%char) as [->|Hc].
    + induction s as [|x s IHs].
      * rewrite match_here_star, orb_false_r in H.
        destruct (IH _ H) as (u & rest & E & G).
        exists u, rest. split; [exact E|].
        change u with ("" ++ u). now constructor.
      * rewrite match_here_star in H. apply orb_true_iff in H.
        destruct H as [H|H].
        -- destruct (IH _ H) as (u & rest & E & G).
           exists u, rest. split; [exact E|].
           change u with ("" ++ u). now constructor.
        -- apply andb_true_iff in H. destruct H as [Hx H].
           destruct (IHs H) as (u & rest & E & G).
           exists (String x u), rest. split; [simpl; now rewrite E|].
           apply glob_star_cons; assumption.
    + cbn [match_here] in H. destruct s as [|x s]; [discriminate|].
      apply andb_true_iff in H. destruct H as [Hx H].
      cbn [atom_ok] in Hx. apply Ascii.eqb_eq in Hx. subst x.
      destruct (IH _ H) as (u & rest & E & G).
      exists (String c u), rest. split; [simpl; now rewrite E|].
      now constructor.
Qed.

Lemma match_here_complete (pat u rest : string) :
  glob_match not_LF pat u -> match_here (pieces pat) (u ++ rest) = true.
Proof.
  intros G. induction G as [|c pat u Hc G IH|pat w u Hw G IH].
  - reflexivity.
  - cbn [pieces]. unfold unit_piece.
    replace ((c =? "*")%char) with false
      by (symmetry; now apply Ascii.eqb_neq).
    cbn [match_here append atom_ok]. now rewrite Ascii.eqb_refl, IH.
  - cbn [pieces]. unfold unit_piece. change (("*" =? "*")%char) with true.
    cbv iota. rewrite StrFacts.app_assoc.
    induction w as [|x w IHw].
    + rewrite match_here_star. cbn [append]. now rewrite IH.
    + simpl in Hw. apply andb_true_iff in Hw. destruct Hw as [Hx Hw].
      rewrite match_here_star. cbn [append atom_ok].
      change (negb (x =? Py.LF)%char) with (not_LF x).
      rewrite Hx, (IHw Hw). apply orb_true_r.
Qed.

Lemma search_from_iff (re : regex) (s : string) :
  search_from re s = true <->
  exists pre post b, s = pre ++ post /\ In b re /\ match_here b post = true.
Proof.
  induction s as [|c s IH]; cbn [search_from].
  - rewrite orb_false_r, existsb_exists. split.
    + intros (b & Hin & Hb). now exists "", "", b.
    + intros (pre & post & b & E & Hin & Hb).
      symmetry in E. apply StrFacts.app_eq_nil in E. destruct E as [-> ->].
      now exists b.
  - rewrite orb_true_iff, existsb_exists, IH. split.
    + intros [(b & Hin & Hb) | (pre & post & b & E & Hin & Hb)].
      * now exists "", (String c s), b.
      * exists (String c pre), post, b. simpl. now rewrite E.
    + intros (pre & post & b & E & Hin & Hb). destruct pre as [|x pre].
      * left. simpl in E. subst post. now exists b.
      * right. simpl in E. injection E as -> E. now exists pre, post, b.
Qed.

(** The search with the compiled patterns is the glob rule with a star
    that does not cross a line feed. *)
Lemma search_patterns (pats : list string) (p : string) :
  search_from (map pieces pats) p = true <->
  Exists (fun pat => pattern_matches not_LF pat p) pats.
Proof.
  rewrite search_from_iff, Exists_exists. split.
  - intros (pre & post & b & E & Hin & Hb).
    apply in_map_iff in Hin. destruct Hin as (pat & <- & Hin).
    apply match_here_sound in Hb. destruct Hb as (u & rest & E' & G).
    exists pat. split; [exact Hin|]. exists pre, u, rest. now subst.
  - intros (pat & Hin & pre & u & post & E & G).
    exists pre, (u ++ post), (pieces pat). split; [exact E|]. split.
    + now apply in_map.
    + now apply match_here_complete.
Qed.

Lemma units_nil (p : string) : units p = "" -> p = "".
Proof.
  destruct p as [|c t]; [reflexivity|]. cbn [units]. intros H.
  apply StrFacts.app_eq_nil in H. destruct H as [H _].
  unfold unit_of in H. destruct (c =? "*")%char; [discriminate|].
  destruct (is_special c); discriminate.
Qed.

(** The pattern text is empty for no pattern and for the single empty
    pattern, and only then. *)
Lemma pattern_regex_empty (pats : list string) :
  Hfd.pattern_regex pats = "" <-> pats = [] \/ pats = [""].
Proof.
  split.
  - destruct pats as [|p [|q ps]]; [now left| |].
    + unfold Hfd.pattern_regex. rewrite map_compile. cbn. intros H.
      right. now rewrite (units_nil p H).
    + unfold Hfd.pattern_regex. rewrite map_compile. cbn. intros H.
      apply StrFacts.app_eq_nil in H. destruct H as [_ H]. discriminate.
  - intros [->| ->]; reflexivity.
Qed.

Lemma empty_pattern_matches (ok : ascii -> bool) (p : string) :
  pattern_matches ok "" p.
Proof. exists "", "", p. split; [reflexivity | constructor]. Qed.

End ReFacts.

(* ================================================================== *)
(** * File selection *)
(* ================================================================== *)

Module Selection.

Import Re Spec Glob Hfd ReFacts.

Lemma str_truthy_false (s : string) : Py.str_truthy s = false <-> s = "".
Proof.
  unfold Py.str_truthy. rewrite negb_false_iff. apply String.eqb_eq.
Qed.

Lemma search_pattern_regex (pats : list string) (p : string) :
  pats <> [] ->
  Re.search (pattern_regex pats) p = Some (search_from (map pieces pats) p).
Proof.
  destruct pats as [|q qs]; [congruence|]. intros _.
  unfold Re.search. now rewrite parse_pattern_regex.
Qed.

(** The include test of the loop, against the include rule. *)
Lemma include_test (I : list string) (p : string) :
  exists b,
    (if Py.str_truthy (pattern_regex I)
     then Re.search (pattern_regex I) p else Some true) = Some b /\
    (b = true <->
     I = [] \/ Exists (fun pat => pattern_matches not_LF pat p) I).
Proof.
  destruct (Py.str_truthy (pattern_regex I)) eqn:T.
  - assert (I <> []) as Hne by (intros ->; discriminate T).
    rewrite (search_pattern_regex I p Hne). eexists. split; [reflexivity|].
    rewrite search_patterns. tauto.
  - exists true. split; [reflexivity|]. split; [intros _ | reflexivity].
    apply str_truthy_false, pattern_regex_empty in T.
    destruct T as [-> | ->]; [now left | right].
    constructor. apply empty_pattern_matches.
Qed.

(** The exclude test of the loop, against the exclude rule. *)
Lemma exclude_test (E : list string) (p : string) :
  E <> [""] ->
  exists b,
    (if Py.str_truthy (pattern_regex E)
     then option_map negb (Re.search (pattern_regex E) p)
     else Some true) = Some b /\
    (b = true <->
     ~ (E <> [] /\ Exists (fun pat => pattern_matches not_LF pat p) E)).
Proof.
  intros Hone. destruct (Py.str_truthy (pattern_regex E)) eqn:T.
  - assert (E <> []) as Hne by (intros ->; discriminate T).
    rewrite (search_pattern_regex E p Hne). eexists. split; [reflexivity|].
    rewrite negb_true_iff, <- not_true_iff_false, search_patterns. tauto.
  - exists true. split; [reflexivity|]. split; [intros _ | reflexivity].
    apply str_truthy_false, pattern_regex_empty in T.
    destruct T as [-> | ->]; [|congruence]. intros [H _]. congruence.
Qed.

(** The selection test always answers. *)
Lemma selected_total (I E : list string) (p : string) :
  exists b, selected I E p = Some b.
Proof.
  unfold selected, passes.
  destruct (include_test I p) as (bi & -> & _). destruct bi; [|now exists false].
  destruct (Py.str_truthy (pattern_regex E)) eqn:T; [|now exists true].
  assert (E <> []) as Hne by (intros ->; discriminate T).
  rewrite (search_pattern_regex E p Hne). eexists. reflexivity.
Qed.

(** C1, amended.  For every path [p] and pattern lists [I] and [E], [E]
    not being the single empty pattern, the selection test of
    [generate_file_list] answers, and it selects [p] exactly when (I is
    empty or some pattern of I matches p) and not (E is non-empty and
    some pattern of E matches p); a pattern matches by a search in the
    path, every character but the star standing for itself and the star
    for any text without a line feed. *)
Theorem selected_iff_selection_rule (I E : list string) (p : string) :
  E <> [""] ->
  exists b,
    selected I E p = Some b /\
    (b = true <-> selection_rule not_LF I E p).
Proof.
  intros HE. unfold selected, passes, selection_rule.
  destruct (include_test I p) as (bi & -> & Hi).
  destruct (exclude_test E p HE) as (be & Hbe & He).
  destruct bi.
  - rewrite Hbe. exists be. split; [reflexivity|]. tauto.
  - exists false. split; [reflexivity|]. split; [discriminate|].
    intros [H _]. apply Hi in H. discriminate.
Qed.

(** The amended rule at the example of the specification: with the
    include pattern [vae/*] the path [vae/weights.bin] is selected. *)
Lemma selected_iff_selection_rule_witness :
  exists b,
    selected ["vae/*"] [] "vae/weights.bin" = Some b /\
    (b = true <-> selection_rule not_LF ["vae/*"] [] "vae/weights.bin").
Proof. apply selected_iff_selection_rule. discriminate. Defined.

(** C1 as stated fails twice.  The single empty exclude pattern matches
    every path and yet excludes none; and a star does not stand for a
    text with a line feed: [a*b] is not found in [a], line feed, [b]. *)
Lemma selected_counterexample :
  (selected [] [""] "a.bin" = Some true /\
   ~ selection_rule any_char [] [""] "a.bin") /\
  (selected ["a*b"] [] (String "a" (String Py.LF "b")) = Some false /\
   selection_rule any_char ["a*b"] [] (String "a" (String Py.LF "b"))).
Proof.
  split; split.
  - reflexivity.
  - intros [_ H]. apply H. split; [discriminate|].
    constructor. apply empty_pattern_matches.
  - reflexivity.
  - split.
    + right. constructor.
      exists "", (String "a" (String Py.LF "b")), "". split; [reflexivity|].
      constructor; [discriminate|].
      apply (glob_star any_char "b" (Py.chr Py.LF) "b"); [reflexivity|].
      constructor; [discriminate | constructor].
    + intros [H _]. now apply H.
Qed.

End Selection.

Module Fingerprint.

Import Spec Hfd Examples.

Lemma tool_name_inj (t u : tool_kind) : tool_name t = tool_name u -> t = u.
Proof. destruct t, u; simpl; congruence. Qed.

Lemma faithful_rendered (q : parameter) (a b : args) :
  faithful q = true -> rendered q a = rendered q b -> agree q a b.
Proof.
  destruct q; simpl; try discriminate; intros _ H; auto.
  - now apply tool_name_inj.
  - destruct (dataset a), (dataset b); congruence.
Qed.

Lemma agree_rendered (q : parameter) (a b : args) :
  agree q a b -> rendered q a = rendered q b.
Proof. destruct q; simpl; intros H; now rewrite H. Qed.

(** The fingerprint is the nine texts, each after its label. *)
Lemma fingerprint_rendered (a : args) :
  generate_command_string a =
  "REPO_ID=" ++ rendered PRepoId a ++
  " TOOL=" ++ rendered PTool a ++
  " INCLUDE_PATTERNS=" ++ rendered PInclude a ++
  " EXCLUDE_PATTERNS=" ++ rendered PExclude a ++
  " DATASET=" ++ rendered PDataset a ++
  " HF_USERNAME=" ++ rendered PUsername a ++
  " HF_TOKEN=" ++ rendered PToken a ++
  " HF_ENDPOINT=" ++ rendered PEndpoint a ++
  " REVISION=" ++ rendered PRevision a.
Proof.
  unfold generate_command_string, Py.join. cbn [String.concat rendered].
  repeat (rewrite ?StrFacts.app_assoc; cbn [append]). reflexivity.
Qed.

Ltac other_parameter H q' :=
  let E := fresh "E" in
  assert (E := agree_rendered q' _ _ (H q' ltac:(discriminate)));
  rewrite E; clear E.

Ltac cancel_common H :=
  repeat (apply StrFacts.app_inv_head in H);
  first [exact H | apply StrFacts.app_inv_tail in H; exact H].

(** With all other parameters equal, the fingerprints are equal exactly
    when the texts of the remaining parameter are. *)
Lemma fingerprint_single (q : parameter) (a b : args) :
  differ_only_in q a b ->
  generate_command_string a = generate_command_string b <->
  rendered q a = rendered q b.
Proof.
  intros H. rewrite !fingerprint_rendered. unfold differ_only_in in H.
  destruct q.
  all: try other_parameter H PRepoId; try other_parameter H PTool;
    try other_parameter H PInclude; try other_parameter H PExclude;
    try other_parameter H PDataset; try other_parameter H PUsername;
    try other_parameter H PToken; try other_parameter H PEndpoint;
    try other_parameter H PRevision.
  all: split; intros E; [cancel_common E | now rewrite E].
Qed.

(** C4, amended.  Invocations with the same parameters (repo id, tool,
    include patterns, exclude patterns, dataset flag, username, token,
    endpoint, revision) have the same fingerprint.  Of two invocations
    that differ in one parameter only, the fingerprints are equal
    exactly when the text written for that parameter is the same in
    both; so they differ whenever the repo id, the tool, the dataset
    flag, the endpoint or the revision differs, while two pattern lists
    with the same space-joined text, or an absent and an empty username
    or token, leave the fingerprint unchanged. *)
Theorem fingerprint_sensitivity (q : parameter) (a b : args) :
  differ_only_in q a b ->
  (agree q a b -> generate_command_string a = generate_command_string b) /\
  (generate_command_string a = generate_command_string b <->
   rendered q a = rendered q b) /\
  (faithful q = true -> ~ agree q a b ->
   generate_command_string a <> generate_command_string b).
Proof.
  intros H. pose proof (fingerprint_single q a b H) as S. repeat split.
  - intros A. apply S. now apply agree_rendered.
  - apply S.
  - apply S.
  - intros F N E. apply N. apply faithful_rendered; [exact F | now apply S].
Qed.

(** Two invocations that differ in the revision only, [main] and [v2],
    have different fingerprints. *)
Lemma fingerprint_sensitivity_witness :
  generate_command_string args0 <>
  generate_command_string (with_revision args0 "v2").
Proof.
  apply (fingerprint_sensitivity PRevision args0 (with_revision args0 "v2")).
  - intros q' Hq. destruct q'; try reflexivity. congruence.
  - reflexivity.
  - simpl. discriminate.
Defined.

(** C4 as stated fails: the include lists [a b] (one pattern) and [a],
    [b] (two patterns) differ, all other parameters are equal, and the
    fingerprints are the same. *)
Lemma fingerprint_counterexample :
  differ_only_in PInclude (with_include args0 ["a b"])
    (with_include args0 ["a"; "b"]) /\
  ~ agree PInclude (with_include args0 ["a b"]) (with_include args0 ["a"; "b"]) /\
  generate_command_string (with_include args0 ["a b"]) =
  generate_command_string (with_include args0 ["a"; "b"]).
Proof.
  split; [|split].
  - intros q' Hq. destruct q'; try reflexivity. congruence.
  - simpl. discriminate.
  - reflexivity.
Qed.

End Fingerprint.

(* ================================================================== *)
(** * The plan invalidator *)
(* ================================================================== *)

Module Invalidator.

Import Spec Hfd Examples.

Lemma last_char_app (a b : string) :
  b <> "" -> last_char (a ++ b) = last_char b.
Proof.
  intros Hb. induction a as [|c a IH]; [reflexivity|].
  simpl. rewrite IH. destruct b as [|d b]; [congruence|].
  simpl. destruct (last_char b); reflexivity.
Qed.

Lemma last_char_pjoin (dir rel : string) :
  rel <> "" -> last_char (pjoin dir rel) = last_char rel.
Proof.
  intros Hrel. unfold pjoin.
  destruct (Py.startswith "/" rel); [reflexivity|].
  destruct (dir =? "")%string eqn:E; destruct (dir =? "."); try reflexivity.
  - rewrite last_char_app; [now apply last_char_app | discriminate].
  - rewrite last_char_app; [now apply last_char_app | discriminate].
Qed.

Lemma last_char_command_file (dir : string) :
  last_char (command_file dir) = Some "d"%char.
Proof. unfold command_file. now rewrite last_char_pjoin. Qed.

Lemma last_char_fileslist (a : args) :
  last_char (fileslist_file a) = Some "t"%char.
Proof. unfold fileslist_file. destruct (tool a); reflexivity. Qed.

Lemma fileslist_nonempty (a : args) : fileslist_file a <> "".
Proof. unfold fileslist_file. discriminate. Qed.

(** The record and the plan are two files. *)
Lemma command_file_not_plan (a : args) (dir : string) :
  command_file dir <> pjoin dir (fileslist_file a).
Proof.
  intros E. apply (f_equal last_char) in E.
  rewrite last_char_command_file, last_char_pjoin, last_char_fileslist in E
    by apply fileslist_nonempty.
  discriminate.
Qed.

Lemma command_file_not_fileslist (a : args) (dir : string) :
  command_file dir <> fileslist_file a.
Proof.
  intros E. apply (f_equal last_char) in E.
  rewrite last_char_command_file, last_char_fileslist in E. discriminate.
Qed.

Lemma write_same (f : store) (p text : string) : write f p text p = Some text.
Proof. unfold write. now rewrite String.eqb_refl. Qed.

Lemma write_other (f : store) (p q text : string) :
  q <> p -> write f p text q = f q.
Proof. unfold write. intros H. apply String.eqb_neq in H. now rewrite H. Qed.

Lemma unlink_other (f : store) (p q : string) :
  q <> p -> unlink f p q = f q.
Proof. unfold unlink. intros H. apply String.eqb_neq in H. now rewrite H. Qed.

(** The answer and the directory after a call, case by case. *)
Lemma should_regenerate_cases (a : args) (dir : string) (f : store) :
  let current := generate_command_string a in
  let record := command_file dir in
  let plan := pjoin dir (fileslist_file a) in
  exists (b : bool) (f' : store),
    should_regenerate_filelist a dir f = (f', [], Returns b) /\
    (b = true <->
     f record = None \/ f plan = None \/
     exists text, read f record = Some text /\ Py.strip text <> current) /\
    (b = true -> f' = write f record current) /\
    (b = false ->
     f' = f /\
     exists text, read f record = Some text /\ Py.strip text = current) /\
    (b = true ->
     Py.strip (universal_newlines current) = current ->
     forall plan_text,
       should_regenerate_filelist a dir (write f' plan plan_text) =
       (write f' plan plan_text, [], Returns false)).
Proof.
  intros current record plan.
  assert (record <> plan) as Hdiff by apply command_file_not_plan.
  assert (forall g text, g = write f record current ->
            Py.strip (universal_newlines current) = current ->
            should_regenerate_filelist a dir (write g plan text) =
            (write g plan text, [], Returns false)) as Hnext.
  { intros g text -> Hs. unfold should_regenerate_filelist, bind, get_store.
    fold current record plan. unfold exists_, read.
    rewrite write_same, (write_other _ plan record) by exact Hdiff.
    rewrite write_same. cbn [negb orb option_map]. rewrite Hs.
    now rewrite String.eqb_refl. }
  unfold should_regenerate_filelist, bind, get_store, put_store, ret.
  fold current record plan. unfold exists_, read.
  destruct (f plan) as [p|] eqn:Hp.
  - destruct (f record) as [r|] eqn:Hr; cbn [negb orb option_map].
    + destruct (String.eqb_spec current (Py.strip (universal_newlines r)))
        as [E|E]; cbn [negb].
      * exists false, f. split; [reflexivity|]. repeat split; try discriminate.
        -- intros [H|[H|(text & [= <-] & H)]]; congruence.
        -- exists (universal_newlines r). now split.
      * exists true, (write f record current). split; [reflexivity|].
        repeat split; try discriminate; try reflexivity.
        -- intros _. right. right. exists (universal_newlines r).
           split; [reflexivity | congruence].
        -- intros _ Hs text. now apply Hnext.
    + exists true, (write f record current). split; [reflexivity|].
      repeat split; try discriminate; try reflexivity.
      * intros _. now left.
      * intros _ Hs text. now apply Hnext.
  - cbn [negb orb]. exists true, (write f record current).
    split; [reflexivity|]. repeat split; try discriminate; try reflexivity.
    + intros _. right. now left.
    + intros _ Hs text. now apply Hnext.
Qed.

(** C5 as stated fails for a fingerprint that ends with a space.  The
    record is the current fingerprint and the plan is there, and yet the
    answer is [True]: the record is stripped before it is compared.  So
    the second of two calls with an unchanged fingerprint answers [True]
    as well. *)
Lemma should_regenerate_counterexample :
  ~ regenerate_rule args_trailing "m" (recorded_store args_trailing).
Proof.
  intros (b & f' & E & Hb & _).
  assert (snd (should_regenerate_filelist args_trailing "m"
                 (recorded_store args_trailing)) = Returns true) as Hrun
    by (vm_compute; reflexivity).
  rewrite E in Hrun. cbn [snd] in Hrun. injection Hrun as ->.
  destruct Hb as [Hb _]. destruct (Hb eq_refl) as [H|[H|H]].
  - vm_compute in H. discriminate.
  - vm_compute in H. discriminate.
  - apply H. vm_compute. reflexivity.
Qed.

End Invalidator.

(* ================================================================== *)
(** * The gated-access check *)
(* ================================================================== *)

Module Authentication.

Import Json Spec Hfd Examples.

Lemma truthy_gated (members : list (string * json)) :
  truthy (dict_get members "gated" (JBool false)) = true <->
  gated_field (JObj members).
Proof.
  unfold dict_get, gated_field. split.
  - destruct (lookup "gated" members) as [g|] eqn:L; [|discriminate].
    intros T. now exists members, g.
  - intros (ms & g & [= <-] & L & T). now rewrite L.
Qed.

Section Check.

Variable json_loads : string -> exn + json.

Lemma gated_decoded (response : string) (v : json) :
  json_loads response = inr v ->
  gated_response json_loads response <-> gated_field v.
Proof.
  intros E. unfold gated_response. split.
  - intros [(v' & E' & G) | [E' _]]; congruence.
  - intros G. left. now exists v.
Qed.

Lemma gated_undecoded (response : string) :
  json_loads response = inl JSONDecodeError ->
  gated_response json_loads response <->
  Py.contains GATED_TRUE response = true.
Proof.
  intros E. unfold gated_response. split.
  - intros [(v' & E' & G) | [_ C]]; [congruence | exact C].
  - intros C. now right.
Qed.

(** An exception of [json.loads] that the handler does not catch says
    nothing about the gate. *)
Lemma gated_escaped (response : string) (e : exn) :
  json_loads response = inl e ->
  e <> JSONDecodeError ->
  ~ gated_response json_loads response.
Proof.
  intros E Hne [(v & E' & _) | [E' _]]; congruence.
Qed.

(** The check, outcome by outcome. *)
Lemma check_authentication_cases (response : string) (a : args) (f : store) :
  (credentials_missing a = true /\ gated_response json_loads response /\
   check_authentication json_loads response a f =
     (f, [Print AuthRequired], Exits 1%Z)) \/
  (~ (credentials_missing a = true /\ gated_response json_loads response) /\
   ((exists v, json_loads response = inr v /\
               (forall members, v <> JObj members) /\
               check_authentication json_loads response a f =
                 (f, [], Raises AttributeError)) \/
    (exists e, json_loads response = inl e /\
               e <> JSONDecodeError /\
               check_authentication json_loads response a f =
                 (f, [], Raises e)) \/
    (((exists members, json_loads response = inr (JObj members)) \/
      json_loads response = inl JSONDecodeError) /\
     check_authentication json_loads response a f = (f, [], Returns tt)))).
Proof.
  unfold check_authentication.
  destruct (json_loads response) as [e|v] eqn:E.
  - assert (e = JSONDecodeError \/ e <> JSONDecodeError) as [-> | Hne]
      by (destruct e; (now left) || (right; discriminate)).
    + pose proof (gated_undecoded response E) as G.
      destruct (Py.contains GATED_TRUE response) eqn:T;
        destruct (credentials_missing a) eqn:C; cbn [andb].
      * left. split; [reflexivity|]. split; [now apply G | reflexivity].
      * right. split; [intros [? _]; discriminate|]. right. right.
        split; [now right | reflexivity].
      * right. split; [intros [_ H]; apply G in H; discriminate|]. right.
        right. split; [now right | reflexivity].
      * right. split; [intros [? _]; discriminate|]. right. right.
        split; [now right | reflexivity].
    + right. split; [intros [_ H]; now apply (gated_escaped response e E Hne)|].
      right. left. exists e. split; [reflexivity|]. split; [exact Hne|].
      destruct e; try reflexivity. now elim Hne.
  - pose proof (gated_decoded response v E) as G.
    assert (forall T : Prop, (forall members, v <> JObj members) ->
              ~ (T /\ gated_response json_loads response)) as Hno.
    { intros T Hv [_ H]. apply G in H. destruct H as (ms & g & -> & _).
      now apply (Hv ms). }
    destruct v as [|b|n|s|items|members];
      try (right; split; [apply Hno; discriminate|]; left; eexists;
           split; [reflexivity|]; split; [discriminate | reflexivity]).
    destruct (truthy (dict_get members "gated" (JBool false))) eqn:T;
      destruct (credentials_missing a) eqn:C; cbn [andb].
    + left. split; [reflexivity|]. split; [|reflexivity].
      apply G. now apply truthy_gated.
    + right. split; [intros [? _]; discriminate|]. right. right.
      split; [|reflexivity]. left. now exists members.
    + right. split.
      * intros [_ H]. apply G, truthy_gated in H. congruence.
      * right. right. split; [|reflexivity]. left. now exists members.
    + right. split; [intros [? _]; discriminate|]. right. right.
      split; [|reflexivity]. left. now exists members.
Qed.

(** C7, amended.  For every manifest text and credential setting,
    [check_authentication] ends the process with the authentication
    error exactly when credentials are missing and either the text
    decodes to a manifest with a truthy gated field, or it does not
    decode and contains the gated mark.  In all other cases it returns,
    malformed JSON without the mark included, provided [json.loads]
    gives an object or raises [JSONDecodeError].  A text that decodes to
    a value that is not an object ends the check with [AttributeError],
    and an exception of [json.loads] that is no [JSONDecodeError] (the
    [RecursionError] of a text nested too deep, the [ValueError] of an
    integer of too many digits) leaves the check as it is: in both cases
    nothing is printed and the process is not ended by the check. *)
Theorem check_authentication_rule (response : string) (a : args) (f : store) :
  (check_authentication json_loads response a f =
     (f, [Print AuthRequired], Exits 1%Z) <->
   credentials_missing a = true /\ gated_response json_loads response) /\
  ((exists members, json_loads response = inr (JObj members)) \/
   json_loads response = inl JSONDecodeError ->
   ~ (credentials_missing a = true /\ gated_response json_loads response) ->
   check_authentication json_loads response a f = (f, [], Returns tt)) /\
  (forall v,
     json_loads response = inr v ->
     (forall members, v <> JObj members) ->
     check_authentication json_loads response a f =
       (f, [], Raises AttributeError)) /\
  (forall e,
     json_loads response = inl e ->
     e <> JSONDecodeError ->
     check_authentication json_loads response a f = (f, [], Raises e)).
Proof.
  destruct (check_authentication_cases response a f)
    as [(C & G & E) |
        (N & [(v & Ev & Hv & E) | [(e & Ee & He & E) | (Hok & E)]])].
  - split; [now rewrite E | split; [tauto|]]. split.
    + intros v Ev Hv. apply (gated_decoded response v Ev) in G.
      destruct G as (ms & g & -> & _). now elim (Hv ms).
    + intros e Ee He. now elim (gated_escaped response e Ee He).
  - split; [rewrite E; split; [discriminate | tauto]|]. split; [|split].
    + intros [(ms & Ems) | Ed] _; [|congruence].
      rewrite Ev in Ems. injection Ems as ->. now elim (Hv ms).
    + intros v' Ev' _. exact E.
    + intros e Ee _. congruence.
  - split; [rewrite E; split; [discriminate | tauto]|]. split; [|split].
    + intros [(ms & Ems) | Ed] _; congruence.
    + intros v Ev _. congruence.
    + intros e' Ee' _. rewrite Ee in Ee'. injection Ee' as <-. exact E.
  - split; [rewrite E; split; [discriminate | tauto]|]. split; [|split].
    + intros _ _. exact E.
    + intros v Ev Hv. destruct Hok as [(ms & Ems) | Ed]; [|congruence].
      rewrite Ev in Ems. injection Ems as ->. now elim (Hv ms).
    + intros e Ee He. destruct Hok as [(ms & Ems) | Ed]; congruence.
Qed.

Lemma write_entry_username (py_str : json -> string) (a : args)
    (u : option string) (file : json) :
  write_entry py_str (with_username a u) file = write_entry py_str a file.
Proof. destruct a. reflexivity. Qed.

Lemma write_entries_username (py_str : json -> string) (a : args)
    (u : option string) (files : list json) :
  write_entries py_str (with_username a u) files = write_entries py_str a files.
Proof.
  induction files as [|file rest IH]; [reflexivity|].
  cbn [write_entries]. now rewrite write_entry_username, IH.
Qed.

Lemma fallback_entries_username (py_str : json -> string) (a : args)
    (u : option string) (ir er : string) (files : list string) :
  fallback_entries py_str (with_username a u) ir er files =
  fallback_entries py_str a ir er files.
Proof.
  induction files as [|file rest IH]; [reflexivity|].
  cbn [fallback_entries]. now rewrite write_entry_username, IH.
Qed.

Lemma generate_file_list_username (py_str : json -> string) (a : args)
    (u : option string) (response dir : string) (g : store) :
  generate_file_list json_loads py_str (with_username a u) response dir g =
  generate_file_list json_loads py_str a response dir g.
Proof.
  unfold generate_file_list.
  rewrite fallback_entries_username.
  change (fileslist_file (with_username a u)) with (fileslist_file a).
  change (include (with_username a u)) with (include a).
  change (exclude (with_username a u)) with (exclude a).
  destruct (json_loads response) as [e|[| | | | |members]];
    [destruct e; reflexivity | try reflexivity ..].
  destruct (iter (dict_get members "siblings" (JArr []))); [|reflexivity].
  destruct (rfilenames l); [reflexivity|].
  destruct (filter_files _ _ l0); [reflexivity|].
  now rewrite write_entries_username.
Qed.

(** C10.  For a gated repository the check wants both a username and a
    token: when either is missing, the token being there or not, it
    prints the authentication error and ends the process with status 1,
    and so does [main], whether the manifest is cached or fetched.  The
    username is used nowhere else: the plan and the metadata request are
    the same for every username. *)
Theorem gated_needs_username_and_token (py_str : json -> string)
    (env : environment) (response : string) (a : args) (f : store) :
  gated_response json_loads response ->
  Py.opt_truthy (hf_token a) = false \/ Py.opt_truthy (hf_username a) = false ->
  check_authentication json_loads response a f =
    (f, [Print AuthRequired], Exits 1%Z) /\
  (read f (metadata_file a) = Some response ->
   main json_loads py_str env a f =
     (f, [Print UsingCachedMetadata; Print AuthRequired], Exits 1%Z) /\
   exit_status (snd (main json_loads py_str env a f)) = 1%Z) /\
  (forall raw,
     f (metadata_file a) = None ->
     curl env (api_url a)
       (if Py.opt_truthy (hf_token a) then hf_token a else None) =
       (0%Z, Some raw) ->
     universal_newlines raw = response ->
     main json_loads py_str env a f =
       (write f (metadata_file a) raw,
        [Print FetchingMetadata; Print AuthRequired], Exits 1%Z) /\
     exit_status (snd (main json_loads py_str env a f)) = 1%Z) /\
  (forall u dir g,
     generate_file_list json_loads py_str (with_username a u) response dir g =
     generate_file_list json_loads py_str a response dir g /\
     fetch_and_save_metadata env (with_username a u) (metadata_file a) g =
     fetch_and_save_metadata env a (metadata_file a) g).
Proof.
  intros G M.
  assert (credentials_missing a = true) as C.
  { unfold credentials_missing. destruct M as [-> | ->]; [reflexivity|].
    apply orb_true_r. }
  assert (forall g, check_authentication json_loads response a g =
                      (g, [Print AuthRequired], Exits 1%Z)) as E.
  { intros g.
    destruct (check_authentication_cases response a g) as [(_ & _ & E)|[N _]];
      [exact E | now elim N]. }
  split; [apply E|]. split; [|split].
  - intros R.
    assert (main json_loads py_str env a f =
              (f, [Print UsingCachedMetadata; Print AuthRequired], Exits 1%Z))
      as Hmain.
    { unfold main, plan_phase, bind, get_store, print, exists_.
      unfold read in R. destruct (f (metadata_file a)) as [raw|] eqn:Hm;
        [|discriminate]. cbn [negb]. unfold read. rewrite Hm.
      cbn [option_map] in R |- *. injection R as ->.
      unfold ret. rewrite E. reflexivity. }
    now rewrite Hmain.
  - intros raw Hm Hcurl Hraw.
    assert (main json_loads py_str env a f =
              (write f (metadata_file a) raw,
               [Print FetchingMetadata; Print AuthRequired], Exits 1%Z))
      as Hmain.
    { unfold main, plan_phase, fetch_and_save_metadata, bind, get_store,
        print, put_store, exists_.
      rewrite Hm. cbn [negb]. rewrite Hcurl. cbn [Z.eqb negb].
      unfold read. rewrite Invalidator.write_same. cbn [option_map].
      rewrite Hraw. unfold ret. rewrite E. reflexivity. }
    now rewrite Hmain.
  - intros u dir g. split; [apply generate_file_list_username|].
    destruct a. reflexivity.
Qed.

End Check.

(** The amended rule on a text that does not decode and has no gated
    mark: the check returns; and on an integer of 5000 digits: the
    [ValueError] of [json.loads] leaves the check. *)
Lemma check_authentication_rule_witness :
  check_authentication decode "{" args0 empty_store =
    (empty_store, [], Returns tt) /\
  check_authentication decode long_integer args0 empty_store =
    (empty_store, [], Raises ValueError).
Proof.
  split.
  - apply (proj1 (proj2
             (check_authentication_rule decode "{" args0 empty_store))).
    + right. vm_compute. reflexivity.
    + intros [_ [(v & E & _) | [_ C]]]; [vm_compute in E | vm_compute in C];
        discriminate.
  - apply (proj2 (proj2 (proj2
             (check_authentication_rule decode long_integer args0
                empty_store))) ValueError).
    + vm_compute. reflexivity.
    + discriminate.
Defined.

(** C7 as stated fails on three texts; on each the credentials are
    missing, nothing says gated, and the check neither returns nor
    prints the authentication error.  The text of an empty JSON array
    decodes to a value without [get]: [AttributeError].  An integer of
    5000 digits and 100000 opening brackets end [json.loads] with a
    [ValueError] and a [RecursionError], which the handler for
    [JSONDecodeError] does not catch. *)
Lemma check_authentication_counterexample :
  (check_authentication decode "[]" args0 empty_store =
     (empty_store, [], Raises AttributeError) /\
   ~ authentication_rule decode "[]" args0 empty_store) /\
  (check_authentication decode long_integer args0 empty_store =
     (empty_store, [], Raises ValueError) /\
   ~ authentication_rule decode long_integer args0 empty_store) /\
  (check_authentication decode deep_array args0 empty_store =
     (empty_store, [], Raises RecursionError) /\
   ~ authentication_rule decode deep_array args0 empty_store).
Proof.
  assert (forall text e,
            check_authentication decode text args0 empty_store =
              (empty_store, [], Raises e) ->
            (forall v, decode text = inr v -> ~ gated_field v) ->
            decode text <> inl JSONDecodeError ->
            ~ authentication_rule decode text args0 empty_store) as Hno.
  { intros text e E Hv Hd [_ H].
    rewrite E in H. discriminate H.
    intros [_ [(v & Ev & G) | [Ed _]]]; [now apply (Hv v Ev) | now apply Hd]. }
  split; [|split]; (split; [vm_compute; reflexivity|]).
  - apply (Hno "[]" AttributeError); [vm_compute; reflexivity | |].
    + intros v E. vm_compute in E. injection E as <-.
      intros (ms & g & D & _). discriminate.
    + vm_compute. discriminate.
  - apply (Hno long_integer ValueError); [vm_compute; reflexivity | |].
    + intros v E. vm_compute in E. discriminate.
    + vm_compute. discriminate.
  - apply (Hno deep_array RecursionError); [vm_compute; reflexivity | |].
    + intros v E. vm_compute in E. discriminate.
    + vm_compute. discriminate.
Qed.

(** A token without a username does not open a gated repository. *)
Lemma gated_needs_username_and_token_witness :
  check_authentication decode gated_manifest
    (with_token args0 (Some "hf_abc")) empty_store =
    (empty_store, [Print AuthRequired], Exits 1%Z).
Proof.
  apply (gated_needs_username_and_token decode no_str
           {| curl := fun _ _ => (0%Z, None);
              downloader := fun _ => 0%Z;
              stat_size := fun _ => None |}
           gated_manifest (with_token args0 (Some "hf_abc")) empty_store).
  - left. exists (JObj [("gated", JStr "auto"); ("siblings", JArr [])]).
    split; [vm_compute; reflexivity|].
    exists [("gated", JStr "auto"); ("siblings", JArr [])], (JStr "auto").
    repeat split.
  - right. reflexivity.
Defined.

End Authentication.

(* ================================================================== *)
(** * The plan generator *)
(* ================================================================== *)

Module PlanGenerator.

Import Json Spec Hfd Examples.

Lemma rfilenames_named (siblings : list json) (names : list string) :
  Forall2 sibling_with_path siblings names ->
  rfilenames siblings = inr (map JStr (filter nonempty names)).
Proof.
  induction 1 as [|sib name siblings names (members & -> & L) _ IH];
    [reflexivity|].
  cbn [rfilenames filter]. rewrite IH. unfold dict_get. rewrite L.
  cbn [truthy]. unfold Py.str_truthy, nonempty.
  destruct (negb (name =? "")); reflexivity.
Qed.

Lemma filter_files_selected (a : args) (names : list string) :
  filter_files (pattern_regex (include a)) (pattern_regex (exclude a))
    (map JStr names) =
  inr (map JStr (filter (is_selected a) names)).
Proof.
  induction names as [|p names IH]; [reflexivity|].
  cbn [map filter_files filter passes_json]. rewrite IH. unfold is_selected.
  destruct (Selection.selected_total (include a) (exclude a) p) as (b & E).
  unfold selected in E. rewrite E. unfold selected. rewrite E.
  destruct b; reflexivity.
Qed.

Lemma header_line_configured (a : args) :
  header_line a =
  match configured_token a with
  | Some t => "  header=Authorization: Bearer " ++ t ++ NL
  | None => ""
  end.
Proof.
  unfold header_line, configured_token, Py.opt_truthy, Py.or_empty,
    Py.str_truthy.
  destruct (hf_token a) as [t|]; [|reflexivity].
  destruct (t =? ""); reflexivity.
Qed.

Section Generator.

Variable json_loads : string -> exn + json.
Variable py_str : json -> string.

Lemma write_entry_text (a : args) (p : string) :
  write_entry py_str a (JStr p) = (entry_text a p, None).
Proof.
  unfold write_entry, entry_text. rewrite header_line_configured.
  destruct (tool a); reflexivity.
Qed.

Lemma write_entries_text (a : args) (names : list string) :
  write_entries py_str a (map JStr names) =
  (concat_texts (map (entry_text a) names), None).
Proof.
  induction names as [|p names IH]; [reflexivity|].
  cbn [map write_entries concat_texts]. now rewrite write_entry_text, IH.
Qed.

(** C6, amended.  For every manifest that decodes to an object whose
    siblings are entries with a relative path, [generate_file_list]
    writes the plan with one entry, in manifest order, for each sibling
    whose path is not empty and passes the selection test.  The entry
    has the URL [{endpoint}/{downloadPathPrefix}/resolve/{revision}/
    {relativePath}]; for aria2c it is the URL line, the directory
    directive (parent directory, empty at the root), the file name
    directive (base name), the bearer header line when a token is
    configured, and a blank line; for wget it is the URL line. *)
Theorem generate_file_list_plan (a : args) (response dir : string) (f : store)
    (members : list (string * json)) (siblings : list json)
    (names : list string) :
  json_loads response = inr (JObj members) ->
  dict_get members "siblings" (JArr []) = JArr siblings ->
  Forall2 sibling_with_path siblings names ->
  generate_file_list json_loads py_str a response dir f =
    (write f (pjoin dir (fileslist_file a))
       (plan_text a (filter nonempty names)), [], Returns tt).
Proof.
  intros E S N. unfold generate_file_list. rewrite E, S. cbn [iter].
  rewrite (rfilenames_named siblings names N), filter_files_selected.
  rewrite write_entries_text. reflexivity.
Qed.

End Generator.

(** The end-to-end scenario: with the exclude pattern [*.md] the plan for
    the manifest with [a.bin] and [README.md] has one entry, for [a.bin],
    with its resolve URL. *)
Lemma generate_file_list_plan_witness :
  generate_file_list decode no_str args0 scenario_manifest "m" empty_store =
    (write empty_store "m/.hfd/aria2c_urls.txt"
       ("https://huggingface.co/org/m/resolve/main/a.bin" ++ NL ++
        "  dir=" ++ NL ++ "  out=a.bin" ++ NL ++ NL),
     [], Returns tt).
Proof.
  apply (generate_file_list_plan decode no_str args0 scenario_manifest "m"
           empty_store
           [("gated", JBool false);
            ("siblings",
             JArr [JObj [("rfilename", JStr "a.bin"); ("size", JNum 10)];
                   JObj [("rfilename", JStr "README.md")]])]
           [JObj [("rfilename", JStr "a.bin"); ("size", JNum 10)];
            JObj [("rfilename", JStr "README.md")]]
           ["a.bin"; "README.md"]).
  - vm_compute. reflexivity.
  - reflexivity.
  - repeat constructor; eexists; split; reflexivity.
Defined.

(** C6 as stated fails for a sibling with an empty path: without
    patterns the path is selected, and the plan has no entry for it. *)
Lemma generate_file_list_counterexample :
  ~ plan_rule decode no_str args_wget nameless_manifest "m" empty_store.
Proof.
  intros H.
  specialize (H [("siblings", JArr [JObj [("rfilename", JStr "")]])]
                [JObj [("rfilename", JStr "")]] [""]).
  assert (generate_file_list decode no_str args_wget nameless_manifest "m"
            empty_store =
          (write empty_store (pjoin "m" (fileslist_file args_wget))
             (plan_text args_wget [""]), [], Returns tt)) as E.
  { apply H.
    - vm_compute. reflexivity.
    - reflexivity.
    - repeat constructor. eexists. split; reflexivity. }
  apply (f_equal (fun r => fst (fst r) "m/.hfd/wget_urls.txt")) in E.
  vm_compute in E. discriminate.
Qed.

End PlanGenerator.

(* ================================================================== *)
(** * The verifier *)
(* ================================================================== *)

Module Verifier.

Import Json Spec Hfd Examples.

Lemma verify_loop_step (stat : string -> option Z) (dir : string)
    (members : list (string * json)) (name : string) (size : option Z)
    (rest : list json) (f : store) :
  lookup "rfilename" members = Some (JStr name) ->
  lookup "size" members = option_map JNum size ->
  verify_loop stat dir (JObj members :: rest) f =
  if incomplete stat dir (name, size)
  then (f, [Print (Incomplete (local_path dir name))], Returns false)
  else verify_loop stat dir rest f.
Proof.
  intros L Hs. cbn [verify_loop]. rewrite L. unfold dict_get. rewrite Hs.
  unfold incomplete, discrepancy. cbn [fst snd].
  destruct size as [n|]; cbn [option_map truthy int_ne andb]; [|reflexivity].
  destruct (negb (n =? 0)%Z); cbn [andb]; [|reflexivity].
  destruct (stat (local_path dir name)) as [st_size|]; [|reflexivity].
  destruct (negb (st_size =? n)%Z); reflexivity.
Qed.

Lemma verify_loop_find (stat : string -> option Z) (dir : string)
    (siblings : list json) (entries : list (string * option Z)) (f : store) :
  Forall2 sibling_entry siblings entries ->
  verify_loop stat dir siblings f =
  match find (incomplete stat dir) entries with
  | Some e => (f, [Print (Incomplete (local_path dir (fst e)))], Returns false)
  | None => (f, [], Returns true)
  end.
Proof.
  induction 1 as [|sib e siblings entries (members & -> & L & Hs) _ IH];
    [reflexivity|].
  destruct e as [name size]. cbn [fst snd] in L, Hs.
  rewrite (verify_loop_step stat dir members name size siblings f L Hs).
  cbn [find]. destruct (incomplete stat dir (name, size)); [reflexivity|].
  exact IH.
Qed.

Section Verify.

Variable json_loads : string -> exn + json.

(** X20.  The contract of [verify_files], when it is called.  On a
    manifest that decodes to an object whose siblings are entries with a
    relative path and, possibly, a declared size, it goes through the
    entries in manifest order up to the first one that declares a size
    other than zero and whose local file exists with another length; it
    reports that file as incomplete, under the normalised path
    [Path(dir) / name], and returns [False].  It returns [True], without
    a report, exactly when there is no such entry. *)
Theorem verify_files_first_incomplete (stat : string -> option Z)
    (dir metadata : string) (f : store) (members : list (string * json))
    (siblings : list json) (entries : list (string * option Z)) :
  json_loads metadata = inr (JObj members) ->
  dict_get members "siblings" (JArr []) = JArr siblings ->
  Forall2 sibling_entry siblings entries ->
  verify_files json_loads stat dir metadata f =
    match find (incomplete stat dir) entries with
    | Some e => (f, [Print (Incomplete (local_path dir (fst e)))], Returns false)
    | None => (f, [], Returns true)
    end /\
  (snd (verify_files json_loads stat dir metadata f) = Returns true <->
   forall e, In e entries -> incomplete stat dir e = false).
Proof.
  intros E S N.
  assert (verify_files json_loads stat dir metadata f =
          match find (incomplete stat dir) entries with
          | Some e => (f, [Print (Incomplete (local_path dir (fst e)))], Returns false)
          | None => (f, [], Returns true)
          end) as R.
  { unfold verify_files. rewrite E, S. cbn [iter]. now apply verify_loop_find. }
  split; [exact R|]. rewrite R.
  destruct (find (incomplete stat dir) entries) as [e|] eqn:F; cbn [snd].
  - split; [discriminate|]. intros H. apply find_some in F.
    destruct F as [Hin He]. rewrite (H e Hin) in He. discriminate.
  - split; [|reflexivity]. intros _ e Hin.
    destruct (incomplete stat dir e) eqn:He; [|reflexivity].
    now rewrite (find_none _ _ F e Hin) in He.
Qed.

End Verify.

End Verifier.

(* ================================================================== *)
(** * The retry orchestrator *)
(* ================================================================== *)

Module Orchestrator.

Import Json Spec Hfd Examples.

(** One turn of the loop. *)
Lemma retry_loop_unfold (dl : nat -> Z) (maxr attempt : Z) (launched : nat) :
  retry_loop dl maxr attempt launched =
  if (attempt <? maxr)%Z then
    if (dl launched =? 0)%Z then
      ([Print (AttemptOf (attempt + 1) maxr); Launch launched;
        Print DownloadCompleted], Returns tt)
    else if (attempt + 1 =? maxr)%Z then
      ([Print (AttemptOf (attempt + 1) maxr); Launch launched;
        Print (DownloadFailed (dl launched));
        Print (MaxRetriesReached maxr)], Exits 1%Z)
    else
      let (tr, o) := retry_loop dl maxr (attempt + 1) (S launched) in
      (Print (AttemptOf (attempt + 1) maxr) :: Launch launched ::
       Print (DownloadFailed (dl launched)) :: tr, o)
  else ([], Returns tt).
Proof.
  rewrite retry_loop_equation_1. unfold retry_loop_unfold_clause_1.
  destruct (Z_lt_dec attempt maxr) as [H|H].
  - apply Z.ltb_lt in H. now rewrite H.
  - apply Z.nlt_ge, Z.ltb_ge in H. now rewrite H.
Qed.


(** The loop, launch by launch: its launches are numbered from
    [launched] on, and a launch that exits with status zero ends it. *)
Lemma retry_loop_success (dl : nat -> Z) (maxr : Z) (n : nat) :
  forall (attempt : Z) (launched : nat),
    Z.to_nat (maxr - attempt) <= n ->
    forall k,
      In (Launch k) (fst (retry_loop dl maxr attempt launched)) ->
      launched <= k /\
      (dl k = 0%Z ->
       success_stops (fst (retry_loop dl maxr attempt launched))
         (snd (retry_loop dl maxr attempt launched)) k).
Proof.
  induction n as [|n IH]; intros attempt launched Hn k;
    rewrite retry_loop_unfold.
  - replace (attempt <? maxr)%Z with false
      by (symmetry; apply Z.ltb_ge; lia).
    intros [].
  - destruct (attempt <? maxr)%Z eqn:Hlt; [|intros []].
    apply Z.ltb_lt in Hlt.
    destruct (dl launched =? 0)%Z eqn:Hrc.
    + cbn [fst snd]. intros [H|[H|[H|[]]]]; try discriminate.
      injection H as <-. split; [lia|]. intros _.
      split; [reflexivity|]. split.
      * now exists [Print (AttemptOf (attempt + 1) maxr)].
      * intros k' [H|[H|[H|[]]]]; try discriminate. injection H as <-. lia.
    + apply Z.eqb_neq in Hrc.
      destruct (attempt + 1 =? maxr)%Z eqn:Hlast.
      * cbn [fst snd]. intros [H|[H|[H|[H|[]]]]]; try discriminate.
        injection H as <-. split; [lia|]. intros H0. congruence.
      * specialize (IH (attempt + 1)%Z (S launched) ltac:(lia)).
        destruct (retry_loop dl maxr (attempt + 1) (S launched)) as [tr o].
        cbn [fst snd] in IH |- *.
        intros [H|[H|[H|H]]]; try discriminate.
        -- injection H as <-. split; [lia|]. intros H0. congruence.
        -- destruct (IH k H) as [Hk Hs]. split; [lia|]. intros H0.
           destruct (Hs H0) as (Ho & (tr0 & ->) & Hmax).
           split; [exact Ho|]. split.
           ++ now exists (Print (AttemptOf (attempt + 1) maxr) ::
                Launch launched :: Print (DownloadFailed (dl launched)) :: tr0).
           ++ intros k' [H'|[H'|[H'|H']]]; try discriminate.
              ** injection H' as <-. lia.
              ** now apply Hmax.
Qed.

Lemma launches_app (tr1 tr2 : list event) :
  launches (tr1 ++ tr2) = (launches tr1 ++ launches tr2)%list.
Proof.
  induction tr1 as [|[m|k] tr1 IH]; simpl; [reflexivity | exact IH |].
  now rewrite IH.
Qed.

Lemma prints_no_launch (tr : list event) :
  forallb is_print tr = true -> forall k, ~ In (Launch k) tr.
Proof.
  intros H k Hin. rewrite forallb_forall in H. now apply H in Hin.
Qed.

Lemma prints_launches (tr : list event) :
  forallb is_print tr = true -> launches tr = [].
Proof.
  induction tr as [|[m|k] tr IH]; simpl; [reflexivity | exact IH | discriminate].
Qed.

(** ** Events of a composed computation *)

Section Emits.

Variable P : event -> bool.

Lemma emits_ret {A : Type} (v : A) : emits_only P (ret v).
Proof. intros f. reflexivity. Qed.

Lemma emits_print (m : message) : P (Print m) = true -> emits_only P (print m).
Proof. intros H f. simpl. now rewrite H. Qed.

Lemma emits_sys_exit {A : Type} (code : Z) : emits_only P (@sys_exit A code).
Proof. intros f. reflexivity. Qed.

Lemma emits_raise {A : Type} (e : exn) : emits_only P (@raise A e).
Proof. intros f. reflexivity. Qed.

Lemma emits_get_store : emits_only P get_store.
Proof. intros f. reflexivity. Qed.

Lemma emits_put_store (g : store) : emits_only P (put_store g).
Proof. intros f. reflexivity. Qed.

Lemma emits_bind {A B : Type} (m : M A) (k : A -> M B) :
  emits_only P m -> (forall v, emits_only P (k v)) -> emits_only P (bind m k).
Proof.
  intros Hm Hk f. unfold bind. specialize (Hm f).
  destruct (m f) as [[f1 tr1] [v|code|e]]; cbn [fst snd] in Hm |- *;
    try exact Hm.
  specialize (Hk v f1). destruct (k v f1) as [[f2 tr2] o].
  cbn [fst snd] in Hk |- *. rewrite forallb_app. now rewrite Hm, Hk.
Qed.

End Emits.

Ltac emits :=
  repeat first
    [ apply emits_ret | apply emits_print; reflexivity | apply emits_sys_exit
    | apply emits_raise | apply emits_get_store | apply emits_put_store
    | apply emits_bind; [|intros ?]
    | progress cbv zeta
    | match goal with
      | |- emits_only _ (match ?x with _ => _ end) => destruct x
      end ].

Section Main.

Variable json_loads : string -> exn + json.
Variable py_str : json -> string.

Lemma prints_plan_phase (env : environment) (a : args) :
  emits_only is_print (plan_phase json_loads py_str env a).
Proof.
  unfold plan_phase, fetch_and_save_metadata, check_authentication,
    should_regenerate_filelist, generate_file_list, write_plan.
  emits.
Qed.

Lemma main_unfold (env : environment) (a : args) (f : store) :
  main json_loads py_str env a f =
  match plan_phase json_loads py_str env a f with
  | (f1, tr1, Returns _) =>
      (f1, (tr1 ++ fst (download_phase env a))%list,
       snd (download_phase env a))
  | (f1, tr1, Exits code) => (f1, tr1, Exits code)
  | (f1, tr1, Raises e) => (f1, tr1, Raises e)
  end.
Proof.
  unfold main, bind.
  destruct (plan_phase json_loads py_str env a f) as [[f1 tr1] [v|code|e]];
    try reflexivity.
  now destruct (download_phase env a).
Qed.

(** The launches of [main] are those of the download phase, and [main]
    ends as the download phase does, once the plan phase has returned. *)
Lemma main_download (env : environment) (a : args) (f : store) :
  snd (plan_phase json_loads py_str env a f) = Returns tt ->
  launches (snd (fst (main json_loads py_str env a f))) =
    launches (fst (download_phase env a)) /\
  snd (main json_loads py_str env a f) = snd (download_phase env a).
Proof.
  intros H. rewrite main_unfold.
  pose proof (prints_plan_phase env a f) as P.
  destruct (plan_phase json_loads py_str env a f) as [[f1 tr1] o].
  cbn [fst snd] in H, P. subst o. cbn [fst snd].
  now rewrite launches_app, (prints_launches tr1 P).
Qed.

Lemma download_phase_unfold (env : environment) (a : args) :
  download_phase env a =
  (Launch 0 :: fst (retry_loop (downloader env) (max_retries a) 0 1),
   snd (retry_loop (downloader env) (max_retries a) 0 1)).
Proof.
  unfold download_phase.
  now destruct (retry_loop (downloader env) (max_retries a) 0 1).
Qed.

Lemma download_phase_success (env : environment) (a : args) (k : nat) :
  1 <= k ->
  In (Launch k) (fst (download_phase env a)) ->
  downloader env k = 0%Z ->
  success_stops (fst (download_phase env a)) (snd (download_phase env a)) k.
Proof.
  rewrite download_phase_unfold. cbn [fst snd]. intros Hk [H|H] H0.
  - injection H as <-. lia.
  - destruct (retry_loop_success (downloader env) (max_retries a)
                (Z.to_nat (max_retries a - 0)) 0%Z 1 (le_n _) k H)
      as [_ Hs].
    destruct (Hs H0) as (Ho & (tr0 & E) & Hmax).
    split; [exact Ho|]. split.
    + exists (Launch 0 :: tr0). now rewrite E.
    + intros k' [H'|H']; [injection H' as <-; lia | now apply Hmax].
Qed.

(** C2, amended.  In every run, when a launch of the downloader from the
    loop (a counted attempt: every launch but the first, whose exit
    status is not looked at) exits with status zero, the orchestrator
    reports the success as its last report, launches the downloader no
    more, and [main] returns: the process ends with status zero. *)
Theorem counted_success_stops (env : environment) (a : args) (f : store)
    (k : nat) :
  1 <= k ->
  In (Launch k) (snd (fst (main json_loads py_str env a f))) ->
  downloader env k = 0%Z ->
  success_stops (snd (fst (main json_loads py_str env a f)))
    (snd (main json_loads py_str env a f)) k /\
  exit_status (snd (main json_loads py_str env a f)) = 0%Z.
Proof.
  intros Hk Hin H0. rewrite main_unfold in *.
  pose proof (prints_plan_phase env a f) as P.
  destruct (plan_phase json_loads py_str env a f) as [[f1 tr1] [v|code|e]];
    cbn [fst snd] in Hin, P |- *;
    try (now apply (prints_no_launch tr1 P) in Hin).
  apply in_app_or in Hin.
  destruct Hin as [Hin|Hin]; [now apply (prints_no_launch tr1 P) in Hin|].
  destruct (download_phase_success env a k Hk Hin H0) as (Ho & (tr0 & E) & Hmax).
  split; [|now rewrite Ho]. split; [exact Ho|]. split.
  - exists (tr1 ++ tr0)%list. now rewrite E, List.app_assoc.
  - intros k' H'. apply in_app_or in H'.
    destruct H' as [H'|H']; [now apply (prints_no_launch tr1 P) in H'|].
    now apply Hmax.
Qed.

(** C3.  Once the plan phase has returned: with a downloader that fails
    at every launch and three as the maximum, the downloader is launched
    for the first time and then for three counted attempts, and the
    process ends with status 1; with a downloader whose second counted
    attempt succeeds (the first one failing), and a maximum of two or
    more, it is launched for the first time and for two counted
    attempts, and the process ends with status 0. *)
Theorem retry_budget (env : environment) (a : args) (f : store) :
  snd (plan_phase json_loads py_str env a f) = Returns tt ->
  ((forall k, downloader env k <> 0%Z) ->
   max_retries a = 3%Z ->
   launches (snd (fst (main json_loads py_str env a f))) = [0; 1; 2; 3] /\
   snd (main json_loads py_str env a f) = Exits 1%Z /\
   exit_status (snd (main json_loads py_str env a f)) = 1%Z) /\
  (downloader env 1 <> 0%Z ->
   downloader env 2 = 0%Z ->
   (2 <= max_retries a)%Z ->
   launches (snd (fst (main json_loads py_str env a f))) = [0; 1; 2] /\
   snd (main json_loads py_str env a f) = Returns tt /\
   exit_status (snd (main json_loads py_str env a f)) = 0%Z).
Proof.
  intros P. destruct (main_download env a f P) as [-> ->].
  rewrite download_phase_unfold. cbn [fst snd]. split.
  - intros Hfail ->.
    assert (forall k, (downloader env k =? 0)%Z = false) as Hrc
      by (intros k; apply Z.eqb_neq, Hfail).
    do 3 (rewrite retry_loop_unfold, Hrc; cbn).
    repeat split.
  - intros H1 H2 Hmax.
    apply Z.eqb_neq in H1. apply Z.eqb_eq in H2.
    rewrite retry_loop_unfold, H1.
    replace (0 <? max_retries a)%Z with true by (symmetry; apply Z.ltb_lt; lia).
    replace (0 + 1 =? max_retries a)%Z with false
      by (symmetry; apply Z.eqb_neq; lia).
    rewrite retry_loop_unfold, H2.
    replace (0 + 1 <? max_retries a)%Z with true
      by (symmetry; apply Z.ltb_lt; lia).
    repeat split.
Qed.

(** C9.  With [--max_retries] zero or negative the loop makes no
    attempt: once the plan phase has returned, the downloader is
    launched once, whatever its exit status, and [main] returns, so the
    process ends with status 0. *)
Theorem no_retries_exit_zero (env : environment) (a : args) (f : store) :
  snd (plan_phase json_loads py_str env a f) = Returns tt ->
  (max_retries a <= 0)%Z ->
  launches (snd (fst (main json_loads py_str env a f))) = [0] /\
  snd (main json_loads py_str env a f) = Returns tt /\
  exit_status (snd (main json_loads py_str env a f)) = 0%Z.
Proof.
  intros P Hmax. destruct (main_download env a f P) as [-> ->].
  rewrite download_phase_unfold, retry_loop_unfold.
  replace (0 <? max_retries a)%Z with false by (symmetry; apply Z.ltb_ge; lia).
  repeat split.
Qed.

End Main.

(** A run whose first counted attempt succeeds. *)
Lemma counted_success_stops_witness :
  success_stops
    (snd (fst (main decode no_str env_success args0
                 (cached_store args0 scenario_manifest))))
    (snd (main decode no_str env_success args0
            (cached_store args0 scenario_manifest))) 1 /\
  exit_status
    (snd (main decode no_str env_success args0
            (cached_store args0 scenario_manifest))) = 0%Z.
Proof.
  apply (counted_success_stops decode no_str env_success args0
           (cached_store args0 scenario_manifest) 1).
  - lia.
  - vm_compute. tauto.
  - reflexivity.
Defined.

(** C2 as stated fails for the first launch: it exits with status zero,
    and the downloader is launched again. *)
Lemma first_launch_counterexample :
  let run := main decode no_str env_success args0
               (cached_store args0 scenario_manifest) in
  In (Launch 0) (snd (fst run)) /\
  downloader env_success 0 = 0%Z /\
  launches (snd (fst run)) = [0; 1] /\
  ~ success_stops (snd (fst run)) (snd run) 0.
Proof.
  cbv zeta. split; [vm_compute; tauto|]. split; [reflexivity|].
  split; [vm_compute; reflexivity|].
  intros (_ & _ & H). specialize (H 1). 
  assert (1 <= 0) as Habs by (apply H; vm_compute; tauto). lia.
Qed.

(** The two downloaders of the specification, with three as the
    maximum. *)
Lemma retry_budget_witness :
  (launches (snd (fst (main decode no_str env_failure args0
                         (cached_store args0 scenario_manifest)))) =
     [0; 1; 2; 3] /\
   exit_status (snd (main decode no_str env_failure args0
                       (cached_store args0 scenario_manifest))) = 1%Z) /\
  (launches (snd (fst (main decode no_str env_second args0
                         (cached_store args0 scenario_manifest)))) =
     [0; 1; 2] /\
   exit_status (snd (main decode no_str env_second args0
                       (cached_store args0 scenario_manifest))) = 0%Z).
Proof.
  split.
  - destruct (retry_budget decode no_str env_failure args0
                (cached_store args0 scenario_manifest)) as [H _].
    + vm_compute. reflexivity.
    + destruct H as (L & _ & S).
      * intros k. simpl. discriminate.
      * reflexivity.
      * now split.
  - destruct (retry_budget decode no_str env_second args0
                (cached_store args0 scenario_manifest)) as [_ H].
    + vm_compute. reflexivity.
    + destruct H as (L & _ & S).
      * simpl. discriminate.
      * reflexivity.
      * simpl. lia.
      * now split.
Defined.

(** [--max_retries 0] with a downloader that fails: status 0. *)
Lemma no_retries_exit_zero_witness :
  launches (snd (fst (main decode no_str env_failure
                        (with_max_retries args0 0)
                        (cached_store args0 scenario_manifest)))) = [0] /\
  snd (main decode no_str env_failure (with_max_retries args0 0)
         (cached_store args0 scenario_manifest)) = Returns tt /\
  exit_status (snd (main decode no_str env_failure
                      (with_max_retries args0 0)
                      (cached_store args0 scenario_manifest))) = 0%Z.
Proof.
  apply (no_retries_exit_zero decode no_str env_failure
           (with_max_retries args0 0) (cached_store args0 scenario_manifest)).
  - vm_compute. reflexivity.
  - simpl. lia.
Defined.

End Orchestrator.

(* ================================================================== *)
(** * The record and the plan in [main] *)
(* ================================================================== *)

Module PlanPhase.

Import Json Spec Hfd Examples Invalidator Orchestrator.

Lemma bind_get_store {B : Type} (k : store -> M B) (f : store) :
  bind get_store k f = k f f.
Proof. unfold bind, get_store. now destruct (k f f) as [[f2 tr2] o]. Qed.

Lemma not_generating (tr : list event) :
  forallb is_not_generating tr = true -> ~ In (Print GeneratingFileList) tr.
Proof.
  intros H Hin. rewrite forallb_forall in H. now apply H in Hin.
Qed.

(** Through a computation that does not announce the generation. *)
Lemma bind_not_generating {A B : Type} (m : M A) (k : A -> M B) (f : store) :
  emits_only is_not_generating m ->
  In (Print GeneratingFileList) (snd (fst (bind m k f))) ->
  exists v f1,
    fst (fst (m f)) = f1 /\ snd (m f) = Returns v /\
    In (Print GeneratingFileList) (snd (fst (k v f1))) /\
    fst (fst (bind m k f)) = fst (fst (k v f1)).
Proof.
  intros Hm. specialize (Hm f). unfold bind.
  destruct (m f) as [[f1 tr1] [v|code|e]]; cbn [fst snd] in Hm |- *;
    try (intros Hin; now apply not_generating in Hin).
  destruct (k v f1) as [[f2 tr2] o] eqn:E. cbn [fst snd]. intros Hin.
  apply in_app_or in Hin.
  destruct Hin as [Hin|Hin]; [now apply not_generating in Hin|].
  exists v, f1. now rewrite E.
Qed.

Lemma store_then_print {A : Type} (m : M A) (x : message) (f : store) :
  fst (fst (bind m (fun _ => print x) f)) = fst (fst (m f)).
Proof. unfold bind, print. now destruct (m f) as [[f1 tr1] [v|code|e]]. Qed.

Lemma store_after_print {A : Type} (x : message) (m : M A) (f : store) :
  fst (fst (bind (print x) (fun _ => m) f)) = fst (fst (m f)).
Proof. unfold bind, print. now destruct (m f) as [[f1 tr1] o]. Qed.

Lemma store_after_put {A : Type} (g : store) (m : M A) (f : store) :
  fst (fst (bind (put_store g) (fun _ => m) f)) = fst (fst (m g)).
Proof. unfold bind, put_store. now destruct (m g) as [[f1 tr1] o]. Qed.

Lemma bind_ret {A B : Type} (v : A) (k : A -> M B) (f : store) :
  bind (ret v) k f = k v f.
Proof. unfold bind, ret. now destruct (k v f) as [[f1 tr1] o]. Qed.

Section Phase.

Variable json_loads : string -> exn + json.
Variable py_str : json -> string.

(** [generate_file_list] writes the plan and no other file. *)
Lemma generate_keeps (a : args) (response dir : string) (f : store)
    (q : string) :
  q <> pjoin dir (fileslist_file a) ->
  fst (fst (generate_file_list json_loads py_str a response dir f)) q = f q.
Proof.
  intros Hq.
  assert (forall w g,
            fst (fst (write_plan (pjoin dir (fileslist_file a)) w g)) q = g q)
    as Hw.
  { intros [text [e|]] g; cbn; now apply write_other. }
  unfold generate_file_list.
  destruct (json_loads response) as [e|[| | | | |members]]; try reflexivity.
  - destruct e; try reflexivity. rewrite store_after_print. apply Hw.
  - destruct (iter _); [|reflexivity].
    destruct (rfilenames l); [reflexivity|].
    destruct (filter_files _ _ l0); [reflexivity|].
    apply Hw.
Qed.

(** Whenever [main] announces the generation of the plan, the record is
    the current fingerprint when the plan phase ends, however the
    generation ends. *)
Lemma record_before_generation (env : environment) (a : args) (g : store) :
  In (Print GeneratingFileList)
     (snd (fst (plan_phase json_loads py_str env a g))) ->
  fst (fst (plan_phase json_loads py_str env a g)) (command_file (local_dir a)) =
    Some (generate_command_string a).
Proof.
  unfold plan_phase. rewrite bind_get_store. intros Hin.
  apply bind_not_generating in Hin;
    [|unfold fetch_and_save_metadata; emits].
  destruct Hin as (response & f1 & _ & _ & Hin & ->).
  apply bind_not_generating in Hin; [|unfold check_authentication; emits].
  destruct Hin as ([] & f2 & _ & _ & Hin & ->).
  apply bind_not_generating in Hin; [|unfold should_regenerate_filelist; emits].
  destruct Hin as (b & f3 & Hf3 & Hb & Hin & ->).
  destruct (should_regenerate_cases a (local_dir a) f2)
    as (b' & f' & E & _ & Htrue & _).
  rewrite E in Hf3, Hb. cbn [fst snd] in Hf3, Hb. subst f3.
  injection Hb as <-.
  destruct b'.
  - rewrite store_then_print, bind_get_store, (Htrue eq_refl).
    set (f4 := write f2 (command_file (local_dir a)) (generate_command_string a)).
    assert (forall h : store,
              h (command_file (local_dir a)) = Some (generate_command_string a) ->
              fst (fst (bind (print GeneratingFileList)
                          (fun _ => generate_file_list json_loads py_str a
                                      response (local_dir a)) h))
                (command_file (local_dir a)) =
              Some (generate_command_string a)) as Hgen.
    { intros h Hh. rewrite store_after_print, generate_keeps; [exact Hh|].
      apply command_file_not_plan. }
    destruct (exists_ f4 (fileslist_file a)).
    + rewrite store_after_put. apply Hgen.
      rewrite unlink_other by apply command_file_not_fileslist.
      apply write_same.
    + rewrite bind_ret. apply Hgen. apply write_same.
  - exfalso. cbn in Hin. destruct Hin as [H|[H|[]]]; discriminate.
Qed.

End Phase.

(** C5, amended.  In every working directory [should_regenerate_filelist]
    returns, and it returns [True] exactly when there is no record, or no
    plan, or the record, read back and stripped of the white space at
    its ends, differs from the current fingerprint.  When it returns
    [True] it has written the current fingerprint as the record; when it
    returns [False] it has left the directory as it was, and the record
    read back and stripped is the current fingerprint.  If a plan is
    written after a call that returned [True], and the fingerprint reads
    back as itself (no carriage return, no white space at its ends), the
    next call with the same fingerprint returns [False].  In [main] the
    record is written before the plan is generated: whenever the
    generation is announced, the record is the current fingerprint at
    the end of the plan phase, however the generation ends. *)
Theorem should_regenerate_contract (a : args) (dir : string) (f : store) :
  let current := generate_command_string a in
  let record := command_file dir in
  let plan := pjoin dir (fileslist_file a) in
  (exists (b : bool) (f' : store),
     should_regenerate_filelist a dir f = (f', [], Returns b) /\
     (b = true <->
      f record = None \/ f plan = None \/
      exists text, read f record = Some text /\ Py.strip text <> current) /\
     (b = true -> f' = write f record current) /\
     (b = false ->
      f' = f /\
      exists text, read f record = Some text /\ Py.strip text = current) /\
     (b = true ->
      Py.strip (universal_newlines current) = current ->
      forall plan_text,
        should_regenerate_filelist a dir (write f' plan plan_text) =
        (write f' plan plan_text, [], Returns false))) /\
  (forall json_loads py_str env g,
     In (Print GeneratingFileList)
        (snd (fst (plan_phase json_loads py_str env a g))) ->
     fst (fst (plan_phase json_loads py_str env a g))
       (command_file (local_dir a)) = Some current).
Proof.
  intros current record plan. split.
  - apply should_regenerate_cases.
  - intros json_loads py_str env g. apply record_before_generation.
Qed.

(** The contract in an empty directory: the first call returns [True]
    and records the fingerprint, and once the plan is written the second
    call returns [False]. *)
Lemma should_regenerate_contract_witness :
  exists (b : bool) (f' : store),
    should_regenerate_filelist args0 "m" empty_store = (f', [], Returns b) /\
    b = true /\
    should_regenerate_filelist args0 "m"
      (write f' (pjoin "m" (fileslist_file args0)) "") =
    (write f' (pjoin "m" (fileslist_file args0)) "", [], Returns false).
Proof.
  destruct (should_regenerate_contract args0 "m" empty_store)
    as [(b & f' & E & Hb & _ & _ & Hnext) _].
  assert (b = true) as Ht by (apply Hb; now left).
  exists b, f'. split; [exact E|]. split; [exact Ht|].
  apply Hnext; [exact Ht | reflexivity].
Defined.

End PlanPhase.

(* ================================================================== *)
(** * The verifier and [main] *)
(* ================================================================== *)

Module VerifierUse.

Import Json Spec Hfd Examples Notions.

(** The example of the specification: a declared size of 100 bytes and a
    file of 50 bytes on disk; the file is reported and the answer is
    [False]. *)
Lemma verify_files_first_incomplete_witness :
  verify_files decode half_files "m" two_files_manifest empty_store =
    (empty_store, [Print (Incomplete "m/a.bin")], Returns false).
Proof.
  apply (Verifier.verify_files_first_incomplete decode half_files "m"
           two_files_manifest empty_store
           [("siblings",
             JArr [JObj [("rfilename", JStr "a.bin"); ("size", JNum 100)];
                   JObj [("rfilename", JStr "b.bin"); ("size", JNum 100)]])]
           [JObj [("rfilename", JStr "a.bin"); ("size", JNum 100)];
            JObj [("rfilename", JStr "b.bin"); ("size", JNum 100)]]
           [("a.bin", Some 100%Z); ("b.bin", Some 100%Z)]).
  - vm_compute. reflexivity.
  - reflexivity.
  - repeat constructor; eexists; repeat split; reflexivity.
Defined.

(** The retry loop reports attempts, never a file. *)
Lemma retry_loop_no_report (dl : nat -> Z) (maxr : Z) (n : nat) :
  forall (attempt : Z) (launched : nat),
    Z.to_nat (maxr - attempt) = n ->
    forallb no_incomplete_report
      (fst (retry_loop dl maxr attempt launched)) = true.
Proof.
  induction n as [|n IH]; intros attempt launched Hn;
    rewrite Orchestrator.retry_loop_unfold.
  - replace (attempt <? maxr)%Z with false by (symmetry; apply Z.ltb_ge; lia).
    reflexivity.
  - replace (attempt <? maxr)%Z with true by (symmetry; apply Z.ltb_lt; lia).
    destruct (dl launched =? 0)%Z; [reflexivity|].
    destruct (attempt + 1 =? maxr)%Z; [reflexivity|].
    specialize (IH (attempt + 1)%Z (S launched) ltac:(lia)).
    destruct (retry_loop dl maxr (attempt + 1) (S launched)) as [tr o].
    exact IH.
Qed.

Lemma plan_phase_no_report (json_loads : string -> exn + json)
    (py_str : json -> string) (env : environment) (a : args) :
  emits_only no_incomplete_report (plan_phase json_loads py_str env a).
Proof.
  unfold plan_phase, fetch_and_save_metadata, check_authentication,
    should_regenerate_filelist, generate_file_list, write_plan.
  Orchestrator.emits.
Qed.

Lemma main_no_report (json_loads : string -> exn + json)
    (py_str : json -> string) (env : environment) (a : args) (f : store) :
  forallb no_incomplete_report
    (snd (fst (main json_loads py_str env a f))) = true.
Proof.
  rewrite Orchestrator.main_unfold.
  pose proof (plan_phase_no_report json_loads py_str env a f) as P.
  destruct (plan_phase json_loads py_str env a f) as [[f1 tr1] [v|code|e]];
    cbn [fst snd] in P |- *; try exact P.
  rewrite forallb_app, P, Orchestrator.download_phase_unfold. cbn [fst andb].
  apply (retry_loop_no_report (downloader env) (max_retries a)
           (Z.to_nat (max_retries a - 0))). reflexivity.
Qed.

(** C8.  The defect, and a run that shows it.  [verify_files] has no call
    site: no run of [main], whatever the manifest, the downloader and
    the files on disk, reports an incomplete file.  In the run below the
    manifest declares 100 bytes for [a.bin] and for [b.bin], the
    download ends with success at the first counted attempt, and both
    files have 50 bytes: [main] returns without a report, while
    [verify_files], called on the directory as the run leaves it, would
    report [m/a.bin] and answer [False]. *)
Theorem verifier_not_invoked :
  (forall json_loads py_str env a f,
     filter is_incomplete_report
       (snd (fst (main json_loads py_str env a f))) = []) /\
  let run := main decode no_str env_success args0
               (cached_store args0 two_files_manifest) in
  launches (snd (fst run)) = [0; 1] /\
  In (Print DownloadCompleted) (snd (fst run)) /\
  snd run = Returns tt /\
  filter is_incomplete_report (snd (fst run)) = [] /\
  snd (verify_files decode (stat_size env_success) "m" two_files_manifest
         (fst (fst run))) = Returns false /\
  snd (fst (verify_files decode (stat_size env_success) "m"
              two_files_manifest (fst (fst run)))) =
    [Print (Incomplete "m/a.bin")].
Proof.
  assert (forall tr, forallb no_incomplete_report tr = true ->
                     filter is_incomplete_report tr = []) as Hf.
  { induction tr as [|e tr IH]; [reflexivity|]. cbn [forallb filter].
    unfold no_incomplete_report at 1. intros H.
    apply andb_true_iff in H. destruct H as [He Htr].
    destruct (is_incomplete_report e); [discriminate | now apply IH]. }
  split.
  - intros json_loads py_str env a f. apply Hf, main_no_report.
  - cbv zeta. repeat split; try (vm_compute; reflexivity).
    vm_compute. tauto.
Qed.

End VerifierUse.

(* ================================================================== *)
(** * The model on concrete inputs *)
(* ================================================================== *)

Module Checks.

Import Json Spec Hfd Examples.

Example escape_replace :
  Py.replace "\*" ".*" (Re.escape "a*b.c") = "a.*b\.c".
Proof. reflexivity. Qed.

Example strip_ends : Py.strip (" a b " ++ NL) = "a b".
Proof. reflexivity. Qed.

Example dirname_nested : PosixPath.dirname "vae/x/weights.bin" = "vae/x".
Proof. reflexivity. Qed.

Example dirname_root : PosixPath.dirname "a.bin" = "".
Proof. reflexivity. Qed.

Example basename_nested : PosixPath.basename "vae/x/weights.bin" = "weights.bin".
Proof. reflexivity. Qed.

(** The example of the specification for the pattern matcher. *)
Example include_vae :
  selected ["vae/*"] [] "vae/weights.bin" = Some true /\
  selected ["vae/*"] [] "text/config.json" = Some false.
Proof. split; reflexivity. Qed.

(** The search is not anchored, and a dot of a pattern is a dot. *)
Example exclude_md :
  selected [] ["*.md"] "docs/README.md.bak" = Some false /\
  selected [] ["*.md"] "READMEmd" = Some true.
Proof. split; reflexivity. Qed.

Example decode_scenario :
  decode scenario_manifest =
  inr (JObj [("gated", JBool false);
             ("siblings",
              JArr [JObj [("rfilename", JStr "a.bin"); ("size", JNum 10)];
                    JObj [("rfilename", JStr "README.md")]])]).
Proof. vm_compute. reflexivity. Qed.

(** The limits of the decoder: 4300 digits pass and 4301 do not, also
    behind a sign and before a text that is not JSON; arrays inside one
    another pass as long as there is room for them. *)
Example decode_limits :
  (exists n, decode (Py.times "1" 4300) = inr (JNum n)) /\
  decode (Py.times "1" 4301) = inl ValueError /\
  decode (String "-" (Py.times "1" 4301)) = inl ValueError /\
  decode (Py.times "1" 4301 ++ "x") = inl ValueError /\
  document 4300 3 "[[[]]]" = inr (JArr [JArr [JArr []]]) /\
  document 4300 2 "[[[]]]" = inl TooDeep /\
  document 4300 2 "[[[" = inl TooDeep /\
  decode "[[" = inl JSONDecodeError.
Proof.
  repeat split; try (vm_compute; reflexivity); eexists; vm_compute; reflexivity.
Qed.

(** The gated mark in a text that does not decode. *)
Example truncated_gated :
  decode truncated_manifest = inl JSONDecodeError /\
  check_authentication decode truncated_manifest args0 empty_store =
    (empty_store, [Print AuthRequired], Exits 1%Z).
Proof. split; vm_compute; reflexivity. Qed.

(** The fallback branch: the file names of a text cut in the middle. *)
Example findall_cut :
  findall_rfilename cut_manifest = ["vae/weights.bin"; "README.md"].
Proof. vm_compute. reflexivity. Qed.

Example fallback_plan :
  let r := generate_file_list decode no_str args_wget cut_manifest "m"
             empty_store in
  fst (fst r) "m/.hfd/wget_urls.txt" =
    Some ("https://huggingface.co/org/m/resolve/main/vae/weights.bin" ++ NL ++
          "https://huggingface.co/org/m/resolve/main/README.md" ++ NL) /\
  snd (fst r) = [Print JsonWarning] /\
  snd r = Returns tt.
Proof. vm_compute. repeat split. Qed.

(** The example of the specification for the verifier: files of the
    declared 100 bytes are complete. *)
Example verify_whole :
  verify_files decode whole_files "m" two_files_manifest empty_store =
    (empty_store, [], Returns true).
Proof. vm_compute. reflexivity. Qed.

(** A first run in an empty directory: the manifest is fetched, the
    record and the plan are written, and the downloader fails four
    times. *)
Example first_run :
  let env := {| curl := fun _ _ => (0%Z, Some scenario_manifest);
                downloader := fun _ => 1%Z;
                stat_size := fun _ => None |} in
  let r := main decode no_str env args0 empty_store in
  snd (fst r) =
    [Print FetchingMetadata; Print GeneratingFileList; Print StartingDownload;
     Launch 0;
     Print (AttemptOf 1 3); Launch 1; Print (DownloadFailed 1);
     Print (AttemptOf 2 3); Launch 2; Print (DownloadFailed 1);
     Print (AttemptOf 3 3); Launch 3; Print (DownloadFailed 1);
     Print (MaxRetriesReached 3)] /\
  snd r = Exits 1%Z /\
  fst (fst r) "m/.hfd/last_download_command" =
    Some (generate_command_string args0) /\
  fst (fst r) "m/.hfd/repo_metadata.json" = Some scenario_manifest.
Proof. vm_compute. repeat split. Qed.

End Checks.

(* ================================================================== *)
(** * [validate_number] *)
(* ================================================================== *)

Module Numbers.

Import Cli.

(** ** Texts of ASCII digits *)

Lemma of_string_app (a b : string) :
  of_string (a ++ b) = (of_string a ++ of_string b)%list.
Proof.
  unfold of_string. induction a as [|c a IH]; [reflexivity|].
  cbn [append list_ascii_of_string map app]. now rewrite IH.
Qed.

Lemma length_of_string (s : string) :
  List.length (of_string s) = String.length s.
Proof.
  unfold of_string. induction s as [|c s IH]; [reflexivity|].
  cbn [list_ascii_of_string map List.length String.length]. now rewrite IH.
Qed.

Lemma length_zeros (k : nat) : String.length (zeros k) = k.
Proof. induction k; simpl; congruence. Qed.

Lemma numeral_nonempty (n : Z) : (1 <= n)%Z -> numeral n <> "".
Proof.
  intros H. unfold numeral. destruct n as [|p|p]; try lia.
  simpl. intros E. apply (f_equal NilEmpty.uint_of_string) in E.
  rewrite NilEmpty.usu in E. simpl in E. injection E as E.
  now apply (DecimalPos.Unsigned.to_uint_nonnil p).
Qed.

Section Database.

Variable digit : N -> option N.
Variable decimal : N -> option N.

Lemma isdigit_numeral (d : Decimal.uint) :
  forallb (isdigit_char digit) (of_string (NilEmpty.string_of_uint d)) = true.
Proof. induction d; [reflexivity | exact IHd ..]. Qed.

Lemma isdigit_zeros (k : nat) :
  forallb (isdigit_char digit) (of_string (zeros k)) = true.
Proof. induction k; [reflexivity | exact IHk]. Qed.

(** The digits of a numeral, read after a number that is not zero. *)
Lemma read_numeral_acc (d : Decimal.uint) :
  forall p : positive,
    read_digits decimal (Npos p) (of_string (NilEmpty.string_of_uint d)) =
    Some (Npos (Pos.of_uint_acc d p)).
Proof.
  induction d; intros p; [reflexivity | ..];
    match goal with
    | |- context [of_string (NilEmpty.string_of_uint (?D d))] =>
        let c := eval vm_compute in
          (hd 0%N (of_string (NilEmpty.string_of_uint (D Decimal.Nil)))) in
        change (of_string (NilEmpty.string_of_uint (D d)))
          with (c :: of_string (NilEmpty.string_of_uint d))
    end;
    cbn [read_digits Pos.of_uint_acc];
    match goal with
    | |- context [decimal_value decimal ?c] =>
        change (decimal_value decimal c) with (Some (c - 48)%N)
    end;
    cbv iota; rewrite <- IHd; f_equal; lia.
Qed.

Lemma read_numeral (d : Decimal.uint) :
  read_digits decimal 0 (of_string (NilEmpty.string_of_uint d)) =
  Some (N.of_uint d).
Proof.
  induction d; [reflexivity | exact IHd | ..];
    apply (read_numeral_acc d).
Qed.

Lemma read_zeros (k : nat) (s : text) :
  read_digits decimal 0 (of_string (zeros k) ++ s)%list =
  read_digits decimal 0 s.
Proof. induction k; [reflexivity | exact IHk]. Qed.

(** What [int] read, digit by digit. *)
Lemma read_digits_values (s : text) :
  forall (acc m : N),
    read_digits decimal acc s = Some m ->
    exists ds,
      Forall2 (fun c d => decimal_value decimal c = Some d) s ds /\
      m = fold_left (fun a d => (10 * a + d)%N) ds acc.
Proof.
  induction s as [|c s IH]; intros acc m; cbn [read_digits].
  - intros [= <-]. exists []. split; [constructor | reflexivity].
  - destruct (decimal_value decimal c) as [d|] eqn:E; [|discriminate].
    intros H. destruct (IH _ _ H) as (ds & F & ->).
    exists (d :: ds). split; [now constructor | reflexivity].
Qed.

Lemma isdigit_ascii (s : text) :
  forallb (isdigit_char digit) s = true ->
  Forall (fun c => (c < 128)%N -> (48 <= c <= 57)%N) s.
Proof.
  induction s as [|c s IH]; cbn [forallb]; [constructor|]. intros H.
  apply andb_true_iff in H. destruct H as [Hc Hs].
  constructor; [|now apply IH]. intros Hlt.
  unfold isdigit_char in Hc. apply N.ltb_lt in Hlt. rewrite Hlt in Hc.
  unfold ascii_digit in Hc.
  destruct ((48 <=? c) && (c <=? 57))%N eqn:B; [|discriminate].
  apply andb_true_iff in B. destruct B as [B1 B2].
  apply N.leb_le in B1, B2. lia.
Qed.

(** X1.  A number that [validate_number] returns is between 1 and
    [max_value], and it is the number that the text writes: the text is
    not empty, each of its characters is a decimal digit (of any script;
    among the ASCII characters only the ten digits, so no sign, no blank
    and no letter), the number is the value of these digits, and the
    text is within the digit limit of [int]. *)
Theorem validate_number_sound (limit : nat) (value : text) (max_value n : Z) :
  validate_number digit decimal limit value max_value = Valid n ->
  (1 <= n <= max_value)%Z /\
  value <> [] /\
  (exists ds,
     Forall2 (fun c d => decimal_value decimal c = Some d) value ds /\
     n = Z.of_N (number_of ds)) /\
  Forall (fun c => (c < 128)%N -> (48 <= c <= 57)%N) value /\
  (limit = 0 \/ List.length value <= limit).
Proof.
  unfold validate_number, int_of_digits.
  destruct (isdigit digit value) eqn:D; [|discriminate].
  assert (value <> [] /\ forallb (isdigit_char digit) value = true)
    as [Hne Hall].
  { destruct value; [discriminate|]. split; [discriminate | exact D]. }
  destruct ((negb (limit =? 0) && (limit <? List.length value))%nat) eqn:L;
    [discriminate|].
  destruct (read_digits decimal 0 value) as [m|] eqn:R; [|discriminate].
  cbn [option_map].
  destruct (1 <=? Z.of_N m)%Z eqn:H1; [|discriminate].
  destruct (Z.of_N m <=? max_value)%Z eqn:H2; [|discriminate].
  intros [= <-]. apply Z.leb_le in H1, H2.
  destruct (read_digits_values value 0 m R) as (ds & F & ->).
  split; [lia|]. split; [exact Hne|]. split; [now exists ds|].
  split; [now apply isdigit_ascii|].
  apply andb_false_iff in L. destruct L as [L | L].
  - left. apply negb_false_iff, Nat.eqb_eq in L. exact L.
  - right. now apply Nat.ltb_ge.
Qed.

(** X2.  Every number from 1 to [max_value] is accepted in decimal
    writing, with or without zeros before it, as long as the text is
    within the digit limit of [int]; the number returned is the number
    written. *)
Theorem validate_number_numeral (limit k : nat) (n max_value : Z) :
  (1 <= n <= max_value)%Z ->
  limit = 0 \/ k + String.length (numeral n) <= limit ->
  validate_number digit decimal limit (of_string (zeros k ++ numeral n))
    max_value = Valid n.
Proof.
  intros Hn Hl. unfold validate_number, int_of_digits.
  assert (isdigit digit (of_string (zeros k ++ numeral n)) = true) as ->.
  { rewrite of_string_app. unfold isdigit.
    assert (of_string (numeral n) <> []) as Hne.
    { intros E. apply (f_equal (@List.length N)) in E.
      rewrite length_of_string in E.
      apply (numeral_nonempty n); [lia|].
      now destruct (numeral n). }
    destruct (of_string (zeros k) ++ of_string (numeral n))%list eqn:E.
    - apply app_eq_nil in E. now destruct E.
    - rewrite <- E, forallb_app, isdigit_zeros. apply isdigit_numeral. }
  replace ((negb (limit =? 0) &&
            (limit <? List.length (of_string (zeros k ++ numeral n))))%nat)
    with false.
  - rewrite of_string_app, read_zeros. unfold numeral.
    rewrite read_numeral. cbn [option_map].
    rewrite DecimalN.Unsigned.of_to, Z2N.id by lia.
    replace (1 <=? n)%Z with true by (symmetry; apply Z.leb_le; lia).
    replace (n <=? max_value)%Z with true by (symmetry; apply Z.leb_le; lia).
    reflexivity.
  - symmetry. rewrite length_of_string, StrFacts.length_app, length_zeros.
    destruct Hl as [-> | Hl]; [reflexivity|].
    apply andb_false_iff. right. apply Nat.ltb_ge. exact Hl.
Qed.

End Database.

(** The digit three of the Arabic-Indic digits, U+0663, as a thread
    count: [str.isdigit] takes it and [int] reads 3. *)
Lemma validate_number_sound_witness :
  (1 <= 3 <= 10)%Z /\
  [1635%N] <> [] /\
  (exists ds,
     Forall2 (fun c d => decimal_value unicode_decimal c = Some d)
       [1635%N] ds /\
     3%Z = Z.of_N (number_of ds)) /\
  Forall (fun c => (c < 128)%N -> (48 <= c <= 57)%N) [1635%N] /\
  (4300 = 0 \/ List.length [1635%N] <= 4300).
Proof.
  apply (validate_number_sound unicode_digit unicode_decimal 4300
           [1635%N] 10 3).
  vm_compute. reflexivity.
Defined.

Lemma validate_number_numeral_witness :
  validate_number unicode_digit unicode_decimal 4300 (of_string "0010") 10 =
    Valid 10.
Proof.
  apply (validate_number_numeral unicode_digit unicode_decimal 4300 2 10 10);
    [lia|].
  right. vm_compute. repeat constructor.
Defined.

(** A superscript digit passes [isdigit] and is no literal of [int]; a
    digit of another script is read; a sign, a number out of range and
    the empty text are refused. *)
Example validate_number_superscript :
  let validate := validate_number unicode_digit unicode_decimal 4300 in
  validate [178%N] 10%Z = InvalidLiteral /\
  validate [1635%N] 10%Z = Valid 3 /\
  validate [49%N; 1632%N] 10%Z = Valid 10 /\
  validate (of_string "0") 10%Z = Refused /\
  validate (of_string "11") 10%Z = Refused /\
  validate (of_string "+5") 10%Z = Refused /\
  validate (of_string "") 10%Z = Refused.
Proof. cbv zeta. repeat split; vm_compute; reflexivity. Qed.

End Numbers.

(* ================================================================== *)
(** * More on the pattern matcher *)
(* ================================================================== *)

Module Patterns.

Import Re Spec Glob Hfd ReFacts Notions.

(** Without a star the pieces of a pattern are its characters. *)
Lemma match_here_literal (pat s : string) :
  all_chars not_star pat = true ->
  match_here (pieces pat) s = Py.startswith pat s.
Proof.
  revert s. induction pat as [|c pat IH]; intros s H; [reflexivity|].
  simpl in H. apply andb_true_iff in H. destruct H as [Hc H].
  cbn [pieces]. unfold unit_piece. unfold not_star in Hc.
  apply negb_true_iff in Hc. rewrite Hc.
  destruct s as [|x s]; [reflexivity|].
  cbn [match_here atom_ok Py.startswith]. now rewrite IH.
Qed.

Lemma search_literal (pat s : string) :
  all_chars not_star pat = true ->
  search_from [pieces pat] s = Py.contains pat s.
Proof.
  intros H. induction s as [|c s IH]; cbn [search_from existsb Py.contains].
  - now rewrite match_here_literal, orb_false_r, orb_false_r.
  - now rewrite match_here_literal, IH, orb_false_r.
Qed.

(** X3.  A pattern without a star selects by containment: as an include
    pattern it selects exactly the paths that contain it, and as an
    exclude pattern, if it is not empty, exactly those that do not.
    The characters that mean something in a regular expression stand for
    themselves. *)
Theorem literal_pattern_contains (pat p : string) :
  all_chars not_star pat = true ->
  selected [pat] [] p = Some (Py.contains pat p) /\
  (pat <> "" -> selected [] [pat] p = Some (negb (Py.contains pat p))).
Proof.
  intros H. unfold selected, passes. split.
  - change (pattern_regex []) with "". cbn [Py.str_truthy String.eqb negb].
    destruct (Py.str_truthy (pattern_regex [pat])) eqn:T.
    + rewrite Selection.search_pattern_regex by discriminate.
      cbn [map]. rewrite search_literal by exact H.
      now destruct (Py.contains pat p).
    + apply Selection.str_truthy_false, pattern_regex_empty in T.
      destruct T as [T|T]; [discriminate|]. injection T as ->.
      now destruct p.
  - intros Hne. change (pattern_regex []) with "".
    cbn [Py.str_truthy String.eqb negb].
    destruct (Py.str_truthy (pattern_regex [pat])) eqn:T.
    + rewrite Selection.search_pattern_regex by discriminate.
      cbn [map option_map]. now rewrite search_literal by exact H.
    + apply Selection.str_truthy_false, pattern_regex_empty in T.
      destruct T as [T|T]; [discriminate|]. injection T as ->. congruence.
Qed.

(** The dot of [.md] is a dot: [READMEmd] is not excluded. *)
Lemma literal_pattern_contains_witness :
  selected [".md"] [] "READMEmd" = Some (Py.contains ".md" "READMEmd") /\
  (".md" <> "" ->
   selected [] [".md"] "READMEmd" = Some (negb (Py.contains ".md" "READMEmd"))).
Proof. apply literal_pattern_contains. reflexivity. Defined.

(** ** Stars at the ends of a pattern *)

Lemma glob_match_app_star (pat u w : string) :
  glob_match not_LF pat u ->
  all_chars not_LF w = true ->
  glob_match not_LF (pat ++ "*") (u ++ w).
Proof.
  intros G Hw. induction G as [|c pat u Hc G IH|pat v u Hv G IH].
  - cbn [append]. rewrite <- (StrFacts.app_nil_r w).
    constructor; [exact Hw | constructor].
  - cbn [append]. now constructor.
  - cbn [append]. rewrite StrFacts.app_assoc. now constructor.
Qed.

Lemma glob_match_star_end (pat u : string) :
  glob_match not_LF (pat ++ "*") u ->
  exists u1 w, u = u1 ++ w /\ glob_match not_LF pat u1.
Proof.
  revert u. induction pat as [|c pat IH]; intros u G.
  - exists "", u. split; [reflexivity | constructor].
  - cbn [append] in G.
    inversion G as [|c' pat' u' Hc G'|pat' v u' Hv G']; subst.
    + destruct (IH _ G') as (u1 & w & -> & G1).
      exists (String c u1), w. split; [reflexivity | now constructor].
    + destruct (IH _ G') as (u1 & w & -> & G1).
      exists (v ++ u1), w. split; [now rewrite StrFacts.app_assoc|].
      now constructor.
Qed.

Lemma matches_star_front (pat p : string) :
  pattern_matches not_LF (String "*" pat) p <-> pattern_matches not_LF pat p.
Proof.
  split.
  - intros (pre & u & post & -> & G).
    inversion G as [|c pat' u' Hc G'|pat' v u' Hv G']; subst; [congruence|].
    exists (pre ++ v), u', post. split; [now rewrite !StrFacts.app_assoc|].
    exact G'.
  - intros (pre & u & post & -> & G). exists pre, u, post.
    split; [reflexivity|]. change u with ("" ++ u). now constructor.
Qed.

Lemma matches_star_back (pat p : string) :
  pattern_matches not_LF (pat ++ "*") p <-> pattern_matches not_LF pat p.
Proof.
  split.
  - intros (pre & u & post & -> & G).
    destruct (glob_match_star_end pat u G) as (u1 & w & -> & G1).
    exists pre, u1, (w ++ post). split; [now rewrite !StrFacts.app_assoc|].
    exact G1.
  - intros (pre & u & post & -> & G). exists pre, u, post.
    split; [reflexivity|]. rewrite <- (StrFacts.app_nil_r u).
    now apply glob_match_app_star.
Qed.

Lemma search_single (pat p : string) :
  search_from [pieces pat] p = true <-> pattern_matches not_LF pat p.
Proof.
  rewrite (search_patterns [pat] p). split.
  - intros H. now inversion H as [? ? H'|? ? H']; [|inversion H'].
  - intros H. now constructor.
Qed.

Lemma search_same (pat pat' p : string) :
  (pattern_matches not_LF pat p <-> pattern_matches not_LF pat' p) ->
  search_from [pieces pat] p = search_from [pieces pat'] p.
Proof.
  intros H. apply eq_true_iff_eq. rewrite !search_single. exact H.
Qed.

(** X4.  The search is not anchored, so a star at the front or at the
    end of a pattern changes nothing: [*.md] selects and excludes what
    [.md] does, and [vae/*] what [vae/] does. *)
Theorem star_at_end_redundant (pat p : string) :
  pat <> "" ->
  selected [String "*" pat] [] p = selected [pat] [] p /\
  selected [pat ++ "*"] [] p = selected [pat] [] p /\
  selected [] [String "*" pat] p = selected [] [pat] p /\
  selected [] [pat ++ "*"] p = selected [] [pat] p.
Proof.
  intros Hne. unfold selected, passes. change (pattern_regex []) with "".
  cbn [Py.str_truthy String.eqb negb].
  assert (forall q, q <> "" -> Py.str_truthy (pattern_regex [q]) = true) as T.
  { intros q Hq. destruct (Py.str_truthy (pattern_regex [q])) eqn:E;
      [reflexivity|].
    apply Selection.str_truthy_false, pattern_regex_empty in E.
    destruct E as [E|E]; [discriminate | congruence]. }
  assert (pat ++ "*" <> "") as Hback.
  { intros E. apply StrFacts.app_eq_nil in E. destruct E; discriminate. }
  rewrite (T pat Hne), (T (String "*" pat)) by discriminate.
  rewrite (T (pat ++ "*") Hback).
  rewrite !Selection.search_pattern_regex by discriminate. cbn [map].
  rewrite (search_same (String "*" pat) pat p (matches_star_front pat p)).
  rewrite (search_same (pat ++ "*") pat p (matches_star_back pat p)).
  repeat split.
Qed.

(** [*.md] and [.md]. *)
Lemma star_at_end_redundant_witness :
  selected [] ["*.md"] "docs/README.md.bak" =
  selected [] [".md"] "docs/README.md.bak".
Proof.
  apply (star_at_end_redundant ".md" "docs/README.md.bak"). discriminate.
Defined.

End Patterns.

(* ================================================================== *)
(** * The scan of the fallback branch *)
(* ================================================================== *)

Module Scanner.

Import Json Spec Hfd Notions.

Lemma until_quote_shorter (s g rest : string) :
  until_quote s = Some (g, rest) -> String.length rest < String.length s.
Proof.
  revert g rest. induction s as [|c s IH]; intros g rest; simpl; [discriminate|].
  destruct (c =? Py.DQUOTE)%char.
  - intros [= <- <-]. lia.
  - destruct (until_quote s) as [[g' r']|]; [|discriminate].
    intros [= <- <-]. specialize (IH g' r' eq_refl). lia.
Qed.

Lemma drop_length (n : nat) (s : string) :
  String.length (Py.drop n s) <= String.length s.
Proof.
  revert s. induction n as [|n IH]; intros [|c s]; simpl; try lia.
  specialize (IH s). lia.
Qed.

(** The scan does not depend on the fuel, once there is enough. *)
Lemma findall_fuel (n m : nat) (s : string) :
  String.length s <= n -> String.length s <= m ->
  findall_go n s = findall_go m s.
Proof.
  revert m s. induction n as [|n IH]; intros m s Hn Hm.
  - destruct s; [|simpl in Hn; lia]. now destruct m.
  - destruct m as [|m]; [destruct s; [reflexivity | simpl in Hm; lia]|].
    destruct s as [|c t]; [reflexivity|]. simpl in Hn, Hm.
    cbn [findall_go]. destruct (Py.startswith RFILENAME_KEY (String c t)).
    + pose proof (drop_length (String.length RFILENAME_KEY) (String c t)) as D.
      set (d := Py.drop (String.length RFILENAME_KEY) (String c t)) in *.
      destruct (until_quote d) as [[g rest]|] eqn:U.
      * f_equal. apply until_quote_shorter in U.
        cbn [String.length] in D. apply IH; lia.
      * apply IH; lia.
    + apply IH; lia.
Qed.

Lemma findall_skip (c : ascii) (t : string) :
  Py.startswith RFILENAME_KEY (String c t) = false ->
  findall_rfilename (String c t) = findall_rfilename t.
Proof.
  intros H. unfold findall_rfilename. cbn [String.length findall_go].
  rewrite H. reflexivity.
Qed.

Lemma findall_unclosed (c : ascii) (t : string) :
  until_quote (Py.drop (String.length RFILENAME_KEY) (String c t)) = None ->
  findall_rfilename (String c t) = findall_rfilename t.
Proof.
  intros H. unfold findall_rfilename. cbn [String.length findall_go].
  rewrite H. now destruct (Py.startswith RFILENAME_KEY (String c t)).
Qed.

Lemma startswith_app (k s : string) : Py.startswith k (k ++ s) = true.
Proof.
  induction k as [|c k IH]; [reflexivity|]. simpl.
  now rewrite Ascii.eqb_refl, IH.
Qed.

Lemma drop_app (k s : string) : Py.drop (String.length k) (k ++ s) = s.
Proof. induction k as [|c k IH]; [now destruct s | exact IH]. Qed.

Lemma until_quote_name (name rest : string) :
  quote_free name = true ->
  until_quote (name ++ QUOTE ++ rest) = Some (name, rest).
Proof.
  induction name as [|c name IH]; intros H.
  - reflexivity.
  - cbn [quote_free all_chars] in H. apply andb_true_iff in H.
    destruct H as [Hc H]. apply negb_true_iff in Hc.
    change (String c name ++ QUOTE ++ rest)
      with (String c (name ++ QUOTE ++ rest)).
    cbn [until_quote]. rewrite Hc. now rewrite (IH H).
Qed.

(** At the key, a name and its closing quote: the name is found and the
    scan goes on behind the quote. *)
Lemma findall_entry (name rest : string) :
  quote_free name = true ->
  findall_rfilename (RFILENAME_KEY ++ name ++ QUOTE ++ rest) =
  name :: findall_rfilename rest.
Proof.
  intros H. unfold findall_rfilename.
  remember (RFILENAME_KEY ++ name ++ QUOTE ++ rest) as s eqn:Es.
  assert (Py.startswith RFILENAME_KEY s = true) as Hs
    by (subst s; apply startswith_app).
  assert (until_quote (Py.drop (String.length RFILENAME_KEY) s) =
          Some (name, rest)) as Hu
    by (subst s; rewrite drop_app; now apply until_quote_name).
  destruct s as [|c t]; [discriminate Hs|].
  cbn [String.length findall_go]. rewrite Hs, Hu. f_equal.
  apply findall_fuel; [|lia].
  pose proof (drop_length (String.length RFILENAME_KEY) (String c t)) as D.
  set (d := Py.drop (String.length RFILENAME_KEY) (String c t)) in *.
  apply until_quote_shorter in Hu. cbn [String.length] in D. lia.
Qed.

Lemma last_char_cons (c : ascii) (t : string) :
  t <> "" -> last_char (String c t) = last_char t.
Proof.
  intros H. destruct t as [|d t]; [congruence|]. cbn [last_char].
  destruct (last_char t); reflexivity.
Qed.

(** In front of anything, a quiet text yields nothing. *)
Lemma findall_quiet (filler rest : string) :
  quiet filler = true ->
  findall_rfilename (filler ++ rest) = findall_rfilename rest.
Proof.
  induction filler as [|c t IH]; [reflexivity|]. intros H.
  unfold quiet in H. apply andb_true_iff in H. destruct H as [Hc Hl].
  apply negb_true_iff in Hc. cbn [Py.contains] in Hc.
  apply orb_false_iff in Hc. destruct Hc as [Hs Hc].
  cbn [append]. rewrite findall_skip.
  - apply IH. unfold quiet. rewrite Hc. cbn [negb andb].
    destruct t as [|d t]; [reflexivity|].
    now rewrite last_char_cons in Hl by discriminate.
  - cbn [Py.startswith] in Hs |- *.
    change RFILENAME_KEY with
      (String Py.DQUOTE (String "r" (Py.drop 2 RFILENAME_KEY))).
    cbn [Py.startswith].
    destruct (Py.DQUOTE =? c)%char eqn:Ec; [|reflexivity].
    cbn [andb] in Hs |- *. apply Ascii.eqb_eq in Ec. subst c.
    destruct t as [|d t].
    + cbn in Hl. discriminate.
    + cbn [append]. cbn [Py.startswith] in Hs.
      rewrite andb_true_r in Hs. now rewrite Hs.
Qed.

Lemma count_quotes_app (a b : string) :
  count_quotes (a ++ b) = count_quotes a + count_quotes b.
Proof.
  induction a as [|c a IH]; [reflexivity|]. simpl.
  destruct (c =? Py.DQUOTE)%char; simpl; now rewrite IH.
Qed.

Lemma quote_free_count (s : string) :
  quote_free s = true -> count_quotes s = 0.
Proof.
  induction s as [|c s IH]; [reflexivity|]. simpl. intros H.
  apply andb_true_iff in H. destruct H as [Hc H].
  apply negb_true_iff in Hc. rewrite Hc. auto.
Qed.

Lemma startswith_split (k s : string) :
  Py.startswith k s = true -> s = k ++ Py.drop (String.length k) s.
Proof.
  revert s. induction k as [|c k IH]; intros s H; [now destruct s|].
  destruct s as [|d s]; [discriminate|]. simpl in H.
  apply andb_true_iff in H. destruct H as [Hc H].
  apply Ascii.eqb_eq in Hc. subst d. simpl. f_equal. now apply IH.
Qed.

Lemma until_quote_count (s g rest : string) :
  until_quote s = Some (g, rest) -> 1 <= count_quotes s.
Proof.
  revert g rest. induction s as [|c s IH]; intros g rest; simpl; [discriminate|].
  destruct (c =? Py.DQUOTE)%char; [lia|].
  destruct (until_quote s) as [[g' r']|]; [|discriminate].
  intros _. now apply (IH g' r').
Qed.

(** Four double quotes make a match: three of the key, and the one that
    closes the name. *)
Lemma findall_few_quotes (s : string) :
  count_quotes s < 4 -> findall_rfilename s = [].
Proof.
  induction s as [|c t IH]; [reflexivity|]. intros H.
  assert (count_quotes t < 4) as Ht
    by (simpl in H; destruct (c =? Py.DQUOTE)%char; lia).
  destruct (Py.startswith RFILENAME_KEY (String c t)) eqn:Hs.
  - destruct (until_quote (Py.drop (String.length RFILENAME_KEY) (String c t)))
      as [[g rest]|] eqn:U.
    + exfalso. apply until_quote_count in U.
      apply startswith_split in Hs. rewrite Hs, count_quotes_app in H.
      change (count_quotes RFILENAME_KEY) with 3 in H. lia.
    + rewrite findall_unclosed by exact U. now apply IH.
  - rewrite findall_skip by exact Hs. now apply IH.
Qed.

Lemma findall_entries (entries : list (string * string)) (rest : string) :
  Forall (fun e => quote_free (fst e) = true /\ quiet (snd e) = true) entries ->
  findall_rfilename (entries_text entries ++ rest) =
  (map fst entries ++ findall_rfilename rest)%list.
Proof.
  induction 1 as [|[name filler] entries [Hn Hf] _ IH]; [reflexivity|].
  cbn [entries_text map fst snd app] in *.
  rewrite !StrFacts.app_assoc.
  rewrite findall_entry by exact Hn. f_equal.
  rewrite findall_quiet by exact Hf. exact IH.
Qed.

(** X5.  The scan of the fallback branch finds the names of a compact
    manifest, in their order, also when the text is cut in the middle of
    a name.  The text is some lead, then the entries (each the key, a
    name without a double quote in double quotes, and some text), then
    nothing or a key with the beginning of a name; the key cannot begin
    in the lead or in the text after a name. *)
Theorem findall_compact (lead : string) (entries : list (string * string))
    (cut : string) :
  quiet lead = true ->
  Forall (fun e => quote_free (fst e) = true /\ quiet (snd e) = true) entries ->
  cut = "" \/ (exists tail, cut = RFILENAME_KEY ++ tail /\ quote_free tail = true) ->
  findall_rfilename (lead ++ entries_text entries ++ cut) = map fst entries.
Proof.
  intros Hl He Hc. rewrite findall_quiet by exact Hl.
  rewrite findall_entries by exact He.
  rewrite findall_few_quotes; [apply List.app_nil_r|].
  destruct Hc as [->|(tail & -> & Ht)]; [simpl; lia|].
  rewrite count_quotes_app, (quote_free_count tail Ht).
  change (count_quotes RFILENAME_KEY) with 3. lia.
Qed.

(** A manifest cut in the middle of its third name. *)
Lemma findall_compact_witness :
  findall_rfilename Examples.cut_manifest = ["vae/weights.bin"; "README.md"].
Proof.
  apply (findall_compact
           (String "{" (QUOTE ++ "siblings" ++ QUOTE ++ ":[{"))
           [("vae/weights.bin", "},{"); ("README.md", "},{")]
           (RFILENAME_KEY ++ "text/conf")).
  - reflexivity.
  - repeat constructor.
  - right. exists "text/conf". split; reflexivity.
Defined.

End Scanner.

(* ================================================================== *)
(** * The other branches of the plan generator *)
(* ================================================================== *)

Module PlanBranches.

Import Json Spec Hfd Examples Notions.

Section Branches.

Variable json_loads : string -> exn + json.
Variable py_str : json -> string.

Lemma fallback_entries_text (a : args) (names : list string) :
  fallback_entries py_str a (pattern_regex (include a))
    (pattern_regex (exclude a)) names =
  (plan_text a names, None).
Proof.
  unfold plan_text. induction names as [|p names IH]; [reflexivity|].
  cbn [fallback_entries filter]. unfold is_selected at 1.
  destruct (Selection.selected_total (include a) (exclude a) p) as (b & E).
  unfold selected in E. rewrite E.
  change (selected (include a) (exclude a) p)
    with (passes (pattern_regex (include a)) (pattern_regex (exclude a)) p).
  rewrite E, IH. destruct b.
  - now rewrite PlanGenerator.write_entry_text.
  - reflexivity.
Qed.

(** X6.  When the manifest text does not decode, [generate_file_list]
    warns, scans the text for file names and writes the plan for the
    names that pass the selection test, in the order of the scan; unlike
    the structured branch it keeps an empty name, and it does not
    raise. *)
Theorem generate_file_list_fallback (a : args) (response dir : string)
    (f : store) :
  json_loads response = inl JSONDecodeError ->
  generate_file_list json_loads py_str a response dir f =
    (write f (pjoin dir (fileslist_file a))
       (plan_text a (findall_rfilename response)),
     [Print JsonWarning], Returns tt).
Proof.
  intros E. unfold generate_file_list. rewrite E, fallback_entries_text.
  reflexivity.
Qed.

Lemma rfilenames_maybe (siblings : list json) (paths : list (option string)) :
  Forall2 sibling_maybe_path siblings paths ->
  rfilenames siblings = inr (map JStr (filter nonempty (somes paths))).
Proof.
  induction 1 as [|sib o siblings paths (members & -> & L) _ IH];
    [reflexivity|].
  cbn [rfilenames]. rewrite IH. unfold dict_get. destruct o as [name|].
  - rewrite L. cbn [somes filter truthy]. unfold Py.str_truthy, nonempty.
    destruct (negb (name =? "")); reflexivity.
  - cbn [somes]. destruct L as [L|L]; rewrite L; reflexivity.
Qed.

(** X7.  A sibling entry without [rfilename], or with [null] or the
    empty text for it, is passed over without an error: the plan has the
    entries of the other siblings, as if it were not there. *)
Theorem generate_file_list_skips (a : args) (response dir : string) (f : store)
    (members : list (string * json)) (siblings : list json)
    (paths : list (option string)) :
  json_loads response = inr (JObj members) ->
  dict_get members "siblings" (JArr []) = JArr siblings ->
  Forall2 sibling_maybe_path siblings paths ->
  generate_file_list json_loads py_str a response dir f =
    (write f (pjoin dir (fileslist_file a))
       (plan_text a (filter nonempty (somes paths))), [], Returns tt).
Proof.
  intros E S N. unfold generate_file_list. rewrite E, S. cbn [iter].
  rewrite (rfilenames_maybe siblings paths N).
  rewrite PlanGenerator.filter_files_selected.
  rewrite PlanGenerator.write_entries_text. reflexivity.
Qed.

End Branches.

(** The fallback branch on a manifest cut in the middle. *)
Lemma generate_file_list_fallback_witness :
  generate_file_list decode no_str args_wget cut_manifest "m" empty_store =
    (write empty_store (pjoin "m" (fileslist_file args_wget))
       (plan_text args_wget (findall_rfilename cut_manifest)),
     [Print JsonWarning], Returns tt).
Proof.
  apply (generate_file_list_fallback decode no_str args_wget cut_manifest "m"
           empty_store).
  vm_compute. reflexivity.
Defined.

(** Three siblings: one with a path, one without [rfilename], one with
    [null]. *)
Lemma generate_file_list_skips_witness :
  generate_file_list decode no_str args_wget partial_manifest "m" empty_store =
    (write empty_store (pjoin "m" (fileslist_file args_wget))
       (plan_text args_wget ["a.bin"]), [], Returns tt).
Proof.
  apply (generate_file_list_skips decode no_str args_wget partial_manifest "m"
           empty_store
           [("siblings",
             JArr [JObj [("rfilename", JStr "a.bin")];
                   JObj [("size", JNum 5)];
                   JObj [("rfilename", JNull)]])]
           [JObj [("rfilename", JStr "a.bin")];
            JObj [("size", JNum 5)];
            JObj [("rfilename", JNull)]]
           [Some "a.bin"; None; None]).
  - vm_compute. reflexivity.
  - reflexivity.
  - repeat constructor; eexists; (split; [reflexivity|]);
      first [reflexivity | now left | now right].
Defined.

End PlanBranches.

(* ================================================================== *)
(** * Edges of the verifier *)
(* ================================================================== *)

Module VerifierEdges.

Import Json Spec Hfd Examples Notions.

Lemma verify_loop_prefix (stat : string -> option Z) (dir : string)
    (pre : list json) (entries : list (string * option Z))
    (rest : list json) (f : store) :
  Forall2 sibling_entry pre entries ->
  verify_loop stat dir (pre ++ rest) f =
  match find (incomplete stat dir) entries with
  | Some e => (f, [Print (Incomplete (local_path dir (fst e)))], Returns false)
  | None => verify_loop stat dir rest f
  end.
Proof.
  induction 1 as [|sib e pre entries (members & -> & L & Hs) _ IH];
    [reflexivity|].
  destruct e as [name size]. cbn [fst snd] in L, Hs.
  change ((JObj members :: pre) ++ rest)%list
    with (JObj members :: (pre ++ rest))%list.
  rewrite (Verifier.verify_loop_step stat dir members name size _ f L Hs).
  cbn [find]. destruct (incomplete stat dir (name, size)); [reflexivity|].
  exact IH.
Qed.

Section Edges.

Variable json_loads : string -> exn + json.

(** X8.  A file that is not on disk is never reported: when none of the
    files of the manifest exists locally, [verify_files] returns [True]
    without a report. *)
Theorem verify_files_nothing_on_disk (stat : string -> option Z)
    (dir metadata : string) (f : store) (members : list (string * json))
    (siblings : list json) (entries : list (string * option Z)) :
  json_loads metadata = inr (JObj members) ->
  dict_get members "siblings" (JArr []) = JArr siblings ->
  Forall2 sibling_entry siblings entries ->
  (forall e, In e entries -> stat (local_path dir (fst e)) = None) ->
  verify_files json_loads stat dir metadata f = (f, [], Returns true).
Proof.
  intros E S N Hstat. unfold verify_files. rewrite E, S. cbn [iter].
  rewrite (Verifier.verify_loop_find stat dir siblings entries f N).
  destruct (find (incomplete stat dir) entries) as [e|] eqn:F; [|reflexivity].
  apply find_some in F. destruct F as [Hin He].
  unfold incomplete, discrepancy in He. rewrite (Hstat e Hin) in He.
  destruct (snd e); [|discriminate]. now rewrite andb_false_r in He.
Qed.

(** X9.  A sibling entry without [rfilename] makes [verify_files] raise
    [KeyError], unless an entry before it is incomplete: then that entry
    is reported and the answer is [False]. *)
Theorem verify_files_missing_key (stat : string -> option Z)
    (dir metadata : string) (f : store) (members keyless : list (string * json))
    (before after : list json) (entries : list (string * option Z)) :
  json_loads metadata = inr (JObj members) ->
  dict_get members "siblings" (JArr []) =
    JArr (before ++ JObj keyless :: after) ->
  Forall2 sibling_entry before entries ->
  lookup "rfilename" keyless = None ->
  verify_files json_loads stat dir metadata f =
    match find (incomplete stat dir) entries with
    | Some e => (f, [Print (Incomplete (local_path dir (fst e)))], Returns false)
    | None => (f, [], Raises KeyError)
    end.
Proof.
  intros E S N L. unfold verify_files. rewrite E, S. cbn [iter].
  rewrite (verify_loop_prefix stat dir before entries _ f N).
  cbn [verify_loop]. now rewrite L.
Qed.

End Edges.

Lemma verify_files_nothing_on_disk_witness :
  verify_files decode (fun _ => None) "m" two_files_manifest empty_store =
    (empty_store, [], Returns true).
Proof.
  apply (verify_files_nothing_on_disk decode (fun _ => None) "m"
           two_files_manifest empty_store
           [("siblings",
             JArr [JObj [("rfilename", JStr "a.bin"); ("size", JNum 100)];
                   JObj [("rfilename", JStr "b.bin"); ("size", JNum 100)]])]
           [JObj [("rfilename", JStr "a.bin"); ("size", JNum 100)];
            JObj [("rfilename", JStr "b.bin"); ("size", JNum 100)]]
           [("a.bin", Some 100%Z); ("b.bin", Some 100%Z)]).
  - vm_compute. reflexivity.
  - reflexivity.
  - repeat constructor; eexists; repeat split; reflexivity.
  - reflexivity.
Defined.

(** The second sibling of [partial_manifest] has no [rfilename]; the
    first has no declared size. *)
Lemma verify_files_missing_key_witness :
  verify_files decode half_files "m" partial_manifest empty_store =
    (empty_store, [], Raises KeyError).
Proof.
  apply (verify_files_missing_key decode half_files "m" partial_manifest
           empty_store
           [("siblings",
             JArr [JObj [("rfilename", JStr "a.bin")];
                   JObj [("size", JNum 5)];
                   JObj [("rfilename", JNull)]])]
           [("size", JNum 5)]
           [JObj [("rfilename", JStr "a.bin")]]
           [JObj [("rfilename", JNull)]]
           [("a.bin", None)]).
  - vm_compute. reflexivity.
  - reflexivity.
  - repeat constructor. eexists. repeat split; reflexivity.
  - reflexivity.
Defined.

End VerifierEdges.

(* ================================================================== *)
(** * Credentials and the metadata cache *)
(* ================================================================== *)

Module Metadata.

Import Json Spec Hfd Examples Notions.

Section Cache.

Variable json_loads : string -> exn + json.
Variable py_str : json -> string.


(** X11.  [fetch_and_save_metadata]: when [curl] fails, the error is
    reported, no metadata file is left behind, the other files are as
    they were, and the process ends with status 1; when it succeeds and
    has written the file, the text of the file is returned as it is
    read back. *)
Theorem fetch_and_save_metadata_outcomes (env : environment) (a : args)
    (path : string) (f : store) (returncode : Z) (written : option string) :
  curl env (api_url a)
    (if Py.opt_truthy (hf_token a) then hf_token a else None) =
    (returncode, written) ->
  (returncode <> 0%Z ->
   exists f',
     fetch_and_save_metadata env a path f =
       (f', [Print FetchFailed], Exits 1%Z) /\
     f' path = None /\
     forall q, q <> path -> f' q = f q) /\
  (returncode = 0%Z ->
   forall body, written = Some body ->
     fetch_and_save_metadata env a path f =
       (write f path body, [], Returns (universal_newlines body))).
Proof.
  intros Hcurl. split.
  - intros Hrc. unfold fetch_and_save_metadata, bind, get_store, put_store,
      print, sys_exit, ret.
    rewrite Hcurl. apply Z.eqb_neq in Hrc. rewrite Hrc. cbn [negb].
    set (f1 := match written with
               | Some body => write f path body
               | None => f
               end).
    assert (forall q, q <> path -> f1 q = f q) as Hother.
    { intros q Hq. unfold f1. destruct written; [|reflexivity].
      now apply Invalidator.write_other. }
    unfold exists_. destruct (f1 path) eqn:Hp.
    + eexists. split; [reflexivity|]. split.
      * unfold unlink. now rewrite String.eqb_refl.
      * intros q Hq. rewrite Invalidator.unlink_other by exact Hq. auto.
    + eexists. split; [reflexivity|]. split; [exact Hp | exact Hother].
  - intros -> body ->. unfold fetch_and_save_metadata, bind, get_store,
      put_store, ret.
    rewrite Hcurl. cbn [Z.eqb negb]. unfold read.
    now rewrite Invalidator.write_same.
Qed.

(** X12.  [main] reads the sizes of the local files nowhere, and with a
    cached manifest it does not run [curl]: two environments with the
    same downloader give the same run, and without the cache so do two
    environments with the same [curl] and the same downloader. *)
Theorem main_ignores (a : args) (f : store)
    (curl1 curl2 : string -> option string -> Z * option string)
    (dl : nat -> Z) (stat1 stat2 : string -> option Z) :
  main json_loads py_str
    {| curl := curl1; downloader := dl; stat_size := stat1 |} a f =
  main json_loads py_str
    {| curl := curl1; downloader := dl; stat_size := stat2 |} a f /\
  (f (metadata_file a) <> None ->
   main json_loads py_str
     {| curl := curl1; downloader := dl; stat_size := stat1 |} a f =
   main json_loads py_str
     {| curl := curl2; downloader := dl; stat_size := stat2 |} a f).
Proof.
  split; [reflexivity|]. intros Hm.
  assert (plan_phase json_loads py_str
            {| curl := curl1; downloader := dl; stat_size := stat1 |} a f =
          plan_phase json_loads py_str
            {| curl := curl2; downloader := dl; stat_size := stat2 |} a f) as P.
  { unfold plan_phase. rewrite !PlanPhase.bind_get_store. unfold exists_.
    destruct (f (metadata_file a)); [reflexivity | congruence]. }
  unfold main, bind. rewrite P. reflexivity.
Qed.

End Cache.


Lemma fetch_and_save_metadata_outcomes_witness :
  exists f',
    fetch_and_save_metadata env_offline args0 (metadata_file args0)
      empty_store = (f', [Print FetchFailed], Exits 1%Z) /\
    f' (metadata_file args0) = None /\
    forall q, q <> metadata_file args0 -> f' q = empty_store q.
Proof.
  apply (fetch_and_save_metadata_outcomes env_offline args0
           (metadata_file args0) empty_store 6%Z (Some "<html")).
  - reflexivity.
  - discriminate.
Defined.

Lemma main_ignores_witness :
  main decode no_str
    {| curl := fun _ _ => (0%Z, None); downloader := fun _ => 0%Z;
       stat_size := half_files |} args0
    (cached_store args0 scenario_manifest) =
  main decode no_str
    {| curl := fun _ _ => (6%Z, Some "<html"); downloader := fun _ => 0%Z;
       stat_size := whole_files |} args0
    (cached_store args0 scenario_manifest).
Proof.
  apply (main_ignores decode no_str args0
           (cached_store args0 scenario_manifest)).
  vm_compute. discriminate.
Defined.

End Metadata.

(* ================================================================== *)
(** * The files of the working directory *)
(* ================================================================== *)

Module Layout.

Import Json Spec Hfd Examples Notions Invalidator.

Lemma last_char_metadata (a : args) :
  last_char (metadata_file a) = Some "n"%char.
Proof. unfold metadata_file. now rewrite last_char_pjoin. Qed.

Lemma last_char_plan (a : args) (dir : string) :
  last_char (pjoin dir (fileslist_file a)) = Some "t"%char.
Proof.
  rewrite last_char_pjoin by apply fileslist_nonempty.
  apply last_char_fileslist.
Qed.

Lemma metadata_not_plan (a b : args) (dir : string) :
  metadata_file a <> pjoin dir (fileslist_file b).
Proof.
  intros E. apply (f_equal last_char) in E.
  rewrite last_char_metadata, last_char_plan in E. discriminate.
Qed.

Lemma metadata_not_fileslist (a b : args) :
  metadata_file a <> fileslist_file b.
Proof.
  intros E. apply (f_equal last_char) in E.
  rewrite last_char_metadata, last_char_fileslist in E. discriminate.
Qed.

Lemma metadata_not_command (a : args) (dir : string) :
  metadata_file a <> command_file dir.
Proof.
  intros E. apply (f_equal last_char) in E.
  rewrite last_char_metadata, last_char_command_file in E. discriminate.
Qed.

Lemma plans_of_tools (a b : args) (dir : string) :
  tool a <> tool b ->
  pjoin dir (fileslist_file a) <> pjoin dir (fileslist_file b).
Proof.
  intros Ht E. unfold pjoin, fileslist_file in E.
  assert (tool_name (tool a) = tool_name (tool b)) as En.
  { destruct (tool a), (tool b); cbn [Py.startswith Ascii.eqb] in E;
      try reflexivity; cbn in E; destruct (dir =? ".");
      try discriminate E;
      apply StrFacts.app_inv_head in E; discriminate E. }
  apply Ht. now apply Fingerprint.tool_name_inj.
Qed.

(** X13.  The cached manifest, the fingerprint record and the plans of
    the two tools are four different files, whatever the local
    directory is; and none of the first two is the path, relative to the
    current directory, that [main] removes before it generates a
    plan. *)
Theorem cache_layout (a b : args) (dir : string) :
  metadata_file a <> command_file dir /\
  metadata_file a <> pjoin dir (fileslist_file b) /\
  command_file dir <> pjoin dir (fileslist_file b) /\
  (tool a <> tool b ->
   pjoin dir (fileslist_file a) <> pjoin dir (fileslist_file b)) /\
  metadata_file a <> fileslist_file b /\
  command_file dir <> fileslist_file b.
Proof.
  repeat split.
  - apply metadata_not_command.
  - apply metadata_not_plan.
  - apply command_file_not_plan.
  - apply plans_of_tools.
  - apply metadata_not_fileslist.
  - apply command_file_not_fileslist.
Qed.

End Layout.

(* ================================================================== *)
(** * Runs of [main] *)
(* ================================================================== *)

Module Runs.

Import Json Spec Hfd Examples Notions Invalidator Layout.

Lemma bind_returns {A B : Type} (m : M A) (k : A -> M B) (f f2 : store)
    (tr : list event) (v : B) :
  bind m k f = (f2, tr, Returns v) ->
  exists v1 f1 tr1 tr2,
    m f = (f1, tr1, Returns v1) /\
    k v1 f1 = (f2, tr2, Returns v) /\
    tr = (tr1 ++ tr2)%list.
Proof.
  unfold bind. destruct (m f) as [[f1 tr1] [v1|code|e]]; try discriminate.
  destruct (k v1 f1) as [[f2' tr2] o] eqn:E. intros [= <- <- ->].
  now exists v1, f1, tr1, tr2.
Qed.

Lemma bind_run {A B : Type} (m : M A) (k : A -> M B) (f f1 : store)
    (tr1 : list event) (v1 : A) :
  m f = (f1, tr1, Returns v1) ->
  bind m k f =
  (fst (fst (k v1 f1)), (tr1 ++ snd (fst (k v1 f1)))%list, snd (k v1 f1)).
Proof.
  intros E. unfold bind. rewrite E. now destruct (k v1 f1) as [[f2 tr2] o].
Qed.

Section Run.

Variable json_loads : string -> exn + json.
Variable py_str : json -> string.

Lemma fetch_returns (env : environment) (a : args) (path : string)
    (f f1 : store) (tr : list event) (response : string) :
  fetch_and_save_metadata env a path f = (f1, tr, Returns response) ->
  exists raw, f1 path = Some raw /\ universal_newlines raw = response.
Proof.
  unfold fetch_and_save_metadata, bind, get_store, put_store, print,
    sys_exit, ret, raise.
  destruct (curl env _ _) as [rc written].
  destruct (negb (rc =? 0)%Z).
  - destruct (exists_ _ _); discriminate.
  - unfold read.
    match goal with
    | |- context [option_map _ (?g path)] => destruct (g path) as [raw|] eqn:E
    end; cbn [option_map]; [|discriminate].
    intros [= <- _ <-]. now exists raw.
Qed.

Lemma check_returns (response : string) (a : args) (f f1 : store)
    (tr : list event) :
  check_authentication json_loads response a f = (f1, tr, Returns tt) ->
  f1 = f /\
  forall g, check_authentication json_loads response a g = (g, [], Returns tt).
Proof.
  intros E.
  destruct (Authentication.check_authentication_cases json_loads response a f)
    as [(_ & _ & E') |
        (N & [(v & Ev & Hv & E') | [(e & Ee & He & E') | (Hok & E')]])];
    rewrite E' in E; try discriminate.
  injection E as <- _. split; [reflexivity|]. intros g.
  destruct (Authentication.check_authentication_cases json_loads response a g)
    as [(C & G & _) |
        (_ & [(v & Ev & Hv & _) | [(e & Ee & He & _) | (_ & Eg)]])].
  - now elim N.
  - destruct Hok as [(ms & Ems) | Ed]; [|congruence].
    rewrite Ev in Ems. injection Ems as ->. now elim (Hv ms).
  - destruct Hok as [(ms & Ems) | Ed]; congruence.
  - exact Eg.
Qed.

Lemma generate_returns (a : args) (response dir : string) (f f1 : store)
    (tr : list event) :
  generate_file_list json_loads py_str a response dir f = (f1, tr, Returns tt) ->
  exists text, f1 = write f (pjoin dir (fileslist_file a)) text.
Proof.
  assert (forall w h h1 tr1,
            write_plan (pjoin dir (fileslist_file a)) w h = (h1, tr1, Returns tt) ->
            exists text, h1 = write h (pjoin dir (fileslist_file a)) text) as Hw.
  { intros [text [e|]] h h1 tr1; cbn; [discriminate|].
    intros [= <- _]. now exists text. }
  unfold generate_file_list.
  destruct (json_loads response) as [e|[| | | | |members]]; try discriminate.
  - destruct e; try discriminate.
    intros E. apply bind_returns in E.
    destruct E as ([] & h & tr1 & tr2 & Ep & Ew & _).
    injection Ep as <- _. now apply Hw in Ew.
  - destruct (iter _); [|discriminate].
    destruct (rfilenames l); [discriminate|].
    destruct (filter_files _ _ l0); [discriminate|]. apply Hw.
Qed.

(** What a plan phase that returns leaves in the directory. *)
Lemma plan_phase_returns (env : environment) (a : args) (f f1 : store)
    (tr : list event) :
  plan_phase json_loads py_str env a f = (f1, tr, Returns tt) ->
  exists raw r,
    f1 (metadata_file a) = Some raw /\
    (forall g, check_authentication json_loads (universal_newlines raw) a g =
                 (g, [], Returns tt)) /\
    f1 (pjoin (local_dir a) (fileslist_file a)) <> None /\
    f1 (command_file (local_dir a)) = Some r /\
    (r = generate_command_string a \/
     Py.strip (universal_newlines r) = generate_command_string a).
Proof.
  unfold plan_phase. rewrite PlanPhase.bind_get_store. intros E.
  apply bind_returns in E.
  destruct E as (response & g1 & tr1 & tr2 & Eresp & E & _).
  assert (exists raw, g1 (metadata_file a) = Some raw /\
                      universal_newlines raw = response) as (raw & Hraw & Hresp).
  { unfold exists_ in Eresp. unfold read in Eresp.
    destruct (f (metadata_file a)) as [raw|] eqn:Hm; cbn [negb] in Eresp.
    - cbn in Eresp. injection Eresp as <- _ <-. now exists raw.
    - apply bind_returns in Eresp.
      destruct Eresp as ([] & h & t1 & t2 & Ep & Ef & _).
      now apply fetch_returns in Ef. }
  apply bind_returns in E.
  destruct E as ([] & g2 & tr3 & tr4 & Eca & E & _).
  apply check_returns in Eca. destruct Eca as [-> Hca].
  apply bind_returns in E.
  destruct E as (b & g3 & tr5 & tr6 & Esrf & E & _).
  destruct (should_regenerate_cases a (local_dir a) g1)
    as (b' & g' & Es & Hb & Htrue & Hfalse & _).
  rewrite Es in Esrf. injection Esrf as <- _ <-.
  apply bind_returns in E.
  destruct E as ([] & g4 & tr7 & tr8 & Ebr & Eprint & _).
  injection Eprint as <- _.
  exists raw. subst response. destruct b'.
  - rewrite (Htrue eq_refl) in Ebr.
    rewrite PlanPhase.bind_get_store in Ebr.
    apply bind_returns in Ebr.
    destruct Ebr as ([] & h1 & t1 & t2 & Eun & Ebr & _).
    apply bind_returns in Ebr.
    destruct Ebr as ([] & h2 & t3 & t4 & Ep & Egen & _).
    injection Ep as <- _.
    apply generate_returns in Egen. destruct Egen as (text & ->).
    assert (h1 (metadata_file a) = Some raw /\
            h1 (command_file (local_dir a)) =
              Some (generate_command_string a)) as [Hm Hr].
    { destruct (exists_ (write g1 _ _) (fileslist_file a));
        cbv [put_store ret] in Eun; injection Eun as <- _.
      - rewrite !unlink_other
          by (first [apply metadata_not_fileslist
                    | apply command_file_not_fileslist]).
        rewrite write_other by apply metadata_not_command.
        now rewrite write_same.
      - rewrite write_other by apply metadata_not_command.
        now rewrite write_same. }
    exists (generate_command_string a).
    rewrite write_other by apply metadata_not_plan.
    rewrite write_same.
    rewrite write_other by apply command_file_not_plan.
    repeat split; auto. discriminate.
  - destruct (Hfalse eq_refl) as [-> (text & Hread & Hstrip)].
    injection Ebr as <- _.
    unfold read in Hread.
    destruct (g1 (command_file (local_dir a))) as [r|] eqn:Hr; [|discriminate].
    injection Hread as <-. exists r.
    repeat split; auto.
    intros Hp. assert (false = true) as Habs; [|discriminate].
    apply Hb. right. now left.
Qed.

(** X14.  The downloader is launched only on a prepared directory.
    When a run of [main] has a launch, the plan phase has returned, and
    the cached manifest, the fingerprint record and the plan of the tool
    are among the files that [main] itself leaves (what the downloader
    writes is not followed).  When the plan phase ends otherwise, with
    [sys.exit] or an exception, the run has no launch and ends as the
    plan phase did. *)
Theorem launch_needs_plan (env : environment) (a : args) (f : store) :
  (forall k,
     In (Launch k) (snd (fst (main json_loads py_str env a f))) ->
     snd (plan_phase json_loads py_str env a f) = Returns tt /\
     let f' := fst (fst (main json_loads py_str env a f)) in
     f' (metadata_file a) <> None /\
     f' (command_file (local_dir a)) <> None /\
     f' (pjoin (local_dir a) (fileslist_file a)) <> None) /\
  (snd (plan_phase json_loads py_str env a f) <> Returns tt ->
   launches (snd (fst (main json_loads py_str env a f))) = [] /\
   snd (main json_loads py_str env a f) =
     snd (plan_phase json_loads py_str env a f)).
Proof.
  rewrite Orchestrator.main_unfold.
  pose proof (Orchestrator.prints_plan_phase json_loads py_str env a f) as P.
  destruct (plan_phase json_loads py_str env a f) as [[f1 tr1] [[]|code|e]] eqn:E;
    cbn [fst snd] in P |- *.
  - split; [|intros H; now elim H]. intros k _. split; [reflexivity|].
    destruct (plan_phase_returns env a f f1 tr1 E)
      as (raw & r & Hm & _ & Hp & Hr & _).
    rewrite Hm, Hr. repeat split; try discriminate. exact Hp.
  - split.
    + intros k Hin. now apply (Orchestrator.prints_no_launch tr1 P) in Hin.
    + intros _. split; [now apply Orchestrator.prints_launches | reflexivity].
  - split.
    + intros k Hin. now apply (Orchestrator.prints_no_launch tr1 P) in Hin.
    + intros _. split; [now apply Orchestrator.prints_launches | reflexivity].
Qed.

(** X15.  A second run resumes.  After a plan phase that returned, the
    plan phase of a new run with the same arguments, in the directory as
    it was left, fetches nothing, generates nothing and changes no file:
    it reports the cached manifest and the resumption, whatever [curl]
    would answer.  The fingerprint must read back as itself (no carriage
    return, no white space at its ends). *)
Theorem second_run_resumes (env env' : environment) (a : args)
    (f f1 : store) (tr : list event) :
  plan_phase json_loads py_str env a f = (f1, tr, Returns tt) ->
  Py.strip (universal_newlines (generate_command_string a)) =
    generate_command_string a ->
  plan_phase json_loads py_str env' a f1 =
    (f1,
     [Print UsingCachedMetadata; Print ResumeFromFileList;
      Print StartingDownload],
     Returns tt).
Proof.
  intros E Hs.
  destruct (plan_phase_returns env a f f1 tr E)
    as (raw & r & Hm & Hca & Hp & Hr & Hrec).
  assert (should_regenerate_filelist a (local_dir a) f1 =
            (f1, [], Returns false)) as Hsrf.
  { destruct (should_regenerate_cases a (local_dir a) f1)
      as (b & g & Es & Hb & _ & Hfalse & _).
    destruct b.
    - exfalso. destruct Hb as [Hb _].
      destruct (Hb eq_refl) as [H|[H|(text & Hread & Hne)]].
      + congruence.
      + contradiction.
      + unfold read in Hread. rewrite Hr in Hread. injection Hread as <-.
        destruct Hrec as [->|Hrec]; contradiction.
    - destruct (Hfalse eq_refl) as [-> _]. exact Es. }
  unfold plan_phase. rewrite PlanPhase.bind_get_store.
  unfold exists_. rewrite Hm. cbn [negb].
  rewrite (bind_run _ _ f1 f1 [Print UsingCachedMetadata]
             (universal_newlines raw)).
  - rewrite (bind_run _ _ f1 f1 [] tt) by apply Hca.
    rewrite (bind_run _ _ f1 f1 [] false) by exact Hsrf.
    reflexivity.
  - unfold bind, print, read. rewrite Hm. reflexivity.
Qed.

End Run.

(** A run with a cached manifest and a launch; and a run whose [curl]
    fails, which ends with status 1 before any launch. *)
Lemma launch_needs_plan_witness :
  (snd (plan_phase decode no_str env_success args0
          (cached_store args0 scenario_manifest)) = Returns tt /\
   let f' := fst (fst (main decode no_str env_success args0
                         (cached_store args0 scenario_manifest))) in
   f' (metadata_file args0) <> None /\
   f' (command_file (local_dir args0)) <> None /\
   f' (pjoin (local_dir args0) (fileslist_file args0)) <> None) /\
  (launches (snd (fst (main decode no_str env_offline args0 empty_store))) =
     [] /\
   snd (main decode no_str env_offline args0 empty_store) =
     snd (plan_phase decode no_str env_offline args0 empty_store)).
Proof.
  split.
  - apply (proj1 (launch_needs_plan decode no_str env_success args0
                    (cached_store args0 scenario_manifest)) 0).
    vm_compute. tauto.
  - apply (proj2 (launch_needs_plan decode no_str env_offline args0
                    empty_store)).
    vm_compute. discriminate.
Defined.

(** A first run that fetches the manifest, and the second run with a
    [curl] that fails. *)
Lemma second_run_resumes_witness :
  let first := plan_phase decode no_str env_online args0 empty_store in
  plan_phase decode no_str env_offline args0 (fst (fst first)) =
    (fst (fst first),
     [Print UsingCachedMetadata; Print ResumeFromFileList;
      Print StartingDownload],
     Returns tt).
Proof.
  cbv zeta.
  apply (second_run_resumes decode no_str env_online env_offline args0
           empty_store
           (fst (fst (plan_phase decode no_str env_online args0 empty_store)))
           (snd (fst (plan_phase decode no_str env_online args0 empty_store)))).
  - assert (snd (plan_phase decode no_str env_online args0 empty_store) =
              Returns tt) as H by (vm_compute; reflexivity).
    destruct (plan_phase decode no_str env_online args0 empty_store)
      as [[f1 tr] o]. cbn [fst snd] in *. now subst o.
  - vm_compute. reflexivity.
Defined.

End Runs.

(* ================================================================== *)
(** * A changed parameter *)
(* ================================================================== *)

Module Invalidation.

Import Json Spec Hfd Examples Notions Invalidator.

(** X16.  A change of the repo id, the tool, the dataset flag, the
    endpoint or the revision is noticed: if the record is the
    fingerprint of the last invocation, and reads back as itself, then
    [should_regenerate_filelist] for an invocation that differs in that
    one parameter returns [True] and records the new fingerprint. *)
Theorem changed_parameter_regenerates (q : parameter) (a b : args)
    (dir : string) (f : store) :
  faithful q = true ->
  differ_only_in q a b ->
  ~ agree q a b ->
  f (command_file dir) = Some (generate_command_string a) ->
  Py.strip (universal_newlines (generate_command_string a)) =
    generate_command_string a ->
  should_regenerate_filelist b dir f =
    (write f (command_file dir) (generate_command_string b), [], Returns true).
Proof.
  intros Hq Hd Hn Hrec Hs.
  assert (generate_command_string a <> generate_command_string b) as Hne.
  { intros E. apply Hn. apply Fingerprint.faithful_rendered; [exact Hq|].
    now apply (Fingerprint.fingerprint_single q a b Hd). }
  destruct (should_regenerate_cases b dir f)
    as (r & f' & E & Hb & Htrue & _).
  assert (r = true) as ->.
  { apply Hb. right. right.
    exists (universal_newlines (generate_command_string a)).
    unfold read. rewrite Hrec. split; [reflexivity|]. congruence. }
  now rewrite E, (Htrue eq_refl).
Qed.

Lemma changed_parameter_regenerates_witness :
  should_regenerate_filelist (with_revision args0 "v2") "m"
    (recorded_store args0) =
    (write (recorded_store args0) (command_file "m")
       (generate_command_string (with_revision args0 "v2")), [], Returns true).
Proof.
  apply (changed_parameter_regenerates PRevision args0
           (with_revision args0 "v2") "m" (recorded_store args0)).
  - reflexivity.
  - intros q' Hq. destruct q'; try reflexivity. congruence.
  - simpl. discriminate.
  - reflexivity.
  - vm_compute. reflexivity.
Defined.

End Invalidation.

(* ================================================================== *)
(** * Directory and file name of a plan entry *)
(* ================================================================== *)

Module PathSplit.

Import Spec Notions PosixPath.

Lemma contains_slash_cons (c : ascii) (t : string) :
  Py.contains "/" (String c t) = ("/" =? c)%char || Py.contains "/" t.
Proof. cbn [Py.contains Py.startswith]. now rewrite andb_true_r. Qed.

Lemma split_no_slash (p : string) :
  Py.contains "/" p = false -> split_last_slash p = ("", p).
Proof.
  destruct p as [|c t]; [reflexivity|]. rewrite contains_slash_cons.
  intros H. apply orb_false_iff in H. destruct H as [Hc Ht].
  cbn [split_last_slash]. rewrite Ht. unfold SLASH.
  rewrite Ascii.eqb_sym in Hc. now rewrite Hc.
Qed.

Lemma contains_slash_app (a b : string) :
  Py.contains "/" (a ++ "/" ++ b) = true.
Proof.
  induction a as [|c a IH]; [reflexivity|].
  change (String c a ++ "/" ++ b) with (String c (a ++ "/" ++ b)).
  rewrite contains_slash_cons. rewrite IH. apply orb_true_r.
Qed.

Lemma split_at_last (d b : string) :
  Py.contains "/" b = false ->
  split_last_slash (d ++ "/" ++ b) = (d ++ "/", b).
Proof.
  intros Hb. induction d as [|c d IH].
  - cbn [append split_last_slash]. now rewrite Hb.
  - change (String c d ++ "/" ++ b) with (String c (d ++ "/" ++ b)).
    cbn [split_last_slash]. now rewrite contains_slash_app, IH.
Qed.

Lemma basename_no_slash (p : string) :
  Py.contains "/" (snd (split_last_slash p)) = false.
Proof.
  induction p as [|c t IH]; [reflexivity|]. cbn [split_last_slash].
  destruct (Py.contains "/" t) eqn:Ht.
  - destruct (split_last_slash t) as [h b]. exact IH.
  - destruct (c =? SLASH)%char eqn:Hc; cbn [snd]; [exact Ht|].
    rewrite contains_slash_cons, Ht. unfold SLASH in Hc.
    rewrite Ascii.eqb_sym. now rewrite Hc.
Qed.

Lemma rstrip_slashes_keep (d : string) :
  d <> "" -> last_char d <> Some SLASH -> rstrip_slashes d = d /\ all_slashes d = false.
Proof.
  induction d as [|c d IH]; [congruence|]. intros _ Hl.
  destruct d as [|c' d'].
  - cbn in Hl |- *. destruct (Ascii.eqb_spec c SLASH) as [->|]; [congruence|].
    now split.
  - rewrite Scanner.last_char_cons in Hl by discriminate.
    destruct (IH ltac:(discriminate) Hl) as [Hr Ha].
    remember (String c' d') as t eqn:Et.
    cbn [rstrip_slashes all_slashes]. rewrite Hr, Ha. subst t.
    split; [reflexivity | apply andb_false_r].
Qed.

Lemma rstrip_slashes_slash (d : string) :
  d <> "" -> last_char d <> Some SLASH ->
  rstrip_slashes (d ++ "/") = d /\ all_slashes (d ++ "/") = false.
Proof.
  induction d as [|c d IH]; [congruence|]. intros _ Hl.
  destruct d as [|c' d'].
  - cbn in Hl |- *. destruct (Ascii.eqb_spec c SLASH) as [->|]; [congruence|].
    now split.
  - rewrite Scanner.last_char_cons in Hl by discriminate.
    destruct (IH ltac:(discriminate) Hl) as [Hr Ha].
    remember (String c' d') as t eqn:Et.
    change (String c t ++ "/") with (String c (t ++ "/")).
    cbn [rstrip_slashes all_slashes]. rewrite Hr, Ha. subst t.
    split; [reflexivity | apply andb_false_r].
Qed.

(** X17.  The directory and the file name that an aria2c entry gets.
    The file name never has a slash.  A path without a slash has the
    empty directory and is its own file name; a path [d/b], where [b]
    has no slash and [d] is not empty and does not end with one, has the
    directory [d] and the file name [b]. *)
Theorem dirname_basename_split (p d b : string) :
  Py.contains "/" (basename p) = false /\
  (Py.contains "/" p = false -> dirname p = "" /\ basename p = p) /\
  (Py.contains "/" b = false -> d <> "" -> last_char d <> Some SLASH ->
   dirname (d ++ "/" ++ b) = d /\ basename (d ++ "/" ++ b) = b).
Proof.
  split; [apply basename_no_slash|]. split.
  - intros H. unfold dirname, basename. now rewrite (split_no_slash p H).
  - intros Hb Hd Hl. unfold dirname, basename. rewrite (split_at_last d b Hb).
    cbn [fst snd]. destruct (rstrip_slashes_slash d Hd Hl) as [Hr Ha].
    rewrite Ha, Hr. split; [|reflexivity].
    destruct (d ++ "/" =? "") eqn:E; [|reflexivity].
    apply String.eqb_eq, StrFacts.app_eq_nil in E. destruct E; discriminate.
Qed.

Lemma dirname_basename_split_witness :
  dirname ("vae/x" ++ "/" ++ "weights.bin") = "vae/x" /\
  basename ("vae/x" ++ "/" ++ "weights.bin") = "weights.bin".
Proof.
  apply (dirname_basename_split "" "vae/x" "weights.bin");
    [reflexivity | discriminate | discriminate].
Defined.

End PathSplit.

(* ================================================================== *)
(** * The attempt budget *)
(* ================================================================== *)

Module Budget.

Import Json Spec Hfd Examples Notions Orchestrator.

(** The loop from [attempt] on, with [n] attempts left: either all of
    them fail, or the first that succeeds ends it. *)
Lemma retry_loop_shape (dl : nat -> Z) (maxr : Z) (n : nat) :
  forall (attempt : Z) (launched : nat),
    Z.to_nat (maxr - attempt) = n ->
    (all_fail dl launched n /\
     launches (fst (retry_loop dl maxr attempt launched)) = seq launched n /\
     snd (retry_loop dl maxr attempt launched) =
       (if (n =? 0)%nat then Returns tt else Exits 1%Z)) \/
    (exists j,
       j < n /\ all_fail dl launched j /\ dl (launched + j) = 0%Z /\
       launches (fst (retry_loop dl maxr attempt launched)) =
         seq launched (S j) /\
       snd (retry_loop dl maxr attempt launched) = Returns tt).
Proof.
  induction n as [|n IH]; intros attempt launched Hn;
    rewrite retry_loop_unfold.
  - replace (attempt <? maxr)%Z with false by (symmetry; apply Z.ltb_ge; lia).
    left. repeat split. intros j Hj. lia.
  - replace (attempt <? maxr)%Z with true by (symmetry; apply Z.ltb_lt; lia).
    destruct (dl launched =? 0)%Z eqn:Hrc.
    + right. exists 0. apply Z.eqb_eq in Hrc. rewrite Nat.add_0_r.
      repeat split; [lia | intros j Hj; lia | exact Hrc].
    + apply Z.eqb_neq in Hrc.
      destruct (attempt + 1 =? maxr)%Z eqn:Hlast.
      * apply Z.eqb_eq in Hlast. assert (n = 0) as -> by lia.
        left. repeat split. intros j Hj. assert (j = 0) as -> by lia.
        now rewrite Nat.add_0_r.
      * apply Z.eqb_neq in Hlast.
        destruct (IH (attempt + 1)%Z (S launched) ltac:(lia))
          as [(Hall & Hl & Ho) | (j & Hj & Hall & Hz & Hl & Ho)];
          destruct (retry_loop dl maxr (attempt + 1) (S launched)) as [tr o];
          cbn [fst snd launches] in *.
        -- left. split; [|split].
           ++ intros [|j] Hj; [now rewrite Nat.add_0_r|].
              rewrite Nat.add_succ_r. apply (Hall j). lia.
           ++ now rewrite Hl.
           ++ rewrite Ho. destruct n; [lia | reflexivity].
        -- right. exists (S j). split; [lia|]. split; [|split; [|split]].
           ++ intros [|i] Hi; [now rewrite Nat.add_0_r|].
              rewrite Nat.add_succ_r. apply (Hall i). lia.
           ++ now rewrite Nat.add_succ_r.
           ++ now rewrite Hl.
           ++ exact Ho.
Qed.

Section Attempts.

Variable json_loads : string -> exn + json.
Variable py_str : json -> string.

(** X18.  How a run ends once the plan phase has returned: [main]
    returns (status 0) or ends the process with status 1, and it is
    status 1 exactly when [max_retries] is at least one and every
    counted attempt fails.  The exit status of the first launch plays no
    part. *)
Theorem exit_status_of_run (env : environment) (a : args) (f : store) :
  snd (plan_phase json_loads py_str env a f) = Returns tt ->
  (snd (main json_loads py_str env a f) = Exits 1%Z <->
   (1 <= max_retries a)%Z /\
   all_fail (downloader env) 1 (budget (max_retries a))) /\
  (snd (main json_loads py_str env a f) = Exits 1%Z \/
   snd (main json_loads py_str env a f) = Returns tt).
Proof.
  intros P. destruct (main_download json_loads py_str env a f P) as [_ ->].
  rewrite download_phase_unfold. cbn [snd]. unfold budget.
  destruct (retry_loop_shape (downloader env) (max_retries a)
              (Z.to_nat (max_retries a)) 0%Z 1 ltac:(f_equal; lia))
    as [(Hall & _ & Ho) | (j & Hj & Hall & Hz & _ & Ho)]; rewrite Ho.
  - destruct (Nat.eqb_spec (Z.to_nat (max_retries a)) 0) as [E|E].
    + split; [|now right]. split; [discriminate|]. intros [H _]. lia.
    + split; [|now left]. split; [|reflexivity]. intros _.
      split; [lia | exact Hall].
  - split; [|now right]. split; [discriminate|].
    intros [_ H]. now elim (H j Hj).
Qed.

(** X19.  The launches of a run are numbered from 0 on without a gap,
    and there are at most [max_retries] of them after the first: the
    counted attempts stop with the first that succeeds, or when all that
    [max_retries] allows have failed. *)
Theorem launches_of_run (env : environment) (a : args) (f : store) :
  snd (plan_phase json_loads py_str env a f) = Returns tt ->
  exists m,
    launches (snd (fst (main json_loads py_str env a f))) = seq 0 (S m) /\
    m <= budget (max_retries a) /\
    all_fail (downloader env) 1 (m - 1) /\
    (m < budget (max_retries a) -> 1 <= m /\ downloader env m = 0%Z) /\
    (m = budget (max_retries a) ->
     all_fail (downloader env) 1 m \/ (1 <= m /\ downloader env m = 0%Z)).
Proof.
  intros P. destruct (main_download json_loads py_str env a f P) as [-> _].
  rewrite download_phase_unfold. cbn [fst launches]. unfold budget.
  destruct (retry_loop_shape (downloader env) (max_retries a)
              (Z.to_nat (max_retries a)) 0%Z 1 ltac:(f_equal; lia))
    as [(Hall & Hl & _) | (j & Hj & Hall & Hz & Hl & _)]; rewrite Hl.
  - exists (Z.to_nat (max_retries a)). repeat split; try lia.
    + intros i Hi. apply Hall. lia.
    + now left.
  - exists (S j). change (1 + j) with (S j) in Hz.
    split; [reflexivity|]. split; [lia|]. split; [|split].
    + intros i Hi. apply Hall. lia.
    + intros _. split; [lia | exact Hz].
    + intros _. right. split; [lia | exact Hz].
Qed.

End Attempts.

Lemma exit_status_of_run_witness :
  snd (main decode no_str env_failure args0
         (cached_store args0 scenario_manifest)) = Exits 1%Z <->
  (1 <= max_retries args0)%Z /\
  all_fail (downloader env_failure) 1 (budget (max_retries args0)).
Proof.
  apply (exit_status_of_run decode no_str env_failure args0
           (cached_store args0 scenario_manifest)).
  vm_compute. reflexivity.
Defined.

Lemma launches_of_run_witness :
  exists m,
    launches (snd (fst (main decode no_str env_second args0
                          (cached_store args0 scenario_manifest)))) =
      seq 0 (S m) /\
    m <= budget (max_retries args0) /\
    all_fail (downloader env_second) 1 (m - 1) /\
    (m < budget (max_retries args0) ->
     1 <= m /\ downloader env_second m = 0%Z) /\
    (m = budget (max_retries args0) ->
     all_fail (downloader env_second) 1 m \/
     (1 <= m /\ downloader env_second m = 0%Z)).
Proof.
  apply (launches_of_run decode no_str env_second args0
           (cached_store args0 scenario_manifest)).
  vm_compute. reflexivity.
Defined.

End Budget.

(* ================================================================== *)
(** * The two joins *)
(* ================================================================== *)

Module Joins.

Import Hfd PosixPath.

Lemma join_app (l1 l2 : list string) :
  l1 <> [] -> l2 <> [] ->
  Py.join "/" (l1 ++ l2) = Py.join "/" l1 ++ "/" ++ Py.join "/" l2.
Proof.
  unfold Py.join. intros H1 H2. induction l1 as [|x l1 IH]; [congruence|].
  destruct l1 as [|y l1].
  - destruct l2 as [|z l2]; [congruence | reflexivity].
  - change (String.concat "/" ((x :: y :: l1) ++ l2))
      with (x ++ "/" ++ String.concat "/" ((y :: l1) ++ l2)).
    rewrite IH by discriminate.
    change (String.concat "/" (x :: y :: l1))
      with (x ++ "/" ++ String.concat "/" (y :: l1)).
    now rewrite !StrFacts.app_assoc.
Qed.

Lemma root_startswith (s : string) :
  path_root s = "" <-> Py.startswith "/" s = false.
Proof.
  destruct s as [|c s]; [split; reflexivity|].
  unfold path_root. cbn [Py.startswith].
  destruct (Ascii.eqb "/" c); cbn [andb]; [|split; reflexivity].
  repeat match goal with
         | |- context [if ?b then _ else _] => destruct b
         end; split; discriminate.
Qed.

(** On the text of a path that is not a bare root and a relative text in
    normal form, [pjoin] is the join of [pathlib]. *)
Lemma pjoin_local_path (dir rel : string) :
  str (Path dir) = dir ->
  parts (Path dir) <> [] \/ dir = "." ->
  str (Path rel) = rel ->
  rel <> "." ->
  pjoin dir rel = local_path dir rel.
Proof.
  intros Hd Hp Hr Hdot. unfold pjoin, local_path, joinpath.
  destruct (Py.startswith "/" rel) eqn:S.
  - destruct (path_root rel =? "") eqn:R.
    + apply String.eqb_eq, root_startswith in R. congruence.
    + now rewrite Hr.
  - assert (path_root rel = "") as R by now apply root_startswith.
    rewrite R. cbn [String.eqb].
    assert (rel = Py.join "/" (path_parts rel) /\ path_parts rel <> [])
      as [Hrel Hne].
    { unfold str, Path in Hr. cbn [root parts] in Hr.
      rewrite R in Hr. cbn [append] in Hr.
      destruct (Py.join "/" (path_parts rel) =? "") eqn:E.
      - now elim Hdot.
      - split; [now symmetry|]. intros N. rewrite N in E. discriminate. }
    destruct (String.eqb_spec dir ".") as [->|Hnd].
    + unfold str. cbn [Path path_root path_parts root parts].
      change (path_parts ".") with (@nil string).
      change (path_root ".") with "". cbn [app append].
      rewrite <- Hrel.
      destruct (rel =? "") eqn:E; [|reflexivity].
      apply String.eqb_eq in E. subst rel. now elim Hne.
    + destruct Hp as [Hp | ->]; [|now elim Hnd].
      cbn [Path root parts] in Hp |- *.
      unfold str in Hd |- *. cbn [root parts Path] in Hd |- *.
      rewrite join_app by assumption. rewrite <- Hrel.
      assert (path_root dir ++ Py.join "/" (path_parts dir) = dir) as Hdir.
      { destruct (path_root dir ++ Py.join "/" (path_parts dir) =? "") eqn:E;
          [|exact Hd].
        subst dir. cbn in Hp. now elim Hp. }
      rewrite <- (StrFacts.app_assoc (path_root dir)), Hdir.
      destruct (dir ++ "/" ++ rel =? "") eqn:E; [|reflexivity].
      apply String.eqb_eq, StrFacts.app_eq_nil in E. destruct E as [_ E].
      discriminate.
Qed.

(** Names as a manifest can have them, and the cached manifest of the
    examples as [pathlib] joins it. *)
Example local_path_examples :
  local_path "m" "a.bin" = "m/a.bin" /\
  local_path "m" "./a.bin" = "m/a.bin" /\
  local_path "m" "a.bin/" = "m/a.bin" /\
  local_path "m" "x//y/../z" = "m/x/y/../z" /\
  local_path "m" "/etc/x" = "/etc/x" /\
  local_path "." "a" = "a" /\
  local_path "" "" = "." /\
  metadata_file Examples.args0 =
    local_path (local_path "m" ".hfd") "repo_metadata.json".
Proof. repeat split. Qed.

(** The verifier looks for a file under its normalised path. *)
Example verify_normalised :
  verify_loop Examples.half_files "m"
    [Json.JObj [("rfilename", Json.JStr "./a.bin"); ("size", Json.JNum 100)]]
    Examples.empty_store =
    (Examples.empty_store, [Print (Incomplete "m/a.bin")], Returns false).
Proof. reflexivity. Qed.

End Joins.
